(** * Airport simulation: runway arbitration, shallow embedding

    The repository holds two near-identical programs:
    - [src/airport.js]       : the multi-runway variant (module [Multi]);
    - [src/unnamed/part_000] : the single-runway variant (module [Single]).

    Both share the [Airplane] class.  The [airplanes] array of a trial is
    append-only, so a JavaScript reference to an airplane is modelled as an
    index into that array; fields are read through the array at the moment
    the source reads them, so aliasing is kept. *)

From Stdlib Require Import ZArith QArith Qround Lia List Bool.
From stdpp Require Import base list.
Import ListNotations.

#[local] Close Scope Q_scope.
#[local] Open Scope Z_scope.

(** ** JavaScript numbers that occur in comparisons

    Fuel and altitude are integers; the scans are seeded with the object
    literals [{ fuel: Infinity }], [{ fuel: -Infinity }] and [{}], whose
    missing properties read as [undefined] (NaN in arithmetic). *)

Inductive JsNum : Type :=
| NegInfinity
| Num (z : Z)
| Infinity
| NaN.

Definition js_lt (x y : JsNum) : bool :=
  match x, y with
  | NaN, _ | _, NaN => false
  | NegInfinity, NegInfinity => false
  | NegInfinity, _ => true
  | _, NegInfinity => false
  | Infinity, _ => false
  | Num _, Infinity => true
  | Num a, Num b => a <? b
  end.

Definition js_gt (x y : JsNum) : bool := js_lt y x.

Definition js_ge (x y : JsNum) : bool :=
  match x, y with
  | NaN, _ | _, NaN => false
  | _, NegInfinity => true
  | NegInfinity, _ => false
  | Infinity, _ => true
  | Num _, Infinity => false
  | Num a, Num b => b <=? a
  end.

Definition js_add (x y : JsNum) : JsNum :=
  match x, y with
  | NaN, _ | _, NaN => NaN
  | Infinity, NegInfinity | NegInfinity, Infinity => NaN
  | Infinity, _ | _, Infinity => Infinity
  | NegInfinity, _ | _, NegInfinity => NegInfinity
  | Num a, Num b => Num (a + b)
  end.

(** Truthiness of a number used as a condition. *)
Definition js_truthy (x : JsNum) : bool :=
  match x with
  | NaN => false
  | Num z => negb (z =? 0)
  | _ => true
  end.

(** ** The Airplane class (identical in both files) *)

Record Airplane : Type := mkAirplane {
  planeNumber : Z;
  fuel : Z;
  fuelRate : Z;
  crashed : bool;
  altitude : Z;
  landing : bool;
  landed : bool
}.

Definition set_fuel (v : Z) (a : Airplane) : Airplane :=
  mkAirplane (planeNumber a) v (fuelRate a) (crashed a) (altitude a) (landing a) (landed a).
Definition set_crashed (v : bool) (a : Airplane) : Airplane :=
  mkAirplane (planeNumber a) (fuel a) (fuelRate a) v (altitude a) (landing a) (landed a).
Definition set_altitude (v : Z) (a : Airplane) : Airplane :=
  mkAirplane (planeNumber a) (fuel a) (fuelRate a) (crashed a) v (landing a) (landed a).
Definition set_landing (v : bool) (a : Airplane) : Airplane :=
  mkAirplane (planeNumber a) (fuel a) (fuelRate a) (crashed a) (altitude a) v (landed a).
Definition set_landed (v : bool) (a : Airplane) : Airplane :=
  mkAirplane (planeNumber a) (fuel a) (fuelRate a) (crashed a) (altitude a) (landing a) v.

(** The source of randomness: [Math.random()] is a global stream of numbers
    in [0, 1), idealised here as rationals; [rnd k] is the value returned by
    the [k]-th call, and a cursor counts the calls made so far. *)
Definition RandomSource : Type := nat -> Q.

(** [Math.floor(Math.random() * n)] for the draw [r]. *)
Definition random_below (n : Z) (r : Q) : Z := Qfloor (r * inject_Z n)%Q.

(** [new Airplane(planeNumber)]: one draw for the fuel. *)
Definition Airplane_new (planeNumber : Z) (r : Q) : Airplane :=
  {| planeNumber := planeNumber;
     fuel := random_below 900 r + 100;
     fuelRate := 1;
     crashed := false;
     altitude := 80;
     landing := false;
     landed := false |}.

Definition handleLanding (a : Airplane) : Airplane :=
  let a := set_altitude (altitude a - fuelRate a) a in
  if altitude a =? 0 then set_landed true (set_landing false a) else a.

Definition handleCrash (a : Airplane) : Airplane :=
  if fuel a <=? 0 then set_crashed true a else a.

Definition Airplane_tick (a : Airplane) : Airplane :=
  if negb (crashed a) then
    let a := set_fuel (fuel a - fuelRate a) a in
    if landing a then handleLanding a else handleCrash a
  else a.

(** ** References to objects

    [lowestAirplane], [mostFueledPlane] and [landingPlane] hold either an
    object literal (of which only the [fuel] property matters) or one of the
    airplanes of the trial. *)

Inductive Ref : Type :=
| Literal (fuel_prop : JsNum)
| Plane (i : nat).

#[global] Instance JsNum_eq_dec : EqDecision JsNum.
Proof. solve_decision. Defined.

#[global] Instance Ref_eq_dec : EqDecision Ref.
Proof. solve_decision. Defined.

Definition ref_fuel (store : list Airplane) (r : Ref) : JsNum :=
  match r with
  | Literal f => f
  | Plane i => match store !! i with Some a => Num (fuel a) | None => NaN end
  end.

Definition ref_altitude (store : list Airplane) (r : Ref) : JsNum :=
  match r with
  | Literal _ => NaN
  | Plane i => match store !! i with Some a => Num (altitude a) | None => NaN end
  end.

Definition ref_planeNumber (store : list Airplane) (r : Ref) : JsNum :=
  match r with
  | Literal _ => NaN
  | Plane i => match store !! i with Some a => Num (planeNumber a) | None => NaN end
  end.

(** [r.landing = v]; on an object literal the write is invisible. *)
Definition ref_set_landing (v : bool) (r : Ref) (store : list Airplane) : list Airplane :=
  match r with
  | Literal _ => store
  | Plane i => match store !! i with
               | Some a => <[i := set_landing v a]> store
               | None => store
               end
  end.

(** [array.forEach(body)]: the body runs for the indices 0 .. n-1 in order. *)
Definition forEach {S : Type} (n : nat) (body : nat -> S -> S) (st : S) : S :=
  fold_left (fun st i => body i st) (seq 0 n) st.

(** [recordCrashes]: the number of crashed airplanes goes to the tally of
    the trial's group. *)
Record CrashTally : Type := mkTally { controls : Z; tests : Z }.

Definition count_crashed (airplanes : list Airplane) : Z :=
  fold_left (fun n a => if crashed a then n + 1 else n) airplanes 0.

Definition recordCrashes (control : bool) (airplanes : list Airplane)
    (crashTally : CrashTally) : CrashTally :=
  let n := count_crashed airplanes in
  if control then mkTally (controls crashTally + n) (tests crashTally)
  else mkTally (controls crashTally) (tests crashTally + n).

(** A trial: the fields set by the constructor, shared by both variants. *)
Record Simulation : Type := mkSimulation {
  airplanes : list Airplane;
  frameNumber : Z;
  framerate : Z;
  runNumber : Z;
  control : bool
}.

(** A trial together with the number of [Math.random()] calls made so far. *)
Record World : Type := mkWorld {
  sim : Simulation;
  calls : nat
}.

Definition set_airplanes (l : list Airplane) (s : Simulation) : Simulation :=
  mkSimulation l (frameNumber s) (framerate s) (runNumber s) (control s).
Definition set_frameNumber (n : Z) (s : Simulation) : Simulation :=
  mkSimulation (airplanes s) n (framerate s) (runNumber s) (control s).

(** The result of evaluating [new Simulation(...)]: an object, or an exception. *)
Inductive Completion (A : Type) : Type :=
| Normal (v : A)
| Throw.
Arguments Normal {A} v.
Arguments Throw {A}.

(** [new Simulation(runNumber, control, ...extra)]: the constructor declares
    two parameters; JavaScript drops any further argument of the call. *)
Definition Simulation_new (runNumber : Z) (control : bool) (extra : list Q)
    : Completion Simulation :=
  Normal {| airplanes := [];
            frameNumber := 0;
            framerate := 60;
            runNumber := runNumber;
            control := control |}.

(** The object built by [new Simulation(runNumber, control)]. *)
Definition Simulation_init (runNumber : Z) (control : bool) : Simulation :=
  mkSimulation [] 0 60 runNumber control.

(** [generateAirplane] (identical in both files). *)
Definition generateAirplane (rnd : RandomSource) (w : World) : World :=
  let s := sim w in
  if random_below 100 (rnd (calls w)) =? 0 then
    let nextPlaneNumber := Z.of_nat (length (airplanes s)) + 1 in
    let newAirplane := Airplane_new nextPlaneNumber (rnd (S (calls w))) in
    mkWorld (set_airplanes (airplanes s ++ [newAirplane]) s) (S (S (calls w)))
  else mkWorld s (S (calls w)).

(** The first two statements of [tick] (identical in both files):
    [this.frameNumber += 1] and, after the locals, [this.generateAirplane()]. *)
Definition tick_begin (rnd : RandomSource) (w : World) : World :=
  generateAirplane rnd
    (mkWorld (set_frameNumber (frameNumber (sim w) + 1) (sim w)) (calls w)).

(** The [while (this.frameNumber < 10000) this.tick()] loop of [run], with a
    bound on the number of iterations. *)
Fixpoint run_loop (tick : World -> World) (gas : nat) (w : World) : option World :=
  match gas with
  | O => None
  | S gas' =>
      if frameNumber (sim w) <? 10000 then run_loop tick gas' (tick w)
      else Some w
  end.

(** [run]: the loop, then [recordCrashes(this.control, this.airplanes)]; the
    [console.log(crashTally)] of the last run only prints. *)
Definition run_with (tick : World -> World) (gas : nat) (w : World)
    (crashTally : CrashTally) : option (World * CrashTally) :=
  match run_loop tick gas w with
  | Some w' => Some (w', recordCrashes (control (sim w')) (airplanes (sim w')) crashTally)
  | None => None
  end.

(** ** The multi-runway variant, [src/airport.js] *)
Module Multi.

(** The locals of [tick] during the scan, with the array being mutated. *)
Record ScanState : Type := mkScan {
  store : list Airplane;
  runways : Z;
  planeLanding : bool;
  landingPlanes : list nat;      (* references into [store] *)
  lowestAirplane : Ref
}.

(** Body of the [forEach] callback of [tick] for [airplanes[i]]. *)
Definition scan_body (control : bool) (i : nat) (st : ScanState) : ScanState :=
  match store st !! i with
  | None => st
  | Some airplane =>
      if negb (landed airplane) then
        let airplane := Airplane_tick airplane in
        let store' := <[i := airplane]> (store st) in
        if landing airplane then
          mkScan store'
                 (if negb control then runways st - 1 else runways st)
                 true
                 (landingPlanes st ++ [i])
                 (lowestAirplane st)
        else if js_lt (Num (fuel airplane)) (ref_fuel store' (lowestAirplane st))
                && (altitude airplane <=? fuel airplane) then
          mkScan store' (runways st) (planeLanding st) (landingPlanes st) (Plane i)
        else
          mkScan store' (runways st) (planeLanding st) (landingPlanes st)
                 (lowestAirplane st)
      else st
  end.

Definition scan (control : bool) (airplanes : list Airplane) : ScanState :=
  forEach (length airplanes) (scan_body control)
          (mkScan airplanes 6 false [] (Literal Infinity)).

Definition startPlaneLanding (lowestAirplane : Ref) (store : list Airplane)
    : list Airplane :=
  if js_truthy (Num (Z.of_nat (length store)))
     && js_truthy (ref_planeNumber store lowestAirplane)
  then ref_set_landing true lowestAirplane store
  else store.

(** The loop of [prioritizeLandingOtherPlane] that looks for the most
    fueled landing plane. *)
Definition find_mostFueledPlane (store : list Airplane) (landingPlanes : list nat)
    : Ref :=
  fold_left
    (fun mostFueledPlane p =>
       if js_gt (ref_fuel store mostFueledPlane) (ref_fuel store (Plane p))
       then Plane p else mostFueledPlane)
    landingPlanes (Literal NegInfinity).

Definition prioritizeLandingOtherPlane (lowestAirplane : Ref)
    (landingPlanes : list nat) (store : list Airplane) : list Airplane :=
  let mostFueledPlane := find_mostFueledPlane store landingPlanes in
  if js_lt (ref_fuel store lowestAirplane) (ref_fuel store mostFueledPlane)
     && js_ge (ref_fuel store mostFueledPlane)
              (js_add (Num 81) (ref_altitude store mostFueledPlane))
  then ref_set_landing true lowestAirplane
         (ref_set_landing false mostFueledPlane store)
  else store.

(** What [tick] does after the scan. *)
Definition arbitrate (control : bool) (st : ScanState) : list Airplane :=
  if control then
    if negb (planeLanding st) then startPlaneLanding (lowestAirplane st) (store st)
    else store st
  else
    if js_truthy (Num (runways st)) then
      startPlaneLanding (lowestAirplane st) (store st)
    else
      prioritizeLandingOtherPlane (lowestAirplane st) (landingPlanes st) (store st).

Definition tick (rnd : RandomSource) (w : World) : World :=
  let w := tick_begin rnd w in
  let st := scan (control (sim w)) (airplanes (sim w)) in
  mkWorld (set_airplanes (arbitrate (control (sim w)) st) (sim w)) (calls w).

Definition run (rnd : RandomSource) (gas : nat) (s : Simulation)
    (crashTally : CrashTally) : option (World * CrashTally) :=
  run_with (tick rnd) gas (mkWorld s O) crashTally.

End Multi.

(** ** The single-runway variant, [src/unnamed/part_000] *)
Module Single.

Record ScanState : Type := mkScan {
  store : list Airplane;
  planeLanding : bool;
  landingPlane : Ref;
  lowestAirplane : Ref
}.

(** Body of the [forEach] callback of [tick] for [airplanes[i]]: three
    consecutive [if] statements. *)
Definition scan_body (i : nat) (st : ScanState) : ScanState :=
  match store st !! i with
  | None => st
  | Some airplane =>
      let ticked := negb (landed airplane) in
      let airplane := if ticked then Airplane_tick airplane else airplane in
      let store' := if ticked then <[i := airplane]> (store st) else store st in
      let '(planeLanding', landingPlane') :=
        if landing airplane then (true, Plane i)
        else (planeLanding st, landingPlane st) in
      let lowestAirplane' :=
        if js_lt (Num (fuel airplane)) (ref_fuel store' (lowestAirplane st))
           && (80 <=? fuel airplane)
           && negb (landed airplane)
        then Plane i else lowestAirplane st in
      mkScan store' planeLanding' landingPlane' lowestAirplane'
  end.

Definition scan (airplanes : list Airplane) : ScanState :=
  forEach (length airplanes) scan_body
          (mkScan airplanes false (Literal NaN) (Literal Infinity)).

Definition startPlaneLanding (planeLanding : bool) (lowestAirplane : Ref)
    (store : list Airplane) : list Airplane :=
  if negb planeLanding
     && js_truthy (Num (Z.of_nat (length store)))
     && js_truthy (ref_planeNumber store lowestAirplane)
  then ref_set_landing true lowestAirplane store
  else store.

Definition prioritizeLandingOtherPlane (lowestAirplane landingPlane : Ref)
    (store : list Airplane) : list Airplane :=
  if js_lt (ref_fuel store lowestAirplane) (ref_fuel store landingPlane)
     && js_ge (ref_fuel store landingPlane)
              (js_add (Num 81) (ref_altitude store landingPlane))
  then ref_set_landing true lowestAirplane
         (ref_set_landing false landingPlane store)
  else store.

(** What [tick] does after the scan. *)
Definition arbitrate (control : bool) (st : ScanState) : list Airplane :=
  let store1 := startPlaneLanding (planeLanding st) (lowestAirplane st) (store st) in
  if js_truthy (ref_planeNumber store1 (landingPlane st)) && negb control then
    prioritizeLandingOtherPlane (lowestAirplane st) (landingPlane st) store1
  else store1.

Definition tick (rnd : RandomSource) (w : World) : World :=
  let w := tick_begin rnd w in
  let st := scan (airplanes (sim w)) in
  mkWorld (set_airplanes (arbitrate (control (sim w)) st) (sim w)) (calls w).

Definition run (rnd : RandomSource) (gas : nat) (s : Simulation)
    (crashTally : CrashTally) : option (World * CrashTally) :=
  run_with (tick rnd) gas (mkWorld s O) crashTally.

End Single.

(** A random source given by its first draws; afterwards no airplane spawns. *)
Definition draws_of (l : list Q) : RandomSource := fun k => nth k l (1 # 2)%Q.

(** Draws of one frame: no spawn, or a spawn with a given initial fuel. *)
Definition no_spawn : list Q := [(1 # 2)%Q].
Definition spawn_with (fuel0 : Z) : list Q := [0%Q; ((fuel0 - 100) # 900)%Q].

(** The world after [n] frames of a trial. *)
Definition frames (tick : World -> World) (n : nat) (w : World) : World :=
  Nat.iter n tick w.


(** ** Notions used in the statements *)

(** What one frame's scan does to an airplane: [tick] unless already landed. *)
Definition frame_step (a : Airplane) : Airplane :=
  if negb (landed a) then Airplane_tick a else a.

(** An airplane seen by the multi-runway scan as a landing candidate, in
    terms of its state at the start of the scan. *)
Definition Multi_cand (a0 : Airplane) : bool :=
  negb (landed a0)
  && negb (landing (Airplane_tick a0))
  && (altitude (Airplane_tick a0) <=? fuel (Airplane_tick a0)).

(** The same for the single-runway scan. *)
Definition Single_cand (a0 : Airplane) : bool :=
  (80 <=? fuel (frame_step a0)) && negb (landed (frame_step a0)).

(** [r] is the first airplane of minimal fuel among the eligible airplanes of
    [store], or the [{ fuel: Infinity }] literal when none is eligible. *)
Definition first_min_fuel (eligible : Airplane -> bool) (store : list Airplane)
    (r : Ref) : Prop :=
  match r with
  | Plane i =>
      exists a, store !! i = Some a /\ eligible a = true /\
        forall j b, store !! j = Some b -> eligible b = true ->
          fuel a <= fuel b /\ ((j < i)%nat -> fuel a < fuel b)
  | Literal f =>
      f = Infinity /\ forall j b, store !! j = Some b -> eligible b = false
  end.

(** The waiting airplanes with enough fuel for the rest of their descent,
    as the specification describes the candidates. *)
Definition waiting_with_fuel (a : Airplane) : bool :=
  negb (landing a) && negb (landed a) && negb (crashed a)
  && (altitude a <=? fuel a).

(** The candidates of the single-runway scan: not landed, not crashed, at
    least 80 liters, whether landing or not. *)
Definition unlanded_with_80 (a : Airplane) : bool :=
  negb (landed a) && negb (crashed a) && (80 <=? fuel a).

(** No airplane touches down during this frame's scan. *)
Definition no_touchdown (l : list Airplane) : Prop :=
  forallb (fun a => Bool.eqb (landed (frame_step a)) (landed a)) l = true.

(** Number of airplanes whose [landing] flag is set. *)
Definition count_landing (l : list Airplane) : nat :=
  length (List.filter landing l).

(** At most one airplane of the array has its [landing] flag set. *)
Definition at_most_one_landing (l : list Airplane) : Prop :=
  forall i j a b, l !! i = Some a -> l !! j = Some b ->
    landing a = true -> landing b = true -> i = j.

(** Invariant of every airplane of a trial, in both variants. *)
Record wf_plane (a : Airplane) : Prop := mk_wf {
  wf_rate : fuelRate a = 1;
  wf_number : planeNumber a <> 0;
  wf_alt_hi : altitude a <= 80;
  wf_alt_lo : 0 <= altitude a;
  wf_alt_pos : landed a = false -> 1 <= altitude a;
  wf_crashed : crashed a = true -> fuel a <= 0 /\ landing a = false /\ landed a = false;
  wf_landing : landing a = true -> altitude a <= fuel a;
  wf_landed : landed a = true -> 0 <= fuel a
}.

(** In the single-runway variant a landed airplane is never landing. *)
Definition wf_single (a : Airplane) : Prop :=
  wf_plane a /\ (landed a = true -> landing a = false).

(** The state of a fresh trial. *)
Definition world0 (runNumber : Z) (control : bool) : World :=
  mkWorld (Simulation_init runNumber control) O.

(** The fields of an airplane the claims speak about. *)
Definition flags (a : Airplane) : Z * Z * bool * bool * bool :=
  (fuel a, altitude a, landing a, landed a, crashed a).

(** The two programs of the repository. *)
Inductive Variant : Type := SingleRunway | MultiRunway.

Definition tick_of (v : Variant) : RandomSource -> World -> World :=
  match v with
  | SingleRunway => Single.tick
  | MultiRunway => Multi.tick
  end.

(** The array after the scan of a frame, and the scan's [lowestAirplane]. *)
Definition scanned_store (v : Variant) (control : bool) (l : list Airplane)
    : list Airplane :=
  match v with
  | SingleRunway => Single.store (Single.scan l)
  | MultiRunway => Multi.store (Multi.scan control l)
  end.

Definition best_candidate (v : Variant) (control : bool) (l : list Airplane) : Ref :=
  match v with
  | SingleRunway => Single.lowestAirplane (Single.scan l)
  | MultiRunway => Multi.lowestAirplane (Multi.scan control l)
  end.

(** The array after the whole frame. *)
Definition frame_result (v : Variant) (control : bool) (l : list Airplane)
    : list Airplane :=
  match v with
  | SingleRunway => Single.arbitrate control (Single.scan l)
  | MultiRunway => Multi.arbitrate control (Multi.scan control l)
  end.

(** [run] of either program. *)
Definition run_of (v : Variant) (rnd : RandomSource) (gas : nat) (s : Simulation)
    (crashTally : CrashTally) : option (World * CrashTally) :=
  match v with
  | SingleRunway => Single.run rnd gas s crashTally
  | MultiRunway => Multi.run rnd gas s crashTally
  end.

(** A trial after [n] frames. *)
Definition trial (v : Variant) (rnd : RandomSource) (runNumber : Z)
    (control : bool) (n : nat) : World :=
  frames (tick_of v rnd) n (world0 runNumber control).

(** The airplanes a frame of the trial scans: those of the trial after [n]
    frames, and the one spawned at the start of frame [n + 1], if any. *)
Definition scanned_airplanes (v : Variant) (rnd : RandomSource) (runNumber : Z)
    (control : bool) (n : nat) : list Airplane :=
  airplanes (sim (tick_begin rnd (trial v rnd runNumber control n))).

(** The eligibility that describes each scan's candidates. *)
Definition eligible_of (v : Variant) : Airplane -> bool :=
  match v with
  | SingleRunway => unlanded_with_80
  | MultiRunway => waiting_with_fuel
  end.

Definition set_runNumber (r : Z) (w : World) : World :=
  mkWorld (mkSimulation (airplanes (sim w)) (frameNumber (sim w))
                        (framerate (sim w)) r (control (sim w)))
          (calls w).

(** ** Concrete trials used as examples *)

(** Six airplanes with 500 liters arrive on frames 1 to 6, a seventh with 100
    liters on frame 7. *)
Definition draws_six_then_low : RandomSource :=
  draws_of (concat (repeat (spawn_with 500) 6) ++ spawn_with 100).

(** One airplane with 100 liters arrives on frame 1, nothing until frame 81,
    then six airplanes with 300 liters on frames 82 to 87. *)
Definition draws_one_then_six : RandomSource :=
  draws_of (spawn_with 100 ++ concat (repeat no_spawn 80)
            ++ concat (repeat (spawn_with 300) 6)).

(** Airplanes with 200 and then 300 liters arrive on frames 1 and 2. *)
Definition draws_low_then_high : RandomSource :=
  draws_of (spawn_with 200 ++ spawn_with 300).

(** Airplanes with 300, 200, 250 and 280 liters arrive on frames 1 to 4. *)
Definition draws_four : RandomSource :=
  draws_of (spawn_with 300 ++ spawn_with 200 ++ spawn_with 250 ++ spawn_with 280).

(** The claim that a bad configuration is refused, for a constructor call
    that passes a runway count and a spawn probability after the two declared
    arguments. *)
Definition invalid_configuration (runwayCount spawnProbability : Q) : Prop :=
  (runwayCount <= 0)%Q \/ (spawnProbability < 0)%Q \/ (1 < spawnProbability)%Q.

(** Loop invariant of the candidate search after [k] airplanes were
    scanned, over the array [l] as it was when the scan began: [r] is the
    first candidate of minimal fuel (after its tick) among the first [k]. *)
Definition scan_best (cand : Airplane -> bool) (l : list Airplane) (k : nat)
    (r : Ref) : Prop :=
  match r with
  | Plane i =>
      (i < k)%nat /\ exists a0, l !! i = Some a0 /\ cand a0 = true /\
        forall j b0, (j < k)%nat -> l !! j = Some b0 -> cand b0 = true ->
          fuel (frame_step a0) <= fuel (frame_step b0) /\
          ((j < i)%nat -> fuel (frame_step a0) < fuel (frame_step b0))
  | Literal f =>
      f = Infinity /\
      forall j b0, (j < k)%nat -> l !! j = Some b0 -> cand b0 = false
  end.

(** The array during a scan: the first [k] airplanes have had their frame
    step, the others are untouched. *)
Definition scanned_upto (l : list Airplane) (k : nat) (store : list Airplane)
    : Prop :=
  (forall j, (j < k)%nat -> store !! j = frame_step <$> l !! j) /\
  (forall j, (k <= j)%nat -> store !! j = l !! j).

(** Loop invariant of the single-runway scan for [landingPlane]: the last
    of the first [k] airplanes that is landing after its frame step, or the
    [{}] literal when none is. *)
Definition last_lander (l : list Airplane) (k : nat) (r : Ref) : Prop :=
  match r with
  | Plane j =>
      (j < k)%nat /\ exists b0, l !! j = Some b0 /\ landing (frame_step b0) = true /\
        forall j' c0, (j < j' < k)%nat -> l !! j' = Some c0 ->
          landing (frame_step c0) = false
  | Literal f =>
      f = NaN /\
      forall j b0, (j < k)%nat -> l !! j = Some b0 -> landing (frame_step b0) = false
  end.

Definition is_plane (r : Ref) : bool :=
  match r with Plane _ => true | Literal _ => false end.

(** ** Notions used for the rest of the code *)

(** A value [Math.random()] can return: at least 0 and below 1. *)
Definition unit_draw (r : Q) : Prop := (0 <= r)%Q /\ (r < 1)%Q.

(** A random source all of whose draws are in [0, 1). *)
Definition valid_draws (rnd : RandomSource) : Prop := forall k, unit_draw (rnd k).

(** A source that returns 1/2 for ever: nothing spawns. *)
Definition draws_half : RandomSource := fun _ => (1 # 2)%Q.

(** The scan's candidate test of each variant. *)
Definition cand_of (v : Variant) : Airplane -> bool :=
  match v with
  | SingleRunway => Single_cand
  | MultiRunway => Multi_cand
  end.

(** What a whole frame can make of the airplane [a0] it scans: its frame
    step, with [landing] raised if it is a candidate, or (single-runway
    only) lowered if it is landing with 81 liters above its altitude. *)
Definition frame_outcome (v : Variant) (a0 a' : Airplane) : Prop :=
  a' = frame_step a0 \/
  (cand_of v a0 = true /\ a' = set_landing true (frame_step a0)) \/
  (v = SingleRunway /\ landing (frame_step a0) = true /\
   81 + altitude (frame_step a0) <= fuel (frame_step a0) /\
   a' = set_landing false (frame_step a0)).

(** Facts about the fuel and altitude of an airplane of a trial. *)
Definition fuel_ok (a : Airplane) : Prop :=
  0 <= fuel a <= 999 /\
  (crashed a = true -> fuel a = 0) /\
  (crashed a = false -> landed a = false -> 1 <= fuel a).

Definition altitude_ok (a : Airplane) : Prop :=
  0 <= altitude a <= 80 /\
  (landed a = true <-> altitude a = 0).

(** An airplane that occupies a runway: landing and not landed yet. *)
Definition active (a : Airplane) : bool := landing a && negb (landed a).

Definition count_active (l : list Airplane) : nat :=
  length (List.filter active l).

(** An airplane that the multi-runway scan counts as landing, in terms of
    its state when the scan begins. *)
Definition Multi_lander (a0 : Airplane) : bool :=
  negb (landed a0) && landing (Airplane_tick a0).

(** The indices below [k] of the airplanes of [l] that satisfy [g]. *)
Definition indices_where (g : Airplane -> bool) (l : list Airplane) (k : nat)
    : list nat :=
  List.filter (fun i => match l !! i with Some a0 => g a0 | None => false end)
              (seq 0 k).

(** ** The program: the loop over the trials at the end of each file *)

(** [s.run()] with its last statement, [if (this.runNumber === printAt)
    console.log(crashTally)]: the tallies printed so far are kept in a list.
    The function is [async] but awaits nothing, so the call runs to its end
    before the loop goes on.  [printAt] is [maxRuns] in [src/airport.js] and
    100 in [src/unnamed/part_000]. *)
Definition run_and_print (tick : World -> World) (gas : nat) (printAt : Z)
    (w : World) (crashTally : CrashTally) (printed : list CrashTally)
    : option (World * CrashTally * list CrashTally) :=
  match run_with tick gas w crashTally with
  | Some (w', tally') =>
      Some (w', tally',
            if runNumber (sim w') =? printAt then printed ++ [tally'] else printed)
  | None => None
  end.

(** [for (let i = 1; i <= maxRuns; i++) { let s = new Simulation(i, i % 2 === 0);
    s.run(); }], from the value [i] of the counter on.  The trials share the
    global random source, so each starts at the number of draws [drawn]
    where the one before stopped, and the global [crashTally]. *)
Fixpoint main_loop (tick : World -> World) (gas loop_gas : nat)
    (maxRuns printAt : Z) (i : Z) (drawn : nat) (crashTally : CrashTally)
    (printed : list CrashTally) : option (nat * CrashTally * list CrashTally) :=
  match loop_gas with
  | O => None
  | S loop_gas' =>
      if i <=? maxRuns then
        match run_and_print tick gas printAt
                (mkWorld (Simulation_init i (Z.rem i 2 =? 0)) drawn)
                crashTally printed with
        | Some (w', tally', printed') =>
            main_loop tick gas loop_gas' maxRuns printAt (i + 1)
                      (calls w') tally' printed'
        | None => None
        end
      else Some (drawn, crashTally, printed)
  end.

(** The number of trials of each program and the run that prints. *)
Definition maxRuns_of (v : Variant) : Z :=
  match v with SingleRunway => 1000 | MultiRunway => 10000 end.
Definition printAt_of (v : Variant) : Z :=
  match v with SingleRunway => 100 | MultiRunway => 10000 end.

(** The whole program: [crashTally = { controls: 0, tests: 0 }], then the
    loop from [i = 1]. *)
Definition main (v : Variant) (rnd : RandomSource) (gas loop_gas : nat)
    : option (nat * CrashTally * list CrashTally) :=
  main_loop (tick_of v rnd) gas loop_gas (maxRuns_of v) (printAt_of v) 1 O
            (mkTally 0 0) [].

(** The tally after the trials that ended in the worlds [ws], in order. *)
Definition tally_after (crashTally : CrashTally) (ws : list World) : CrashTally :=
  fold_left (fun t w => recordCrashes (control (sim w)) (airplanes (sim w)) t)
            ws crashTally.

(** The number of airplanes that entered the airspace over the trials [ws]. *)
Definition spawned (ws : list World) : nat :=
  fold_right (fun w n => (length (airplanes (sim w)) + n)%nat) O ws.

(** * Properties *)

(** ** Loops and lists *)

Lemma forEach_S {S : Type} (n : nat) (body : nat -> S -> S) (st : S) :
  forEach (Datatypes.S n) body st = body n (forEach n body st).
Proof.
  unfold forEach. rewrite seq_S, fold_left_app. reflexivity.
Qed.

Lemma frames_S (tick : World -> World) (n : nat) (w : World) :
  frames tick (S n) w = tick (frames tick n w).
Proof. reflexivity. Qed.

Lemma trial_S (v : Variant) (rnd : RandomSource) (runNumber : Z) (control : bool)
    (n : nat) :
  trial v rnd runNumber control (S n)
  = tick_of v rnd (trial v rnd runNumber control n).
Proof. reflexivity. Qed.

(** ** The airplane's own transition *)

Lemma Airplane_tick_crashed (a : Airplane) :
  crashed a = true -> Airplane_tick a = a.
Proof. intros H. unfold Airplane_tick. rewrite H. reflexivity. Qed.

Lemma Airplane_tick_landing (a : Airplane) :
  crashed a = false -> landing a = true ->
  Airplane_tick a =
    if altitude a - fuelRate a =? 0
    then mkAirplane (planeNumber a) (fuel a - fuelRate a) (fuelRate a) false
                    (altitude a - fuelRate a) false true
    else mkAirplane (planeNumber a) (fuel a - fuelRate a) (fuelRate a) false
                    (altitude a - fuelRate a) true (landed a).
Proof.
  intros Hc Hl. destruct a as [pn f fr c al lg ld]; simpl in *; subst.
  unfold Airplane_tick, handleLanding; simpl.
  destruct (al - fr =? 0); reflexivity.
Qed.

Lemma Airplane_tick_waiting (a : Airplane) :
  crashed a = false -> landing a = false ->
  Airplane_tick a =
    mkAirplane (planeNumber a) (fuel a - fuelRate a) (fuelRate a)
               (fuel a - fuelRate a <=? 0) (altitude a) false (landed a).
Proof.
  intros Hc Hl. destruct a as [pn f fr c al lg ld]; simpl in *; subst.
  unfold Airplane_tick, handleCrash; simpl.
  destruct (f - fr <=? 0); reflexivity.
Qed.

Lemma frame_step_landed (a : Airplane) : landed a = true -> frame_step a = a.
Proof. intros H. unfold frame_step. rewrite H. reflexivity. Qed.

Lemma frame_step_unlanded (a : Airplane) :
  landed a = false -> frame_step a = Airplane_tick a.
Proof. intros H. unfold frame_step. rewrite H. reflexivity. Qed.

Lemma wf_frame_step (a : Airplane) : wf_plane a -> wf_plane (frame_step a).
Proof.
  intros [H1 H2 H3 H4 H5 H6 H7 H8].
  destruct a as [pn f fr c al lg ld]; simpl in *; subst fr.
  destruct ld; [rewrite frame_step_landed by reflexivity; constructor; simpl; auto|].
  destruct c.
  { destruct (H6 eq_refl) as (? & -> & _).
    unfold frame_step, Airplane_tick; simpl. constructor; simpl; auto. }
  specialize (H5 eq_refl).
  destruct lg.
  - specialize (H7 eq_refl).
    rewrite frame_step_unlanded, Airplane_tick_landing by reflexivity; simpl.
    destruct (Z.eqb_spec (al - 1) 0); constructor; simpl; intros;
      try congruence; try lia; repeat split; try congruence; lia.
  - rewrite frame_step_unlanded, Airplane_tick_waiting by reflexivity; simpl.
    constructor; simpl; intros; repeat split; try congruence; try lia.
Qed.

Lemma wf_single_frame_step (a : Airplane) : wf_single a -> wf_single (frame_step a).
Proof.
  intros [Hwf Hl]. split; [apply wf_frame_step; exact Hwf|].
  destruct Hwf as [H1 H2 H3 H4 H5 H6 H7 H8].
  destruct a as [pn f fr c al lg ld]; simpl in *; subst fr.
  destruct ld; [rewrite frame_step_landed by reflexivity; simpl; auto|].
  destruct c.
  { destruct (H6 eq_refl) as (? & -> & _).
    unfold frame_step, Airplane_tick; simpl. congruence. }
  destruct lg.
  - rewrite frame_step_unlanded, Airplane_tick_landing by reflexivity; simpl.
    destruct (Z.eqb_spec (al - 1) 0); simpl; congruence.
  - rewrite frame_step_unlanded, Airplane_tick_waiting by reflexivity; simpl.
    congruence.
Qed.

Lemma wf_Airplane_new (n : Z) (r : Q) : n <> 0 -> wf_single (Airplane_new n r).
Proof.
  intros Hn. split; [constructor|]; simpl; intros; try congruence; try lia.
Qed.

(** Admission of a multi-runway candidate keeps the invariant. *)
Lemma wf_admit_multi (a0 : Airplane) :
  wf_plane a0 -> Multi_cand a0 = true ->
  wf_plane (set_landing true (frame_step a0)).
Proof.
  intros Hwf Hc. unfold Multi_cand in Hc.
  apply andb_prop in Hc as [Hc Hfa]. apply andb_prop in Hc as [Hld Hlg].
  apply negb_true_iff in Hld, Hlg. apply Z.leb_le in Hfa.
  rewrite frame_step_unlanded by exact Hld.
  pose proof (wf_frame_step a0 Hwf) as Hwf'.
  rewrite frame_step_unlanded in Hwf' by exact Hld.
  destruct Hwf' as [H1 H2 H3 H4 H5 H6 H7 H8].
  destruct (Airplane_tick a0) as [pn f fr c al lg ld]; simpl in *.
  constructor; simpl; auto.
  intros ->. destruct (H6 eq_refl) as (Hf & _ & ->).
  specialize (H5 eq_refl). lia.
Qed.

(** Admission of a single-runway candidate keeps the invariant. *)
Lemma wf_admit_single (a0 : Airplane) :
  wf_single a0 -> Single_cand a0 = true ->
  wf_single (set_landing true (frame_step a0)).
Proof.
  intros Hwf Hc. unfold Single_cand in Hc.
  apply andb_prop in Hc as [Hf Hld].
  apply negb_true_iff in Hld. apply Z.leb_le in Hf.
  destruct (wf_single_frame_step a0 Hwf) as [[H1 H2 H3 H4 H5 H6 H7 H8] H9].
  destruct (frame_step a0) as [pn f fr c al lg ld]; simpl in *.
  split; [constructor|]; simpl; auto; try congruence; try lia.
  intros ->. destruct (H6 eq_refl) as (? & _ & _). lia.
Qed.

(** Halting a landing keeps the invariant. *)
Lemma wf_halt_single (a : Airplane) :
  wf_single a -> wf_single (set_landing false a).
Proof.
  intros [[H1 H2 H3 H4 H5 H6 H7 H8] H9].
  destruct a as [pn f fr c al lg ld]; simpl in *.
  split; [constructor|]; simpl; auto; try congruence.
  intros Hc. destruct (H6 Hc) as (? & _ & ?). auto.
Qed.

(** ** The candidate search, common to both scans *)

Lemma scanned_upto_0 (l : list Airplane) : scanned_upto l 0 l.
Proof. split; intros j Hj; [lia | reflexivity]. Qed.

Lemma scanned_upto_length (l : list Airplane) (k : nat) (store : list Airplane) :
  scanned_upto l k store -> length store = length l.
Proof.
  intros [Hlt Hge].
  destruct (Nat.lt_trichotomy (length store) (length l)) as [H|[H|H]]; [|exact H|].
  - exfalso. pose proof (lookup_ge_None_2 store (length store) (Nat.le_refl _)) as Hn.
    destruct (lookup_lt_is_Some_2 l (length store) H) as [x Hx].
    destruct (Nat.lt_ge_cases (length store) k) as [Hk|Hk].
    + rewrite (Hlt _ Hk), Hx in Hn. discriminate.
    + rewrite (Hge _ Hk), Hx in Hn. discriminate.
  - exfalso. pose proof (lookup_ge_None_2 l (length l) (Nat.le_refl _)) as Hn.
    destruct (lookup_lt_is_Some_2 store (length l) H) as [x Hx].
    destruct (Nat.lt_ge_cases (length l) k) as [Hk|Hk].
    + rewrite (Hlt _ Hk), Hn in Hx. discriminate.
    + rewrite (Hge _ Hk), Hn in Hx. discriminate.
Qed.

Lemma scanned_upto_all (l : list Airplane) (k : nat) (store : list Airplane) :
  (length l <= k)%nat -> scanned_upto l k store -> store = frame_step <$> l.
Proof.
  intros Hk [Hlt Hge]. apply list_eq. intros j.
  destruct (Nat.lt_ge_cases j k) as [Hj|Hj].
  - rewrite (Hlt _ Hj), list_lookup_fmap. reflexivity.
  - rewrite (Hge _ Hj), list_lookup_fmap.
    rewrite (lookup_ge_None_2 l j) by lia. reflexivity.
Qed.

(** One more airplane scanned and written back. *)
Lemma scanned_upto_step (l : list Airplane) (k : nat) (store : list Airplane)
    (a0 : Airplane) :
  l !! k = Some a0 -> scanned_upto l k store ->
  scanned_upto l (S k) (<[k := frame_step a0]> store).
Proof.
  intros Hk Hs. pose proof (scanned_upto_length _ _ _ Hs) as Hlen.
  destruct Hs as [Hlt Hge]. split; intros j Hj.
  - destruct (Nat.eq_dec j k) as [->|Hne].
    + rewrite list_lookup_insert_eq, Hk; [reflexivity|].
      rewrite Hlen. eapply lookup_lt_Some; eauto.
    + rewrite list_lookup_insert_ne by lia. apply Hlt. lia.
  - rewrite list_lookup_insert_ne by lia. apply Hge. lia.
Qed.

(** A landed airplane is skipped: the array already holds its frame step. *)
Lemma scanned_upto_skip (l : list Airplane) (k : nat) (store : list Airplane)
    (a0 : Airplane) :
  l !! k = Some a0 -> landed a0 = true -> scanned_upto l k store ->
  scanned_upto l (S k) store.
Proof.
  intros Hk Hld [Hlt Hge]. split; intros j Hj.
  - destruct (Nat.eq_dec j k) as [->|Hne].
    + rewrite Hge by lia. rewrite Hk. simpl.
      rewrite frame_step_landed by exact Hld. reflexivity.
    + apply Hlt. lia.
  - apply Hge. lia.
Qed.

(** The fuel read through the current best candidate. *)
Lemma scan_best_fuel (cand : Airplane -> bool) (l : list Airplane) (k : nat)
    (store : list Airplane) (r : Ref) :
  scan_best cand l k r ->
  (forall j, (j < k)%nat -> store !! j = frame_step <$> l !! j) ->
  ref_fuel store r = ref_fuel (frame_step <$> l) r.
Proof.
  intros Hb Hs. destruct r as [f|i]; [reflexivity|].
  destruct Hb as (Hi & a0 & Ha0 & _). simpl.
  rewrite (Hs _ Hi), list_lookup_fmap. reflexivity.
Qed.

Lemma scan_best_0 (cand : Airplane -> bool) (l : list Airplane) :
  scan_best cand l 0 (Literal Infinity).
Proof. split; [reflexivity|]. intros j b0 Hj. lia. Qed.

Lemma scan_best_skip (cand : Airplane -> bool) (l : list Airplane) (k : nat)
    (r : Ref) (a0 : Airplane) :
  l !! k = Some a0 -> cand a0 = false ->
  scan_best cand l k r -> scan_best cand l (S k) r.
Proof.
  intros Hk Hc Hb. destruct r as [f|i].
  - destruct Hb as [-> Hb]. split; [reflexivity|]. intros j b0 Hj Hl.
    destruct (Nat.eq_dec j k) as [->|Hne]; [congruence|]. apply (Hb j); [lia|exact Hl].
  - destruct Hb as (Hi & a & Ha & Hca & Hb). split; [lia|].
    exists a. repeat split; auto; intros; destruct (Nat.eq_dec j k) as [->|Hne];
      try congruence; apply (Hb j b0); auto; lia.
Qed.

Lemma scan_best_keep (cand : Airplane -> bool) (l : list Airplane) (k : nat)
    (r : Ref) (a0 : Airplane) :
  l !! k = Some a0 ->
  js_lt (Num (fuel (frame_step a0))) (ref_fuel (frame_step <$> l) r) = false ->
  scan_best cand l k r -> scan_best cand l (S k) r.
Proof.
  intros Hk Hlt Hb. destruct r as [f|i].
  - destruct Hb as [-> Hb]. simpl in Hlt. discriminate.
  - destruct Hb as (Hi & a & Ha & Hca & Hb). split; [lia|].
    simpl in Hlt. rewrite list_lookup_fmap, Ha in Hlt. simpl in Hlt.
    apply Z.ltb_ge in Hlt.
    exists a. repeat split; auto; intros; destruct (Nat.eq_dec j k) as [->|Hne];
      try (apply (Hb j b0); auto; lia).
    + replace b0 with a0 by congruence. lia.
    + lia.
Qed.

Lemma scan_best_take (cand : Airplane -> bool) (l : list Airplane) (k : nat)
    (r : Ref) (a0 : Airplane) :
  l !! k = Some a0 -> cand a0 = true ->
  js_lt (Num (fuel (frame_step a0))) (ref_fuel (frame_step <$> l) r) = true ->
  scan_best cand l k r -> scan_best cand l (S k) (Plane k).
Proof.
  intros Hk Hc Hlt Hb. split; [lia|]. exists a0. repeat split; auto.
  - destruct (Nat.eq_dec j k) as [->|Hne]; [replace b0 with a0 by congruence; lia|].
    destruct r as [f|i].
    + destruct Hb as [_ Hb]. rewrite (Hb j b0) in H1; [discriminate|lia|auto].
    + destruct Hb as (Hi & a & Ha & Hca & Hb).
      simpl in Hlt. rewrite list_lookup_fmap, Ha in Hlt. simpl in Hlt.
      apply Z.ltb_lt in Hlt.
      destruct (Hb j b0) as [Hle _]; auto; lia.
  - intros Hji. destruct r as [f|i].
    + destruct Hb as [_ Hb]. rewrite (Hb j b0) in H1; [discriminate|lia|auto].
    + destruct Hb as (Hi & a & Ha & Hca & Hb).
      simpl in Hlt. rewrite list_lookup_fmap, Ha in Hlt. simpl in Hlt.
      apply Z.ltb_lt in Hlt.
      destruct (Hb j b0) as [Hle _]; auto; lia.
Qed.

(** At the end of the scan the invariant is the specification's notion of
    best candidate, for any eligibility that agrees with the scan's test. *)
Lemma scan_best_first_min (cand elig : Airplane -> bool) (l : list Airplane)
    (r : Ref) :
  (forall j b0, l !! j = Some b0 -> cand b0 = elig (frame_step b0)) ->
  scan_best cand l (length l) r ->
  first_min_fuel elig (frame_step <$> l) r.
Proof.
  intros Hag Hb. destruct r as [f|i].
  - destruct Hb as [-> Hb]. split; [reflexivity|]. intros j b Hj.
    rewrite list_lookup_fmap in Hj.
    destruct (l !! j) as [b0|] eqn:Hl; [|discriminate]. simpl in Hj.
    injection Hj as <-. rewrite <- (Hag j b0 Hl).
    apply (Hb j); [eapply lookup_lt_Some; eauto | exact Hl].
  - destruct Hb as (Hi & a0 & Ha0 & Hc & Hb). exists (frame_step a0).
    rewrite list_lookup_fmap, Ha0. split; [reflexivity|].
    split; [rewrite <- (Hag i a0 Ha0); exact Hc|].
    intros j b Hj Hel. rewrite list_lookup_fmap in Hj.
    destruct (l !! j) as [b0|] eqn:Hl; [|discriminate]. simpl in Hj.
    injection Hj as <-. apply (Hb j b0); auto.
    + eapply lookup_lt_Some; eauto.
    + rewrite (Hag j b0 Hl). exact Hel.
Qed.

(** ** The scan of the multi-runway variant *)

Lemma Multi_scan_body_spec (control : bool) (l : list Airplane) (k : nat)
    (st : Multi.ScanState) (a0 : Airplane) :
  l !! k = Some a0 ->
  scanned_upto l k (Multi.store st) ->
  scan_best Multi_cand l k (Multi.lowestAirplane st) ->
  scanned_upto l (S k) (Multi.store (Multi.scan_body control k st)) /\
  scan_best Multi_cand l (S k) (Multi.lowestAirplane (Multi.scan_body control k st)).
Proof.
  intros Hk Hs Hb. unfold Multi.scan_body.
  destruct Hs as [Hlt Hge]. rewrite (Hge k (Nat.le_refl k)), Hk.
  pose proof (conj Hlt Hge : scanned_upto l k (Multi.store st)) as Hs.
  destruct (landed a0) eqn:Hld; cbn [negb].
  { split; [eapply scanned_upto_skip; eauto|].
    eapply scan_best_skip; eauto. unfold Multi_cand. rewrite Hld. reflexivity. }
  pose proof (scanned_upto_step l k _ a0 Hk Hs) as Hs'.
  rewrite frame_step_unlanded in Hs' by exact Hld.
  destruct (landing (Airplane_tick a0)) eqn:Hlg; cbn [Multi.store Multi.lowestAirplane].
  { split; [exact Hs'|]. eapply scan_best_skip; eauto.
    unfold Multi_cand. rewrite Hld, Hlg. reflexivity. }
  assert (Hfuel : ref_fuel (<[k:=Airplane_tick a0]> (Multi.store st))
                    (Multi.lowestAirplane st)
                  = ref_fuel (frame_step <$> l) (Multi.lowestAirplane st)).
  { eapply scan_best_fuel; [exact Hb|]. intros j Hj.
    rewrite list_lookup_insert_ne by lia. apply Hlt, Hj. }
  rewrite Hfuel.
  assert (Hcand : Multi_cand a0 = (altitude (Airplane_tick a0) <=? fuel (Airplane_tick a0))).
  { unfold Multi_cand. rewrite Hld, Hlg. reflexivity. }
  destruct (js_lt _ _) eqn:Hjs; cbn [andb].
  - destruct (altitude (Airplane_tick a0) <=? fuel (Airplane_tick a0)) eqn:Hfa;
      cbn [Multi.store Multi.lowestAirplane].
    + split; [exact Hs'|]. eapply scan_best_take; eauto.
      rewrite frame_step_unlanded by exact Hld. exact Hjs.
    + split; [exact Hs'|]. eapply scan_best_skip; eauto.
  - cbn [Multi.store Multi.lowestAirplane].
    split; [exact Hs'|]. eapply scan_best_keep; eauto.
    rewrite frame_step_unlanded by exact Hld. exact Hjs.
Qed.

Lemma Multi_scan_upto (control : bool) (l : list Airplane) (k : nat) :
  (k <= length l)%nat ->
  let st := forEach k (Multi.scan_body control)
                    (Multi.mkScan l 6 false [] (Literal Infinity)) in
  scanned_upto l k (Multi.store st) /\
  scan_best Multi_cand l k (Multi.lowestAirplane st).
Proof.
  induction k as [|k IH]; intros Hk; simpl.
  - split; [apply scanned_upto_0 | apply scan_best_0].
  - rewrite forEach_S.
    destruct (lookup_lt_is_Some_2 l k Hk) as [a0 Ha0].
    destruct IH as [Hs Hb]; [lia|].
    apply Multi_scan_body_spec with (a0 := a0); assumption.
Qed.

Lemma Multi_scan_store (control : bool) (l : list Airplane) :
  Multi.store (Multi.scan control l) = frame_step <$> l.
Proof.
  destruct (Multi_scan_upto control l (length l) (Nat.le_refl _)) as [Hs _].
  eapply scanned_upto_all; [|exact Hs]. lia.
Qed.

Lemma Multi_scan_lowest (control : bool) (l : list Airplane) :
  scan_best Multi_cand l (length l) (Multi.lowestAirplane (Multi.scan control l)).
Proof.
  destruct (Multi_scan_upto control l (length l) (Nat.le_refl _)) as [_ Hb].
  exact Hb.
Qed.

(** The search for the most fueled landing plane never leaves its seed:
    [-Infinity > x] is false for every [x]. *)
Lemma Multi_find_mostFueledPlane_seed (store : list Airplane) (landingPlanes : list nat) :
  Multi.find_mostFueledPlane store landingPlanes = Literal NegInfinity.
Proof.
  unfold Multi.find_mostFueledPlane.
  induction landingPlanes as [|p ps IH]; simpl; [reflexivity|].
  unfold js_gt. simpl.
  replace (js_lt _ NegInfinity) with false; [exact IH|].
  destruct (store !! p); reflexivity.
Qed.

Lemma js_lt_NegInfinity (x : JsNum) : js_lt x NegInfinity = false.
Proof. destruct x; reflexivity. Qed.

(** Hence the multi-runway preemption changes nothing, whatever its input. *)
Lemma Multi_prioritize_noop (lowestAirplane : Ref) (landingPlanes : list nat)
    (store : list Airplane) :
  Multi.prioritizeLandingOtherPlane lowestAirplane landingPlanes store = store.
Proof.
  unfold Multi.prioritizeLandingOtherPlane.
  rewrite Multi_find_mostFueledPlane_seed. simpl.
  rewrite js_lt_NegInfinity. reflexivity.
Qed.

(** The outcome of a multi-runway frame for the array: every airplane takes
    its frame step, and at most the best candidate is set landing. *)
Lemma Multi_arbitrate_cases (control : bool) (l : list Airplane) :
  let l' := Multi.arbitrate control (Multi.scan control l) in
  l' = frame_step <$> l \/
  exists i a0, Multi.lowestAirplane (Multi.scan control l) = Plane i /\
    l !! i = Some a0 /\ Multi_cand a0 = true /\
    l' = <[i := set_landing true (frame_step a0)]> (frame_step <$> l).
Proof.
  simpl. unfold Multi.arbitrate.
  pose proof (Multi_scan_lowest control l) as Hb.
  rewrite Multi_prioritize_noop, Multi_scan_store.
  assert (Hstart :
    let l' := Multi.startPlaneLanding (Multi.lowestAirplane (Multi.scan control l))
                (frame_step <$> l) in
    l' = frame_step <$> l \/
    exists i a0, Multi.lowestAirplane (Multi.scan control l) = Plane i /\
      l !! i = Some a0 /\ Multi_cand a0 = true /\
      l' = <[i := set_landing true (frame_step a0)]> (frame_step <$> l)).
  { simpl. unfold Multi.startPlaneLanding.
    destruct (_ && _); [|left; reflexivity].
    destruct (Multi.lowestAirplane (Multi.scan control l)) as [f|i]; [left; reflexivity|].
    destruct Hb as (Hi & a0 & Ha0 & Hc & _).
    right. exists i, a0. repeat split; auto.
    simpl. rewrite list_lookup_fmap, Ha0. reflexivity. }
  simpl in Hstart.
  destruct control.
  - destruct (negb _); [exact Hstart | left; reflexivity].
  - destruct (js_truthy _); [exact Hstart | left; reflexivity].
Qed.

(** ** The scan of the single-runway variant *)

Lemma Single_scan_body_spec (l : list Airplane) (k : nat)
    (st : Single.ScanState) (a0 : Airplane) :
  l !! k = Some a0 ->
  scanned_upto l k (Single.store st) ->
  scan_best Single_cand l k (Single.lowestAirplane st) ->
  last_lander l k (Single.landingPlane st) ->
  Single.planeLanding st = is_plane (Single.landingPlane st) ->
  let st' := Single.scan_body k st in
  scanned_upto l (S k) (Single.store st') /\
  scan_best Single_cand l (S k) (Single.lowestAirplane st') /\
  last_lander l (S k) (Single.landingPlane st') /\
  Single.planeLanding st' = is_plane (Single.landingPlane st').
Proof.
  intros Hk Hs Hb Hll Hpl. cbv zeta. unfold Single.scan_body.
  destruct Hs as [Hlt Hge]. rewrite (Hge k (Nat.le_refl k)), Hk.
  pose proof (conj Hlt Hge : scanned_upto l k (Single.store st)) as Hs.
  change (if negb (landed a0) then Airplane_tick a0 else a0) with (frame_step a0).
  cbv zeta.
  set (store' := if negb (landed a0) then <[k:=frame_step a0]> (Single.store st)
                 else Single.store st).
  assert (Hs' : scanned_upto l (S k) store').
  { subst store'. destruct (landed a0) eqn:Hld; cbn [negb].
    - eapply scanned_upto_skip; eauto.
    - apply scanned_upto_step; assumption. }
  assert (Hfuel : ref_fuel store' (Single.lowestAirplane st)
                  = ref_fuel (frame_step <$> l) (Single.lowestAirplane st)).
  { eapply scan_best_fuel; [exact Hb|]. intros j Hj.
    destruct Hs' as [Hlt' _]. apply Hlt'. lia. }
  rewrite Hfuel. clearbody store'.
  assert (Hlander :
    let '(pl, lp) := if landing (frame_step a0) then (true, Plane k)
                     else (Single.planeLanding st, Single.landingPlane st) in
    last_lander l (S k) lp /\ pl = is_plane lp).
  { destruct (landing (frame_step a0)) eqn:Hlg.
    - split; [|reflexivity]. split; [lia|]. exists a0. repeat split; auto.
      intros j' c0 Hj'. lia.
    - split; [|exact Hpl]. destruct (Single.landingPlane st) as [f|j].
      + destruct Hll as [-> Hll]. split; [reflexivity|]. intros j b0 Hj Hl.
        destruct (Nat.eq_dec j k) as [->|Hne]; [congruence|].
        apply (Hll j); [lia|exact Hl].
      + destruct Hll as (Hj & b0 & Hb0 & Hlgb & Hll). split; [lia|].
        exists b0. repeat split; auto. intros j' c0 Hj' Hl.
        destruct (Nat.eq_dec j' k) as [->|Hne]; [congruence|].
        apply (Hll j'); [lia|exact Hl]. }
  destruct (if landing (frame_step a0) then _ else _) as [pl lp].
  destruct Hlander as [Hll' Hpl'].
  cbn [Single.store Single.lowestAirplane Single.landingPlane Single.planeLanding].
  split; [exact Hs'|]. split; [|split; assumption].
  assert (Hcand : Single_cand a0
                  = (80 <=? fuel (frame_step a0)) && negb (landed (frame_step a0)))
    by reflexivity.
  rewrite <- andb_assoc, <- Hcand.
  destruct (js_lt _ _) eqn:Hjs; destruct (Single_cand a0) eqn:Hc.
  - eapply scan_best_take; eauto.
  - eapply scan_best_skip; eauto.
  - eapply scan_best_keep; eauto.
  - eapply scan_best_keep; eauto.
Qed.

Lemma Single_scan_upto (l : list Airplane) (k : nat) :
  (k <= length l)%nat ->
  let st := forEach k Single.scan_body
                    (Single.mkScan l false (Literal NaN) (Literal Infinity)) in
  scanned_upto l k (Single.store st) /\
  scan_best Single_cand l k (Single.lowestAirplane st) /\
  last_lander l k (Single.landingPlane st) /\
  Single.planeLanding st = is_plane (Single.landingPlane st).
Proof.
  induction k as [|k IH]; intros Hk; simpl.
  - split; [apply scanned_upto_0|]. split; [apply scan_best_0|].
    split; [|reflexivity]. split; [reflexivity|]. intros; lia.
  - rewrite forEach_S.
    destruct (lookup_lt_is_Some_2 l k Hk) as [a0 Ha0].
    destruct IH as (Hs & Hb & Hll & Hpl); [lia|].
    apply Single_scan_body_spec with (a0 := a0); assumption.
Qed.

Lemma Single_scan_spec (l : list Airplane) :
  let st := Single.scan l in
  Single.store st = frame_step <$> l /\
  scan_best Single_cand l (length l) (Single.lowestAirplane st) /\
  last_lander l (length l) (Single.landingPlane st) /\
  Single.planeLanding st = is_plane (Single.landingPlane st).
Proof.
  destruct (Single_scan_upto l (length l) (Nat.le_refl _)) as (Hs & Hb & Hll & Hpl).
  repeat split; try assumption.
  eapply scanned_upto_all; [|exact Hs]. lia.
Qed.

(** The outcome of a single-runway frame for the array: every airplane takes
    its frame step; then either nothing more happens, or the best candidate
    is admitted while nothing lands, or the landing plane is halted in favour
    of the best candidate. *)
Lemma Single_arbitrate_cases (control : bool) (l : list Airplane) :
  let st := Single.scan l in
  let l' := Single.arbitrate control st in
  l' = frame_step <$> l \/
  (exists i a0, Single.lowestAirplane st = Plane i /\ l !! i = Some a0 /\
     Single_cand a0 = true /\
     (forall j b0, l !! j = Some b0 -> landing (frame_step b0) = false) /\
     l' = <[i := set_landing true (frame_step a0)]> (frame_step <$> l)) \/
  (exists i j a0 b0, control = false /\
     Single.lowestAirplane st = Plane i /\ Single.landingPlane st = Plane j /\
     i <> j /\ l !! i = Some a0 /\ l !! j = Some b0 /\
     Single_cand a0 = true /\ landing (frame_step b0) = true /\
     (forall j' c0, j' <> j -> l !! j' = Some c0 -> (j < j')%nat ->
        landing (frame_step c0) = false) /\
     fuel (frame_step a0) < fuel (frame_step b0) /\
     81 + altitude (frame_step b0) <= fuel (frame_step b0) /\
     l' = <[i := set_landing true (frame_step a0)]>
            (<[j := set_landing false (frame_step b0)]> (frame_step <$> l))).
Proof.
  cbv zeta. destruct (Single_scan_spec l) as (Hs & Hb & Hll & Hpl).
  unfold Single.arbitrate. rewrite Hs, Hpl.
  destruct (Single.landingPlane (Single.scan l)) as [f|j]; cbn [is_plane].
  - (* nothing is landing *)
    destruct Hll as [-> Hll].
    cbn [ref_planeNumber js_truthy andb].
    unfold Single.startPlaneLanding. cbn [negb andb].
    destruct (_ && _); [|left; reflexivity].
    destruct (Single.lowestAirplane (Single.scan l)) as [f|i]; [left; reflexivity|].
    destruct Hb as (Hi & a0 & Ha0 & Hc & _).
    right; left. exists i, a0. repeat split; auto.
    + intros j b0 Hj. apply (Hll j); [eapply lookup_lt_Some; eauto | exact Hj].
    + simpl. rewrite list_lookup_fmap, Ha0. reflexivity.
  - (* airplane [j] is landing *)
    destruct Hll as (Hj & b0 & Hb0 & Hlg & Hll).
    unfold Single.startPlaneLanding. cbn [negb andb].
    destruct (_ && negb control) eqn:Hguard; [|left; reflexivity].
    apply andb_prop in Hguard as [_ Hctl]. apply negb_true_iff in Hctl.
    unfold Single.prioritizeLandingOtherPlane.
    cbn [ref_fuel ref_altitude]. rewrite list_lookup_fmap, Hb0. cbn [fmap option_fmap option_map js_add].
    destruct (Single.lowestAirplane (Single.scan l)) as [f|i].
    { destruct Hb as [-> _]. left; reflexivity. }
    destruct Hb as (Hi & a0 & Ha0 & Hc & _).
    cbn [ref_fuel]. rewrite list_lookup_fmap, Ha0. cbn [fmap option_fmap option_map js_lt js_ge].
    destruct (fuel (frame_step a0) <? fuel (frame_step b0)) eqn:Hlt; [|left; reflexivity].
    destruct (81 + altitude (frame_step b0) <=? fuel (frame_step b0)) eqn:Hge;
      [|left; reflexivity].
    cbn [andb]. apply Z.ltb_lt in Hlt. apply Z.leb_le in Hge.
    assert (Hij : i <> j).
    { intros ->. assert (a0 = b0) by congruence. subst. lia. }
    right; right. exists i, j, a0, b0. repeat split; auto.
    + intros j' c0 Hne Hl Hlt'. apply (Hll j' c0); [|exact Hl].
      split; [exact Hlt'|]. eapply lookup_lt_Some; eauto.
    + unfold ref_set_landing. rewrite list_lookup_fmap, Hb0.
      cbn [fmap option_fmap option_map].
      rewrite list_lookup_insert_ne by auto.
      rewrite list_lookup_fmap, Ha0. reflexivity.
Qed.

(** ** One frame, airplane by airplane *)

Lemma Multi_frame_length (control : bool) (l : list Airplane) :
  length (Multi.arbitrate control (Multi.scan control l)) = length l.
Proof.
  destruct (Multi_arbitrate_cases control l) as [->|(i & a0 & _ & _ & _ & ->)].
  - apply length_fmap.
  - rewrite length_insert. apply length_fmap.
Qed.

Lemma Multi_frame_lookup (control : bool) (l : list Airplane) (i : nat)
    (a0 : Airplane) :
  l !! i = Some a0 ->
  let l' := Multi.arbitrate control (Multi.scan control l) in
  l' !! i = Some (frame_step a0) \/
  (Multi_cand a0 = true /\ l' !! i = Some (set_landing true (frame_step a0))).
Proof.
  intros Hi. cbv zeta.
  destruct (Multi_arbitrate_cases control l) as [->|(k & b0 & _ & Hk & Hc & ->)].
  - left. rewrite list_lookup_fmap, Hi. reflexivity.
  - destruct (Nat.eq_dec k i) as [->|Hne].
    + right. assert (b0 = a0) by congruence. subst b0. split; [exact Hc|].
      apply list_lookup_insert_eq. rewrite length_fmap. eapply lookup_lt_Some; eauto.
    + left. rewrite list_lookup_insert_ne by exact Hne.
      rewrite list_lookup_fmap, Hi. reflexivity.
Qed.

Lemma Single_frame_length (control : bool) (l : list Airplane) :
  length (Single.arbitrate control (Single.scan l)) = length l.
Proof.
  destruct (Single_arbitrate_cases control l)
    as [->|[(i & a0 & _ & _ & _ & _ & ->)|(i & j & a0 & b0 & H)]].
  - apply length_fmap.
  - rewrite length_insert. apply length_fmap.
  - destruct H as (_ & _ & _ & _ & _ & _ & _ & _ & _ & _ & _ & ->).
    rewrite !length_insert. apply length_fmap.
Qed.

Lemma Single_frame_lookup (control : bool) (l : list Airplane) (i : nat)
    (a0 : Airplane) :
  l !! i = Some a0 ->
  let l' := Single.arbitrate control (Single.scan l) in
  l' !! i = Some (frame_step a0) \/
  (Single_cand a0 = true /\ l' !! i = Some (set_landing true (frame_step a0))) \/
  (control = false /\ landing (frame_step a0) = true /\
   81 + altitude (frame_step a0) <= fuel (frame_step a0) /\
   l' !! i = Some (set_landing false (frame_step a0))).
Proof.
  intros Hi. cbv zeta.
  assert (Hlen : (i < length (frame_step <$> l))%nat).
  { rewrite length_fmap. eapply lookup_lt_Some; eauto. }
  destruct (Single_arbitrate_cases control l)
    as [->|[(k & b0 & _ & Hk & Hc & _ & ->)|(k & j & b0 & c0 & H)]].
  - left. rewrite list_lookup_fmap, Hi. reflexivity.
  - destruct (Nat.eq_dec k i) as [->|Hne].
    + right; left. assert (b0 = a0) by congruence. subst b0. split; [exact Hc|].
      apply list_lookup_insert_eq. exact Hlen.
    + left. rewrite list_lookup_insert_ne by exact Hne.
      rewrite list_lookup_fmap, Hi. reflexivity.
  - destruct H as (Hctl & _ & _ & Hkj & Hk & Hj & Hc & Hlg & _ & _ & Hge & ->).
    destruct (Nat.eq_dec k i) as [->|Hne].
    + right; left. assert (b0 = a0) by congruence. subst b0. split; [exact Hc|].
      apply list_lookup_insert_eq. rewrite length_insert. exact Hlen.
    + rewrite list_lookup_insert_ne by exact Hne.
      destruct (Nat.eq_dec j i) as [->|Hne'].
      * right; right. assert (c0 = a0) by congruence. subst c0.
        repeat split; auto. apply list_lookup_insert_eq. exact Hlen.
      * left. rewrite list_lookup_insert_ne by exact Hne'.
        rewrite list_lookup_fmap, Hi. reflexivity.
Qed.

(** ** The frame on the whole trial *)

Lemma tick_begin_airplanes (rnd : RandomSource) (w : World) :
  let l := airplanes (sim w) in
  let l1 := airplanes (sim (tick_begin rnd w)) in
  l1 = l \/
  (random_below 100 (rnd (calls w)) = 0 /\
   l1 = l ++ [Airplane_new (Z.of_nat (length l) + 1) (rnd (S (calls w)))]).
Proof.
  cbv zeta. unfold tick_begin, generateAirplane. cbn [sim calls].
  destruct (Z.eqb_spec (random_below 100 (rnd (calls w))) 0) as [H0|H0].
  - right. split; [exact H0|]. reflexivity.
  - left. reflexivity.
Qed.

Lemma tick_begin_control (rnd : RandomSource) (w : World) :
  control (sim (tick_begin rnd w)) = control (sim w).
Proof.
  unfold tick_begin, generateAirplane. cbn [sim calls].
  destruct (_ =? 0); reflexivity.
Qed.

Lemma tick_begin_frameNumber (rnd : RandomSource) (w : World) :
  frameNumber (sim (tick_begin rnd w)) = frameNumber (sim w) + 1.
Proof.
  unfold tick_begin, generateAirplane. cbn [sim calls].
  destruct (_ =? 0); reflexivity.
Qed.

Lemma Multi_tick_airplanes (rnd : RandomSource) (w : World) :
  airplanes (sim (Multi.tick rnd w))
  = Multi.arbitrate (control (sim w))
      (Multi.scan (control (sim w)) (airplanes (sim (tick_begin rnd w)))).
Proof. unfold Multi.tick. cbn. rewrite tick_begin_control. reflexivity. Qed.

Lemma Single_tick_airplanes (rnd : RandomSource) (w : World) :
  airplanes (sim (Single.tick rnd w))
  = Single.arbitrate (control (sim w))
      (Single.scan (airplanes (sim (tick_begin rnd w)))).
Proof. unfold Single.tick. cbn. rewrite tick_begin_control. reflexivity. Qed.

Lemma Multi_tick_control (rnd : RandomSource) (w : World) :
  control (sim (Multi.tick rnd w)) = control (sim w).
Proof. unfold Multi.tick. cbn. apply tick_begin_control. Qed.

Lemma Single_tick_control (rnd : RandomSource) (w : World) :
  control (sim (Single.tick rnd w)) = control (sim w).
Proof. unfold Single.tick. cbn. apply tick_begin_control. Qed.

Lemma Multi_tick_frameNumber (rnd : RandomSource) (w : World) :
  frameNumber (sim (Multi.tick rnd w)) = frameNumber (sim w) + 1.
Proof. unfold Multi.tick. cbn. apply tick_begin_frameNumber. Qed.

Lemma Single_tick_frameNumber (rnd : RandomSource) (w : World) :
  frameNumber (sim (Single.tick rnd w)) = frameNumber (sim w) + 1.
Proof. unfold Single.tick. cbn. apply tick_begin_frameNumber. Qed.

(** An airplane of the trial keeps its place: the frame maps the one at
    index [i] to one of the outcomes above. *)
Lemma tick_begin_lookup (rnd : RandomSource) (w : World) (i : nat) (a : Airplane) :
  airplanes (sim w) !! i = Some a ->
  airplanes (sim (tick_begin rnd w)) !! i = Some a.
Proof.
  intros Hi. destruct (tick_begin_airplanes rnd w) as [->|[_ ->]]; [exact Hi|].
  apply lookup_app_l_Some. exact Hi.
Qed.

Lemma Multi_tick_lookup (rnd : RandomSource) (w : World) (i : nat) (a0 : Airplane) :
  airplanes (sim w) !! i = Some a0 ->
  let l' := airplanes (sim (Multi.tick rnd w)) in
  l' !! i = Some (frame_step a0) \/
  (Multi_cand a0 = true /\ l' !! i = Some (set_landing true (frame_step a0))).
Proof.
  intros Hi. cbv zeta. rewrite Multi_tick_airplanes.
  apply Multi_frame_lookup. apply tick_begin_lookup. exact Hi.
Qed.

Lemma Single_tick_lookup (rnd : RandomSource) (w : World) (i : nat) (a0 : Airplane) :
  airplanes (sim w) !! i = Some a0 ->
  let l' := airplanes (sim (Single.tick rnd w)) in
  l' !! i = Some (frame_step a0) \/
  (Single_cand a0 = true /\ l' !! i = Some (set_landing true (frame_step a0))) \/
  (control (sim w) = false /\ landing (frame_step a0) = true /\
   81 + altitude (frame_step a0) <= fuel (frame_step a0) /\
   l' !! i = Some (set_landing false (frame_step a0))).
Proof.
  intros Hi. cbv zeta. rewrite Single_tick_airplanes.
  apply Single_frame_lookup. apply tick_begin_lookup. exact Hi.
Qed.

(** ** The invariant of the airplanes of a trial *)

Lemma tick_begin_wf (rnd : RandomSource) (w : World) :
  Forall wf_single (airplanes (sim w)) ->
  Forall wf_single (airplanes (sim (tick_begin rnd w))).
Proof.
  intros Hwf. destruct (tick_begin_airplanes rnd w) as [->|[_ ->]]; [exact Hwf|].
  apply Forall_app. split; [exact Hwf|].
  apply Forall_cons. split; [|apply Forall_nil; exact I].
  apply wf_Airplane_new. lia.
Qed.

Lemma Multi_frame_wf (control : bool) (l : list Airplane) :
  Forall wf_plane l ->
  Forall wf_plane (Multi.arbitrate control (Multi.scan control l)).
Proof.
  intros Hwf. apply Forall_lookup. intros i a' Hi.
  assert (Hlt : (i < length l)%nat).
  { rewrite <- (Multi_frame_length control l). eapply lookup_lt_Some; eauto. }
  destruct (lookup_lt_is_Some_2 l i Hlt) as [a0 Ha0].
  pose proof (proj1 (Forall_lookup _ _) Hwf i a0 Ha0) as Hwf0.
  destruct (Multi_frame_lookup control l i a0 Ha0) as [H|[Hc H]];
    rewrite H in Hi; injection Hi as <-.
  - apply wf_frame_step. exact Hwf0.
  - apply wf_admit_multi; assumption.
Qed.

Lemma Single_frame_wf (control : bool) (l : list Airplane) :
  Forall wf_single l ->
  Forall wf_single (Single.arbitrate control (Single.scan l)).
Proof.
  intros Hwf. apply Forall_lookup. intros i a' Hi.
  assert (Hlt : (i < length l)%nat).
  { rewrite <- (Single_frame_length control l). eapply lookup_lt_Some; eauto. }
  destruct (lookup_lt_is_Some_2 l i Hlt) as [a0 Ha0].
  pose proof (proj1 (Forall_lookup _ _) Hwf i a0 Ha0) as Hwf0.
  destruct (Single_frame_lookup control l i a0 Ha0) as [H|[[Hc H]|(_ & _ & _ & H)]];
    rewrite H in Hi; injection Hi as <-.
  - apply wf_single_frame_step. exact Hwf0.
  - apply wf_admit_single; assumption.
  - apply wf_halt_single, wf_single_frame_step. exact Hwf0.
Qed.

Lemma Forall_wf_single_plane (l : list Airplane) :
  Forall wf_single l -> Forall wf_plane l.
Proof.
  intros H. eapply Forall_impl; [exact H|]. intros a [Hw _]. exact Hw.
Qed.

(** Every airplane of a multi-runway trial satisfies the invariant, after
    any number of frames and whatever the random draws. *)
Lemma Multi_reachable_wf (rnd : RandomSource) (runNumber : Z) (control : bool)
    (n : nat) :
  Forall wf_plane
    (airplanes (sim (frames (Multi.tick rnd) n (world0 runNumber control)))).
Proof.
  induction n as [|n IH]; [apply Forall_nil; exact I|].
  rewrite frames_S, Multi_tick_airplanes. apply Multi_frame_wf.
  set (w := frames (Multi.tick rnd) n (world0 runNumber control)) in *.
  destruct (tick_begin_airplanes rnd w) as [->|[_ ->]]; [exact IH|].
  apply Forall_app. split; [exact IH|].
  apply Forall_cons. split; [|apply Forall_nil; exact I].
  apply (wf_Airplane_new (Z.of_nat (length (airplanes (sim w))) + 1)). lia.
Qed.

(** The same for a single-runway trial, with the stronger invariant. *)
Lemma Single_reachable_wf (rnd : RandomSource) (runNumber : Z) (control : bool)
    (n : nat) :
  Forall wf_single
    (airplanes (sim (frames (Single.tick rnd) n (world0 runNumber control)))).
Proof.
  induction n as [|n IH]; [apply Forall_nil; exact I|].
  rewrite frames_S, Single_tick_airplanes.
  apply Single_frame_wf, tick_begin_wf. exact IH.
Qed.

(** * The claims *)

(** ** C1: preemption in the multi-runway variant *)

(** C1 (the code departs from the claim). Multi-runway variant, test policy,
    frame 7 of the trial [draws_six_then_low]: all six runways are taken, the
    best waiting candidate is airplane 7 with 99 liters, and the landing
    airplane with the most fuel is airplane 6 with 498 liters at altitude 79,
    so both conditions of the preemption hold (99 < 498 and 498 >= 81 + 79).
    Yet the search for the most fueled landing plane returns its seed
    [{ fuel: -Infinity }], and after the frame airplane 6 is still landing
    and airplane 7 is not. *)
Theorem C1_multi_preemption_never_fires :
  let w6 := trial MultiRunway draws_six_then_low 1 false 6 in
  let st := Multi.scan false (airplanes (sim (tick_begin draws_six_then_low w6))) in
  Multi.runways st = 0 /\
  Multi.landingPlanes st = [0; 1; 2; 3; 4; 5]%nat /\
  Multi.lowestAirplane st = Plane 6 /\
  map flags (Multi.store st)
    = [(493, 74, true, false, false); (494, 75, true, false, false);
       (495, 76, true, false, false); (496, 77, true, false, false);
       (497, 78, true, false, false); (498, 79, true, false, false);
       (99, 80, false, false, false)] /\
  Multi.find_mostFueledPlane (Multi.store st) (Multi.landingPlanes st)
    = Literal NegInfinity /\
  map flags (airplanes (sim (Multi.tick draws_six_then_low w6)))
    = [(493, 74, true, false, false); (494, 75, true, false, false);
       (495, 76, true, false, false); (496, 77, true, false, false);
       (497, 78, true, false, false); (498, 79, true, false, false);
       (99, 80, false, false, false)].
Proof. vm_compute. repeat split; reflexivity. Qed.

(** ** C3: number of airplanes with the landing flag set *)

(** C3 (the code departs from the claim). Multi-runway variant, trial
    [draws_one_then_six]: the airplane that touches down on frame 81 is taken
    as best candidate on that very frame and gets its [landing] flag set
    again, for good.  Under the control policy two airplanes have
    [landing = true] after frame 82; under the test policy seven have it
    after frame 87, more than the six runways.  The single-runway program
    run on the same draws keeps one. *)
Theorem C3_multi_landing_flags_exceed_runways :
  count_landing (airplanes (sim (trial MultiRunway draws_one_then_six 2 true 82))) = 2%nat /\
  count_landing (airplanes (sim (trial MultiRunway draws_one_then_six 1 false 87))) = 7%nat /\
  map flags (airplanes (sim (trial MultiRunway draws_one_then_six 2 true 82)))
    = [(19, 0, true, true, false); (299, 80, true, false, false)] /\
  map flags (airplanes (sim (trial SingleRunway draws_one_then_six 2 true 82)))
    = [(19, 0, false, true, false); (299, 80, true, false, false)].
Proof. vm_compute. repeat split; reflexivity. Qed.

(** The single-runway program does keep the bound, under both policies. *)

Lemma landing_frame_step_inv (a : Airplane) :
  landing (frame_step a) = true -> landing a = true.
Proof.
  destruct (landing a) eqn:Hlg; [reflexivity|].
  unfold frame_step, Airplane_tick.
  destruct (landed a); cbn [negb]; [congruence|].
  destruct (crashed a) eqn:Hc; cbn [negb]; [congruence|].
  cbn [landing set_fuel]. rewrite Hlg. unfold handleCrash.
  destruct (_ <=? 0); cbn [landing set_crashed set_fuel]; congruence.
Qed.

Lemma at_most_one_landing_frame_step (l : list Airplane) :
  at_most_one_landing l -> at_most_one_landing (frame_step <$> l).
Proof.
  intros H i j a b Hi Hj Ha Hb. rewrite list_lookup_fmap in Hi, Hj.
  destruct (l !! i) as [a0|] eqn:Hi0; [|discriminate].
  destruct (l !! j) as [b0|] eqn:Hj0; [|discriminate].
  injection Hi as <-. injection Hj as <-.
  apply (H i j a0 b0); auto using landing_frame_step_inv.
Qed.

Lemma Single_frame_one_landing (control : bool) (l : list Airplane) :
  at_most_one_landing l ->
  at_most_one_landing (Single.arbitrate control (Single.scan l)).
Proof.
  intros H. pose proof (at_most_one_landing_frame_step l H) as H0.
  destruct (Single_arbitrate_cases control l)
    as [->|[(i & a0 & _ & Hi & _ & Hnone & ->)|(i & j & a0 & b0 & Hc)]];
    [exact H0| |].
  - (* admission while nothing lands: the admitted airplane is the only one *)
    assert (Honly : forall p a, <[i:=set_landing true (frame_step a0)]>
                                  (frame_step <$> l) !! p = Some a ->
                                landing a = true -> p = i).
    { intros p a Hp Ha. destruct (Nat.eq_dec p i) as [->|Hne]; [reflexivity|].
      rewrite list_lookup_insert_ne, list_lookup_fmap in Hp by congruence.
      destruct (l !! p) as [c0|] eqn:Hp0; [|discriminate]. injection Hp as <-.
      rewrite (Hnone p c0 Hp0) in Ha. discriminate. }
    intros p q a b Hp Hq Ha Hb.
    rewrite (Honly p a Hp Ha), (Honly q b Hq Hb). reflexivity.
  - (* preemption: the halted airplane was the only one landing *)
    destruct Hc as (_ & _ & _ & Hij & Hi & Hj & _ & Hlg & _ & _ & _ & ->).
    assert (Honly : forall p a,
              <[i:=set_landing true (frame_step a0)]>
                (<[j:=set_landing false (frame_step b0)]> (frame_step <$> l)) !! p
              = Some a ->
              landing a = true -> p = i).
    { intros p a Hp Ha. destruct (Nat.eq_dec p i) as [->|Hne]; [reflexivity|].
      rewrite list_lookup_insert_ne in Hp by congruence.
      destruct (Nat.eq_dec p j) as [->|Hne'].
      - rewrite list_lookup_insert_eq in Hp.
        + injection Hp as <-. discriminate Ha.
        + rewrite length_fmap. eapply lookup_lt_Some; eauto.
      - rewrite list_lookup_insert_ne in Hp by congruence.
        exfalso. apply Hne'. apply (H0 p j a (frame_step b0)); auto.
        rewrite list_lookup_fmap, Hj. reflexivity. }
    intros p q a b Hp Hq Ha Hb.
    rewrite (Honly p a Hp Ha), (Honly q b Hq Hb). reflexivity.
Qed.

Lemma tick_begin_one_landing (rnd : RandomSource) (w : World) :
  at_most_one_landing (airplanes (sim w)) ->
  at_most_one_landing (airplanes (sim (tick_begin rnd w))).
Proof.
  intros H. destruct (tick_begin_airplanes rnd w) as [->|[_ ->]]; [exact H|].
  assert (Hold : forall p a,
            (airplanes (sim w)
             ++ [Airplane_new (Z.of_nat (length (airplanes (sim w))) + 1)
                              (rnd (S (calls w)))]) !! p = Some a ->
            landing a = true -> airplanes (sim w) !! p = Some a).
  { intros p a Hp Ha. apply lookup_app_Some in Hp as [Hp|[_ Hp]]; [exact Hp|].
    apply list_lookup_singleton_Some in Hp as [_ <-]. discriminate Ha. }
  intros p q a b Hp Hq Ha Hb.
  apply (H p q a b); auto.
Qed.

Lemma Single_at_most_one_landing (rnd : RandomSource) (runNumber : Z)
    (control : bool) (n : nat) :
  at_most_one_landing (airplanes (sim (trial SingleRunway rnd runNumber control n))).
Proof.
  induction n as [|n IH].
  - intros i j a b Hi. cbn in Hi. rewrite lookup_nil in Hi. discriminate.
  - rewrite trial_S. cbn [tick_of]. rewrite Single_tick_airplanes.
    apply Single_frame_one_landing, tick_begin_one_landing, IH.
Qed.

Lemma count_landing_none (l : list Airplane) :
  (forall j b, l !! j = Some b -> landing b = false) -> count_landing l = 0%nat.
Proof.
  induction l as [|a l IH]; intros H; [reflexivity|].
  unfold count_landing. cbn [List.filter].
  rewrite (H 0%nat a eq_refl). apply IH.
  intros j b Hj. apply (H (S j) b Hj).
Qed.

Lemma count_landing_at_most_one (l : list Airplane) :
  at_most_one_landing l -> (count_landing l <= 1)%nat.
Proof.
  induction l as [|a l IH]; intros H; [unfold count_landing; simpl; lia|].
  unfold count_landing. cbn [List.filter].
  destruct (landing a) eqn:Ha.
  - cbn [length]. fold (count_landing l). rewrite count_landing_none; [lia|].
    intros j b Hj. destruct (landing b) eqn:Hb; [|reflexivity].
    discriminate (H 0%nat (S j) a b eq_refl Hj Ha Hb).
  - apply IH. intros i j b c Hi Hj Hb Hc.
    assert (E : S i = S j) by (apply (H (S i) (S j) b c); auto).
    congruence.
Qed.

(** In every state of a single-runway trial, under either policy, at most
    one airplane has [landing = true]. *)
Lemma Single_count_landing (rnd : RandomSource) (runNumber : Z) (control : bool)
    (n : nat) :
  (count_landing (airplanes (sim (trial SingleRunway rnd runNumber control n))) <= 1)%nat.
Proof. apply count_landing_at_most_one, Single_at_most_one_landing. Qed.

(** ** C7: configuration errors *)

(** C7, as stated, fails: a constructor call that passes a runway count of 0
    and a spawn probability of -1/2 is an invalid configuration, and it
    returns a trial instead of throwing. *)
Lemma C7_counterexample :
  invalid_configuration 0 (-1 # 2) /\
  Simulation_new 1 false [0%Q; (-1 # 2)%Q] <> Throw.
Proof.
  split.
  - left. apply Qle_refl.
  - discriminate.
Qed.

(** C7, amended. The constructor takes a run number and a control flag and
    never rejects a call, whatever further arguments are passed: it returns
    the empty trial at frame 0.  The runway count and the spawn probability
    are not configurable: the multi-runway scan always starts from 6
    runways, and in both variants an airplane spawns exactly when the
    frame's draw is below 1/100. *)
Theorem C7_constructor_never_rejects (runNumber : Z) (control : bool)
    (extra : list Q) :
  Simulation_new runNumber control extra = Normal (Simulation_init runNumber control) /\
  airplanes (Simulation_init runNumber control) = [] /\
  frameNumber (Simulation_init runNumber control) = 0 /\
  (forall c, Multi.runways (Multi.scan c []) = 6) /\
  (forall rnd w,
     length (airplanes (sim (tick_begin rnd w)))
     = if random_below 100 (rnd (calls w)) =? 0
       then S (length (airplanes (sim w)))
       else length (airplanes (sim w))).
Proof.
  repeat split.
  intros rnd w. unfold tick_begin, generateAirplane. cbn [sim calls].
  destruct (_ =? 0); cbn [sim airplanes set_airplanes set_frameNumber].
  - rewrite length_app. simpl. lia.
  - reflexivity.
Qed.

(** ** C5: the per-frame tick of an airplane *)

Lemma tick_begin_wf_plane (rnd : RandomSource) (w : World) :
  Forall wf_plane (airplanes (sim w)) ->
  Forall wf_plane (airplanes (sim (tick_begin rnd w))).
Proof.
  intros Hwf. destruct (tick_begin_airplanes rnd w) as [->|[_ ->]]; [exact Hwf|].
  apply Forall_app. split; [exact Hwf|].
  apply Forall_cons. split; [|apply Forall_nil; exact I].
  apply (wf_Airplane_new (Z.of_nat (length (airplanes (sim w))) + 1)). lia.
Qed.

(** The airplanes scanned by any frame of any trial satisfy the invariant. *)
Lemma scanned_airplanes_wf (v : Variant) (rnd : RandomSource) (runNumber : Z)
    (control : bool) (n : nat) :
  Forall wf_plane (scanned_airplanes v rnd runNumber control n).
Proof.
  unfold scanned_airplanes, trial. apply tick_begin_wf_plane.
  destruct v; cbn [tick_of].
  - apply Forall_wf_single_plane, Single_reachable_wf.
  - apply Multi_reachable_wf.
Qed.

Lemma scanned_store_fmap (v : Variant) (control : bool) (l : list Airplane) :
  scanned_store v control l = frame_step <$> l.
Proof.
  destruct v; cbn [scanned_store].
  - apply (Single_scan_spec l).
  - apply Multi_scan_store.
Qed.

(** C5, as stated, fails for landed airplanes: in the single-runway trial
    [draws_one_then_six] airplane 1 has landed by frame 81 with 19 liters and
    has not crashed; the scan of frame 82 leaves its fuel at 19, where an
    invoked tick would have burnt one liter. *)
Lemma C5_counterexample :
  let l := scanned_airplanes SingleRunway draws_one_then_six 2 true 81 in
  exists a a',
    l !! 0%nat = Some a /\
    scanned_store SingleRunway true l !! 0%nat = Some a' /\
    crashed a = false /\
    fuel a = 19 /\ fuel a' = 19 /\
    fuel a' <> fuel a - fuelRate a /\
    a' <> Airplane_tick a.
Proof.
  eexists _, _. split; [vm_compute; reflexivity|].
  split; [vm_compute; reflexivity|].
  vm_compute. repeat split; discriminate.
Qed.

(** C5, amended. In both variants, on every frame of a trial, the scan
    invokes the tick of every airplane that has not landed yet, and of no
    other.  If the airplane has crashed the tick changes nothing; otherwise
    its fuel decreases by 1 (its [fuelRate]); if it is landing, its altitude
    decreases by 1 as well and, when the altitude reaches 0, [landing]
    becomes false and [landed] true; if it is not landing, [crashed] becomes
    true exactly when the fuel after the decrement is at most 0. *)
Theorem C5_tick_of_unlanded_airplanes (v : Variant) (rnd : RandomSource)
    (runNumber : Z) (control : bool) (n : nat) (i : nat) (a : Airplane) :
  scanned_airplanes v rnd runNumber control n !! i = Some a ->
  exists a',
    scanned_store v control (scanned_airplanes v rnd runNumber control n) !! i
      = Some a' /\
    (landed a = true -> a' = a) /\
    (landed a = false -> a' = Airplane_tick a) /\
    (landed a = false -> crashed a = true -> a' = a) /\
    (landed a = false -> crashed a = false ->
       fuelRate a = 1 /\ fuel a' = fuel a - 1 /\
       (landing a = true ->
          altitude a' = altitude a - 1 /\ crashed a' = false /\
          (altitude a' = 0 -> landing a' = false /\ landed a' = true) /\
          (altitude a' <> 0 -> landing a' = true /\ landed a' = false)) /\
       (landing a = false ->
          altitude a' = altitude a /\ landing a' = false /\ landed a' = false /\
          (crashed a' = true <-> fuel a' <= 0))).
Proof.
  intros Hi. exists (frame_step a).
  pose proof (proj1 (Forall_lookup _ _)
                (scanned_airplanes_wf v rnd runNumber control n) i a Hi) as Hwf.
  split; [rewrite scanned_store_fmap, list_lookup_fmap, Hi; reflexivity|].
  split; [apply frame_step_landed|].
  split; [apply frame_step_unlanded|].
  split.
  { intros Hld Hc. rewrite frame_step_unlanded by exact Hld.
    apply Airplane_tick_crashed, Hc. }
  intros Hld Hc. rewrite frame_step_unlanded by exact Hld.
  pose proof (wf_rate a Hwf) as Hr. split; [exact Hr|].
  destruct (landing a) eqn:Hlg.
  - rewrite Airplane_tick_landing by assumption. rewrite Hr.
    destruct (Z.eqb_spec (altitude a - 1) 0) as [H0|H0]; cbn [fuel altitude landing landed crashed].
    + split; [reflexivity|]. split; [|intros; discriminate].
      intros _. repeat split; auto. intros; contradiction.
    + split; [reflexivity|]. split; [|intros; discriminate].
      intros _. repeat split; auto; intros; try contradiction.
  - rewrite Airplane_tick_waiting by assumption. rewrite Hr.
    cbn [fuel altitude landing landed crashed].
    split; [reflexivity|]. split; [intros; discriminate|].
    intros _. repeat split; auto.
    + intros H. apply Z.leb_le. exact H.
    + intros H. apply Z.leb_le. exact H.
Qed.

(** C5 at the airplane that spawns with 200 liters on frame 1 of the
    multi-runway trial [draws_low_then_high]: the scan burns one liter. *)
Lemma C5_witness :
  scanned_airplanes MultiRunway draws_low_then_high 1 false 0 !! 0%nat
    = Some (mkAirplane 1 200 1 false 80 false false) /\
  exists a',
    scanned_store MultiRunway false
      (scanned_airplanes MultiRunway draws_low_then_high 1 false 0) !! 0%nat
      = Some a' /\
    fuel a' = 200 - 1.
Proof.
  split; [vm_compute; reflexivity|].
  destruct (C5_tick_of_unlanded_airplanes MultiRunway draws_low_then_high 1 false
              0 0 (mkAirplane 1 200 1 false 80 false false))
    as (a' & Ha' & _ & _ & _ & H); [vm_compute; reflexivity|].
  exists a'. split; [exact Ha'|].
  destruct H as (_ & Hf & _); [reflexivity | reflexivity |]. exact Hf.
Defined.

(** ** C6: preemption in the single-runway variant *)

Lemma set_landing_same (a : Airplane) : set_landing (landing a) a = a.
Proof. destruct a; reflexivity. Qed.

Lemma set_landing_twice (v v' : bool) (a : Airplane) :
  set_landing v (set_landing v' a) = set_landing v a.
Proof. destruct a; reflexivity. Qed.

(** [r.landing = v] changes at most the [landing] flag of the airplane [r]. *)
Lemma ref_set_landing_lookup (v : bool) (r : Ref) (store : list Airplane)
    (k : nat) (c : Airplane) :
  store !! k = Some c ->
  ref_set_landing v r store !! k
  = Some (if decide (r = Plane k) then set_landing v c else c).
Proof.
  intros Hk. unfold ref_set_landing. destruct r as [f|i].
  - rewrite decide_False by discriminate. exact Hk.
  - destruct (store !! i) as [a|] eqn:Hi.
    + destruct (Nat.eq_dec i k) as [->|Hne].
      * rewrite decide_True by reflexivity.
        rewrite list_lookup_insert_eq by (eapply lookup_lt_Some; eauto).
        congruence.
      * rewrite decide_False by congruence.
        rewrite list_lookup_insert_ne by exact Hne. exact Hk.
    + rewrite decide_False; [exact Hk|]. intros [= ->]. congruence.
Qed.

(** What the single-runway preemption does to each airplane of the array. *)
Lemma Single_prioritize_lookup (lowestAirplane landingPlane : Ref)
    (store : list Airplane) (k : nat) (c : Airplane) :
  store !! k = Some c ->
  exists v,
    Single.prioritizeLandingOtherPlane lowestAirplane landingPlane store !! k
    = Some (set_landing v c) /\
    (v <> landing c -> landingPlane = Plane k \/ lowestAirplane = Plane k).
Proof.
  intros Hk. unfold Single.prioritizeLandingOtherPlane.
  destruct (_ && _).
  - pose proof (ref_set_landing_lookup false landingPlane store k c Hk) as H1.
    pose proof (ref_set_landing_lookup true lowestAirplane _ k _ H1) as H2.
    rewrite H2.
    destruct (decide (lowestAirplane = Plane k)) as [Hl|Hl];
      destruct (decide (landingPlane = Plane k)) as [Hp|Hp].
    + exists true. rewrite set_landing_twice. auto.
    + exists true. auto.
    + exists false. auto.
    + exists (landing c). rewrite set_landing_same. split; [reflexivity|].
      intros H; contradiction.
  - exists (landing c). rewrite set_landing_same. split; [exact Hk|].
    intros H; contradiction.
Qed.

(** The frame halts at most one landing. *)
Lemma Single_frame_halts_one (control : bool) (l : list Airplane)
    (k1 k2 : nat) (c1 c2 d1 d2 : Airplane) :
  Single.store (Single.scan l) !! k1 = Some c1 -> landing c1 = true ->
  Single.arbitrate control (Single.scan l) !! k1 = Some d1 -> landing d1 = false ->
  Single.store (Single.scan l) !! k2 = Some c2 -> landing c2 = true ->
  Single.arbitrate control (Single.scan l) !! k2 = Some d2 -> landing d2 = false ->
  k1 = k2.
Proof.
  destruct (Single_scan_spec l) as (Hs & _). rewrite Hs.
  intros Hc1 Hl1 Hd1 Hn1 Hc2 Hl2 Hd2 Hn2.
  assert (Hone : forall k c d,
    (frame_step <$> l) !! k = Some c -> landing c = true ->
    Single.arbitrate control (Single.scan l) !! k = Some d -> landing d = false ->
    Single.landingPlane (Single.scan l) = Plane k).
  { intros k c d Hc Hl Hd Hn.
    rewrite list_lookup_fmap in Hc.
    destruct (l !! k) as [a0|] eqn:Ha0; [|discriminate]. injection Hc as <-.
    destruct (Single_arbitrate_cases control l)
      as [H|[(i & b0 & _ & _ & _ & _ & H)|(i & j & b0 & e0 & H)]].
    - rewrite H, list_lookup_fmap, Ha0 in Hd. injection Hd as <-. congruence.
    - rewrite H in Hd. destruct (Nat.eq_dec i k) as [->|Hne].
      + rewrite list_lookup_insert_eq in Hd.
        * injection Hd as <-. discriminate.
        * rewrite length_fmap. eapply lookup_lt_Some; eauto.
      + rewrite list_lookup_insert_ne, list_lookup_fmap, Ha0 in Hd by exact Hne.
        injection Hd as <-. congruence.
    - destruct H as (_ & _ & Hlp & _ & _ & _ & _ & _ & _ & _ & _ & H).
      rewrite H in Hd. destruct (Nat.eq_dec i k) as [->|Hne].
      + rewrite list_lookup_insert_eq in Hd.
        * injection Hd as <-. discriminate.
        * rewrite length_insert, length_fmap. eapply lookup_lt_Some; eauto.
      + rewrite list_lookup_insert_ne in Hd by exact Hne.
        destruct (Nat.eq_dec j k) as [->|Hne']; [exact Hlp|].
        rewrite list_lookup_insert_ne, list_lookup_fmap, Ha0 in Hd by exact Hne'.
        injection Hd as <-. congruence. }
  pose proof (Hone k1 c1 d1 Hc1 Hl1 Hd1 Hn1) as E1.
  pose proof (Hone k2 c2 d2 Hc2 Hl2 Hd2 Hn2) as E2.
  congruence.
Qed.

(** C6. Single-runway variant, reprioritization enabled, airplane [j]
    currently landing in the array [store]: the preemption changes nothing
    when the landing plane's fuel is below 81 plus its altitude, or when the
    best candidate's fuel is not strictly less than the landing plane's; in
    any case it changes nothing but [landing] flags, and only those of the
    landing plane and of the best candidate, so the halted plane keeps its
    altitude and fuel; the frame calls it at most once, and at most one
    landing is halted per frame. *)
Theorem C6_single_preemption (store : list Airplane) (lowestAirplane : Ref)
    (j : nat) (b : Airplane) :
  store !! j = Some b ->
  let store' := Single.prioritizeLandingOtherPlane lowestAirplane (Plane j) store in
  (fuel b < 81 + altitude b -> store' = store) /\
  (js_lt (ref_fuel store lowestAirplane) (Num (fuel b)) = false -> store' = store) /\
  (forall k c, store !! k = Some c ->
     exists v, store' !! k = Some (set_landing v c) /\
               (v <> landing c -> k = j \/ lowestAirplane = Plane k)) /\
  (exists b', store' !! j = Some b' /\ altitude b' = altitude b /\ fuel b' = fuel b) /\
  (forall st,
     Single.arbitrate false st
     = Single.startPlaneLanding (Single.planeLanding st) (Single.lowestAirplane st)
                                (Single.store st)
     \/ Single.arbitrate false st
        = Single.prioritizeLandingOtherPlane (Single.lowestAirplane st)
            (Single.landingPlane st)
            (Single.startPlaneLanding (Single.planeLanding st)
               (Single.lowestAirplane st) (Single.store st))) /\
  (forall l k1 k2 c1 c2 d1 d2,
     Single.store (Single.scan l) !! k1 = Some c1 -> landing c1 = true ->
     Single.arbitrate false (Single.scan l) !! k1 = Some d1 -> landing d1 = false ->
     Single.store (Single.scan l) !! k2 = Some c2 -> landing c2 = true ->
     Single.arbitrate false (Single.scan l) !! k2 = Some d2 -> landing d2 = false ->
     k1 = k2).
Proof.
  intros Hj. cbv zeta. repeat split.
  - intros Hlow. unfold Single.prioritizeLandingOtherPlane.
    cbn [ref_fuel ref_altitude]. rewrite Hj. cbn [js_add js_ge].
    destruct (Z.leb_spec (81 + altitude b) (fuel b)); [lia|].
    rewrite andb_false_r. reflexivity.
  - intros Hnl. unfold Single.prioritizeLandingOtherPlane.
    replace (ref_fuel store (Plane j)) with (Num (fuel b))
      by (cbn [ref_fuel]; rewrite Hj; reflexivity).
    rewrite Hnl. reflexivity.
  - intros k c Hk.
    destruct (Single_prioritize_lookup lowestAirplane (Plane j) store k c Hk)
      as (v & Hv & Hwho).
    exists v. split; [exact Hv|]. intros Hne.
    destruct (Hwho Hne) as [[= ->]|H]; auto.
  - destruct (Single_prioritize_lookup lowestAirplane (Plane j) store j b Hj)
      as (v & Hv & _).
    exists (set_landing v b). split; [exact Hv|]. destruct b; split; reflexivity.
  - intros st. unfold Single.arbitrate. destruct (_ && _); auto.
  - intros l k1 k2 c1 c2 d1 d2. apply Single_frame_halts_one.
Qed.

(** C6 at a landing plane with 85 liters at altitude 5 (it would need 86)
    and a waiting plane with 84 liters: no preemption. *)
Lemma C6_witness :
  let store := [mkAirplane 1 85 1 false 5 true false;
                mkAirplane 2 84 1 false 80 false false] in
  store !! 0%nat = Some (mkAirplane 1 85 1 false 5 true false) /\
  Single.prioritizeLandingOtherPlane (Plane 1) (Plane 0) store = store.
Proof.
  cbv zeta. split; [reflexivity|].
  destruct (C6_single_preemption
              [mkAirplane 1 85 1 false 5 true false;
               mkAirplane 2 84 1 false 80 false false]
              (Plane 1) 0 (mkAirplane 1 85 1 false 5 true false))
    as [Hlow _]; [reflexivity|].
  apply Hlow. simpl. lia.
Defined.

(** ** C4: landed and crashed airplanes are frozen *)

Lemma trial_wf (v : Variant) (rnd : RandomSource) (runNumber : Z) (control : bool)
    (n : nat) (i : nat) (a : Airplane) :
  airplanes (sim (trial v rnd runNumber control n)) !! i = Some a ->
  wf_plane a /\ (v = SingleRunway -> landed a = true -> landing a = false).
Proof.
  intros Hi. destruct v; unfold trial in Hi; cbn [tick_of] in Hi.
  - destruct (proj1 (Forall_lookup _ _)
                (Single_reachable_wf rnd runNumber control n) i a Hi) as [Hw Hl].
    split; [exact Hw | intros _; exact Hl].
  - split; [|discriminate].
    exact (proj1 (Forall_lookup _ _)
             (Multi_reachable_wf rnd runNumber control n) i a Hi).
Qed.

Lemma terminal_frame_step (a : Airplane) :
  wf_plane a -> landed a = true \/ crashed a = true -> frame_step a = a.
Proof.
  intros Hwf [Hld|Hc]; [apply frame_step_landed, Hld|].
  unfold frame_step. destruct (landed a); [reflexivity|].
  apply Airplane_tick_crashed, Hc.
Qed.

Lemma terminal_not_Multi_cand (a : Airplane) :
  wf_plane a -> landed a = true \/ crashed a = true -> Multi_cand a = false.
Proof.
  intros Hwf [Hld|Hc]; unfold Multi_cand.
  - rewrite Hld. reflexivity.
  - destruct (wf_crashed a Hwf Hc) as (Hf & Hlg & Hld).
    rewrite (Airplane_tick_crashed a Hc), Hld, Hlg. cbn [negb andb].
    pose proof (wf_alt_pos a Hwf Hld). apply Z.leb_gt. lia.
Qed.

Lemma terminal_not_Single_cand (a : Airplane) :
  wf_plane a -> landed a = true \/ crashed a = true -> Single_cand a = false.
Proof.
  intros Hwf Ht. unfold Single_cand. rewrite (terminal_frame_step a Hwf Ht).
  destruct Ht as [Hld|Hc].
  - rewrite Hld. apply andb_false_r.
  - destruct (wf_crashed a Hwf Hc) as (Hf & _).
    replace (80 <=? fuel a) with false; [reflexivity|].
    symmetry. apply Z.leb_gt. lia.
Qed.

(** One frame leaves a landed or crashed airplane of a trial as it is. *)
Lemma terminal_frozen_step (v : Variant) (rnd : RandomSource) (w : World)
    (i : nat) (a : Airplane) :
  wf_plane a -> (v = SingleRunway -> landed a = true -> landing a = false) ->
  airplanes (sim w) !! i = Some a ->
  landed a = true \/ crashed a = true ->
  airplanes (sim (tick_of v rnd w)) !! i = Some a.
Proof.
  intros Hwf Hsl Hi Ht. destruct v; cbn [tick_of].
  - destruct (Single_tick_lookup rnd w i a Hi) as [H|[[Hc H]|(_ & Hlg & _ & H)]].
    + rewrite H, (terminal_frame_step a Hwf Ht). reflexivity.
    + rewrite (terminal_not_Single_cand a Hwf Ht) in Hc. discriminate.
    + rewrite (terminal_frame_step a Hwf Ht) in Hlg.
      destruct Ht as [Hld|Hc].
      * rewrite (Hsl eq_refl Hld) in Hlg. discriminate.
      * destruct (wf_crashed a Hwf Hc) as (_ & Hlg' & _). congruence.
  - destruct (Multi_tick_lookup rnd w i a Hi) as [H|[Hc H]].
    + rewrite H, (terminal_frame_step a Hwf Ht). reflexivity.
    + rewrite (terminal_not_Multi_cand a Hwf Ht) in Hc. discriminate.
Qed.

(** C4. In both variants and at every frame of a trial, an airplane is never
    both landed and crashed, and once it is landed or crashed it is the same
    (fuel, altitude, landing, landed, crashed and all) at the end of every
    later frame. *)
Theorem C4_terminal_airplanes_frozen (v : Variant) (rnd : RandomSource)
    (runNumber : Z) (control : bool) (n : nat) (i : nat) (a : Airplane) :
  airplanes (sim (trial v rnd runNumber control n)) !! i = Some a ->
  ~ (landed a = true /\ crashed a = true) /\
  (landed a = true \/ crashed a = true ->
   forall m, airplanes (sim (trial v rnd runNumber control (n + m))) !! i = Some a).
Proof.
  intros Hi. destruct (trial_wf v rnd runNumber control n i a Hi) as [Hwf Hsl].
  split.
  - intros [Hld Hc]. destruct (wf_crashed a Hwf Hc) as (_ & _ & Hld'). congruence.
  - intros Ht m. induction m as [|m IH].
    + rewrite Nat.add_0_r. exact Hi.
    + rewrite Nat.add_succ_r, trial_S.
      apply terminal_frozen_step; assumption.
Qed.

(** C4 at the airplane of the multi-runway trial [draws_one_then_six] that
    has landed by frame 81: it is the same after frame 87. *)
Lemma C4_witness :
  airplanes (sim (trial MultiRunway draws_one_then_six 1 false 81)) !! 0%nat
    = Some (mkAirplane 1 19 1 false 0 true true) /\
  airplanes (sim (trial MultiRunway draws_one_then_six 1 false (81 + 6))) !! 0%nat
    = Some (mkAirplane 1 19 1 false 0 true true).
Proof.
  split; [vm_compute; reflexivity|].
  apply (C4_terminal_airplanes_frozen MultiRunway draws_one_then_six 1 false 81 0
           (mkAirplane 1 19 1 false 0 true true)).
  - vm_compute; reflexivity.
  - left. reflexivity.
Defined.

(** ** C9: a landing airplane has the fuel for its descent *)

Lemma crashed_set_landing (v : bool) (a : Airplane) :
  crashed (set_landing v a) = crashed a.
Proof. reflexivity. Qed.

Lemma landing_frame_step_not_crashed (a : Airplane) :
  landing a = true -> crashed a = false -> crashed (frame_step a) = false.
Proof.
  intros Hlg Hc. unfold frame_step. destruct (landed a); cbn [negb]; [exact Hc|].
  rewrite Airplane_tick_landing by assumption.
  destruct (_ =? 0); reflexivity.
Qed.

(** An airplane of the array after a frame is the frame step of the one
    before, up to its [landing] flag. *)
Lemma tick_of_lookup_flag (v : Variant) (rnd : RandomSource) (w : World)
    (i : nat) (a a' : Airplane) :
  airplanes (sim w) !! i = Some a ->
  airplanes (sim (tick_of v rnd w)) !! i = Some a' ->
  exists b, a' = set_landing b (frame_step a).
Proof.
  intros Hi Hi'. destruct v; cbn [tick_of] in Hi'.
  - destruct (Single_tick_lookup rnd w i a Hi) as [H|[[_ H]|(_ & _ & _ & H)]];
      rewrite H in Hi'; injection Hi' as <-.
    + exists (landing (frame_step a)). symmetry. apply set_landing_same.
    + exists true. reflexivity.
    + exists false. reflexivity.
  - destruct (Multi_tick_lookup rnd w i a Hi) as [H|[_ H]];
      rewrite H in Hi'; injection Hi' as <-.
    + exists (landing (frame_step a)). symmetry. apply set_landing_same.
    + exists true. reflexivity.
Qed.

(** C9. In both variants, at every frame of a trial, an airplane whose
    [landing] flag is set has at least as much fuel as altitude; it has not
    crashed and does not crash on the next frame; and a landed airplane has
    a fuel of at least 0. *)
Theorem C9_landing_airplane_has_fuel (v : Variant) (rnd : RandomSource)
    (runNumber : Z) (control : bool) (n : nat) (i : nat) (a : Airplane) :
  airplanes (sim (trial v rnd runNumber control n)) !! i = Some a ->
  (landing a = true -> altitude a <= fuel a) /\
  (landing a = true ->
     crashed a = false /\
     forall a', airplanes (sim (trial v rnd runNumber control (S n))) !! i = Some a' ->
                crashed a' = false) /\
  (landed a = true -> 0 <= fuel a).
Proof.
  intros Hi. destruct (trial_wf v rnd runNumber control n i a Hi) as [Hwf _].
  split; [apply (wf_landing a Hwf)|]. split; [|apply (wf_landed a Hwf)].
  intros Hlg.
  assert (Hc : crashed a = false).
  { destruct (crashed a) eqn:Hc; [|reflexivity].
    destruct (wf_crashed a Hwf Hc) as (_ & Hlg' & _). congruence. }
  split; [exact Hc|]. intros a' Hi'. rewrite trial_S in Hi'.
  destruct (tick_of_lookup_flag v rnd _ i a a' Hi Hi') as [b ->].
  rewrite crashed_set_landing. apply landing_frame_step_not_crashed; assumption.
Qed.

(** C9 at the landing airplane of the single-runway trial
    [draws_low_then_high] after frame 2: 198 liters at altitude 79. *)
Lemma C9_witness :
  airplanes (sim (trial SingleRunway draws_low_then_high 1 false 2)) !! 0%nat
    = Some (mkAirplane 1 198 1 false 79 true false) /\
  79 <= 198.
Proof.
  split; [vm_compute; reflexivity|].
  destruct (C9_landing_airplane_has_fuel SingleRunway draws_low_then_high 1 false
              2 0 (mkAirplane 1 198 1 false 79 true false)) as [H _].
  - vm_compute; reflexivity.
  - apply H. reflexivity.
Defined.

(** ** C2: the best candidate *)

Lemma no_touchdown_lookup (l : list Airplane) (i : nat) (a : Airplane) :
  no_touchdown l -> l !! i = Some a -> landed (frame_step a) = landed a.
Proof.
  intros Hnt Hi. unfold no_touchdown in Hnt.
  rewrite forallb_forall in Hnt. apply eqb_prop, Hnt.
  apply list_elem_of_In, list_elem_of_lookup. exists i. exact Hi.
Qed.

(** Without a touchdown, the multi-runway scan's test is "waiting with fuel
    for the descent". *)
Lemma Multi_cand_waiting (a0 : Airplane) :
  wf_plane a0 -> landed (frame_step a0) = landed a0 ->
  Multi_cand a0 = waiting_with_fuel (frame_step a0).
Proof.
  intros Hwf Hnt. pose proof (wf_frame_step a0 Hwf) as Hwf'.
  unfold Multi_cand, waiting_with_fuel. rewrite Hnt.
  destruct (landed a0) eqn:Hld; cbn [negb andb].
  - rewrite andb_false_r. reflexivity.
  - rewrite frame_step_unlanded in * by exact Hld.
    rewrite andb_true_r.
    destruct (crashed (Airplane_tick a0)) eqn:Hc; cbn [negb andb].
    + destruct (wf_crashed _ Hwf' Hc) as (Hf & _ & _).
      pose proof (wf_alt_pos _ Hwf' Hnt).
      replace (altitude (Airplane_tick a0) <=? fuel (Airplane_tick a0)) with false
        by (symmetry; apply Z.leb_gt; lia).
      rewrite !andb_false_r. reflexivity.
    + rewrite andb_true_r. reflexivity.
Qed.

(** The single-runway scan's test is "not landed, with 80 liters". *)
Lemma Single_cand_unlanded (a0 : Airplane) :
  wf_plane a0 -> Single_cand a0 = unlanded_with_80 (frame_step a0).
Proof.
  intros Hwf. pose proof (wf_frame_step a0 Hwf) as Hwf'.
  unfold Single_cand, unlanded_with_80.
  destruct (crashed (frame_step a0)) eqn:Hc; cbn [negb andb].
  - destruct (wf_crashed _ Hwf' Hc) as (Hf & _ & _).
    replace (80 <=? fuel (frame_step a0)) with false
      by (symmetry; apply Z.leb_gt; lia).
    rewrite andb_false_r. reflexivity.
  - rewrite andb_true_r. apply andb_comm.
Qed.

(** C2, as stated, fails in the single-runway variant, in two ways.
    On frame 2 of the trial [draws_low_then_high] the scan's best candidate
    is airplane 1, which is landing, not waiting.  On frame 221 of the trial
    [draws_four] airplane 1 is waiting with 79 liters at altitude 79, enough
    for its descent, and the scan finds no candidate at all. *)
Lemma C2_counterexample :
  let l := scanned_airplanes SingleRunway draws_low_then_high 1 false 1 in
  let l' := scanned_airplanes SingleRunway draws_four 1 false 220 in
  (best_candidate SingleRunway false l = Plane 0 /\
   map flags (scanned_store SingleRunway false l)
     = [(198, 79, true, false, false); (299, 80, false, false, false)] /\
   ~ first_min_fuel waiting_with_fuel (scanned_store SingleRunway false l)
       (best_candidate SingleRunway false l)) /\
  (best_candidate SingleRunway false l' = Literal Infinity /\
   map flags (scanned_store SingleRunway false l')
     = [(79, 79, false, false, false); (119, 0, false, true, false);
        (90, 0, false, true, false); (62, 21, true, false, false)] /\
   ~ first_min_fuel waiting_with_fuel (scanned_store SingleRunway false l')
       (best_candidate SingleRunway false l')).
Proof.
  cbv zeta. split.
  - assert (Hb : best_candidate SingleRunway false
                   (scanned_airplanes SingleRunway draws_low_then_high 1 false 1)
                 = Plane 0) by (vm_compute; reflexivity).
    split; [exact Hb|]. split; [vm_compute; reflexivity|].
    rewrite Hb. intros (a & Ha & Hel & _).
    assert (Ha' : scanned_store SingleRunway false
                    (scanned_airplanes SingleRunway draws_low_then_high 1 false 1)
                    !! 0%nat
                  = Some (mkAirplane 1 198 1 false 79 true false))
      by (vm_compute; reflexivity).
    rewrite Ha' in Ha. injection Ha as <-. discriminate Hel.
  - assert (Hb : best_candidate SingleRunway false
                   (scanned_airplanes SingleRunway draws_four 1 false 220)
                 = Literal Infinity) by (vm_compute; reflexivity).
    split; [exact Hb|]. split; [vm_compute; reflexivity|].
    rewrite Hb. intros [_ Hnone].
    assert (Ha' : scanned_store SingleRunway false
                    (scanned_airplanes SingleRunway draws_four 1 false 220)
                    !! 0%nat
                  = Some (mkAirplane 1 79 1 false 79 false false))
      by (vm_compute; reflexivity).
    specialize (Hnone 0%nat _ Ha'). discriminate Hnone.
Qed.

(** C2, amended. On every frame of a trial, the scan's best candidate is the
    first airplane of minimal fuel among the eligible ones (or none when no
    airplane is eligible), the fuel being read after the frame's tick.  In
    the multi-runway variant, on a frame on which no airplane touches down,
    the eligible airplanes are the waiting ones (not landing, not landed,
    not crashed) whose fuel is at least their altitude.  In the single-runway
    variant they are the airplanes that are not landed and not crashed and
    have at least 80 liters, the one that is landing included. *)
Theorem C2_best_candidate (v : Variant) (rnd : RandomSource) (runNumber : Z)
    (control : bool) (n : nat) :
  (v = MultiRunway -> no_touchdown (scanned_airplanes v rnd runNumber control n)) ->
  first_min_fuel (eligible_of v)
    (scanned_store v control (scanned_airplanes v rnd runNumber control n))
    (best_candidate v control (scanned_airplanes v rnd runNumber control n)).
Proof.
  intros Hnt. rewrite scanned_store_fmap.
  pose proof (scanned_airplanes_wf v rnd runNumber control n) as Hwf.
  set (l := scanned_airplanes v rnd runNumber control n) in *.
  destruct v; cbn [eligible_of best_candidate].
  - apply scan_best_first_min with (cand := Single_cand).
    + intros j b0 Hj. apply Single_cand_unlanded.
      exact (proj1 (Forall_lookup _ _) Hwf j b0 Hj).
    + apply (Single_scan_spec l).
  - apply scan_best_first_min with (cand := Multi_cand).
    + intros j b0 Hj. apply Multi_cand_waiting.
      * exact (proj1 (Forall_lookup _ _) Hwf j b0 Hj).
      * eapply no_touchdown_lookup; [apply Hnt; reflexivity | exact Hj].
    + apply Multi_scan_lowest.
Qed.

(** C2 on frame 7 of the multi-runway trial [draws_six_then_low]: no
    airplane touches down, and the candidate is the waiting airplane 7. *)
Lemma C2_witness :
  (MultiRunway = MultiRunway ->
   no_touchdown (scanned_airplanes MultiRunway draws_six_then_low 1 false 6)) /\
  first_min_fuel waiting_with_fuel
    (scanned_store MultiRunway false
       (scanned_airplanes MultiRunway draws_six_then_low 1 false 6))
    (best_candidate MultiRunway false
       (scanned_airplanes MultiRunway draws_six_then_low 1 false 6)).
Proof.
  split; [intros _; vm_compute; reflexivity|].
  apply (C2_best_candidate MultiRunway draws_six_then_low 1 false 6).
  intros _. vm_compute. reflexivity.
Defined.

(** ** C10: an airplane is ticked on its spawn frame *)

Lemma tick_of_airplanes (v : Variant) (rnd : RandomSource) (w : World) :
  airplanes (sim (tick_of v rnd w))
  = frame_result v (control (sim w)) (airplanes (sim (tick_begin rnd w))).
Proof.
  destruct v; cbn [tick_of frame_result].
  - apply Single_tick_airplanes.
  - apply Multi_tick_airplanes.
Qed.

Lemma tick_begin_spawn (rnd : RandomSource) (w : World) :
  random_below 100 (rnd (calls w)) = 0 ->
  airplanes (sim (tick_begin rnd w))
  = airplanes (sim w)
    ++ [Airplane_new (Z.of_nat (length (airplanes (sim w))) + 1) (rnd (S (calls w)))].
Proof.
  intros H0. unfold tick_begin, generateAirplane. cbn [sim calls].
  rewrite H0. reflexivity.
Qed.

(** Every airplane of the array scanned by a frame comes out as its frame
    step, up to its [landing] flag, which can only be raised for a candidate
    and lowered for a landing plane with 81 liters above its altitude. *)
Lemma frame_result_lookup (v : Variant) (control : bool) (l : list Airplane)
    (i : nat) (a0 : Airplane) :
  l !! i = Some a0 ->
  frame_result v control l !! i = Some (frame_step a0) \/
  frame_result v control l !! i = Some (set_landing true (frame_step a0)) \/
  (landing (frame_step a0) = true /\
   81 + altitude (frame_step a0) <= fuel (frame_step a0) /\
   frame_result v control l !! i = Some (set_landing false (frame_step a0))).
Proof.
  intros Hi. destruct v; cbn [frame_result].
  - destruct (Single_frame_lookup control l i a0 Hi) as [H|[[_ H]|(_ & H1 & H2 & H)]];
      auto.
  - destruct (Multi_frame_lookup control l i a0 Hi) as [H|[_ H]]; auto.
Qed.

(** One frame of descent of a landing airplane that is too short of fuel to
    be halted. *)
Lemma descent_step (v : Variant) (rnd : RandomSource) (w : World) (i : nat)
    (pn f al : Z) :
  airplanes (sim w) !! i = Some (mkAirplane pn f 1 false al true false) ->
  f < 81 + al ->
  exists lg,
    airplanes (sim (tick_of v rnd w)) !! i
    = Some (mkAirplane pn (f - 1) 1 false (al - 1)
                       (if al - 1 =? 0 then lg else true)
                       (al - 1 =? 0)).
Proof.
  intros Hi Hf. rewrite tick_of_airplanes.
  pose proof (tick_begin_lookup rnd w i _ Hi) as Hi1.
  assert (Hfs : frame_step (mkAirplane pn f 1 false al true false)
                = mkAirplane pn (f - 1) 1 false (al - 1)
                    (negb (al - 1 =? 0)) (al - 1 =? 0)).
  { rewrite frame_step_unlanded, Airplane_tick_landing by reflexivity.
    cbn [altitude fuel fuelRate planeNumber landed].
    destruct (al - 1 =? 0); reflexivity. }
  destruct (frame_result_lookup v (control (sim w)) _ i _ Hi1)
    as [H|[H|(Hlg & Hge & H)]]; rewrite Hfs in *.
  - exists false. rewrite H. destruct (al - 1 =? 0); reflexivity.
  - exists true. rewrite H. destruct (al - 1 =? 0); reflexivity.
  - cbn [altitude fuel] in Hge. lia.
Qed.

(** C10. In both variants the spawn comes before the ticks of the frame: an
    airplane created with exactly 100 liters has 99 liters, altitude 80 and
    is neither landed nor crashed at the end of its spawn frame; it can be
    admitted on that frame (it is when it is alone in the airspace); and if
    it was admitted then, it descends for the next 80 frames, whatever else
    happens, and is landed with 19 liters at the end of the 80th. *)
Theorem C10_spawn_then_tick (v : Variant) (rnd : RandomSource) (w : World) :
  random_below 100 (rnd (calls w)) = 0 ->
  random_below 900 (rnd (S (calls w))) + 100 = 100 ->
  let i := length (airplanes (sim w)) in
  let w1 := tick_of v rnd w in
  exists a,
    airplanes (sim w1) !! i = Some a /\
    fuel a = 99 /\ altitude a = 80 /\ landed a = false /\ crashed a = false /\
    (airplanes (sim w) = [] -> landing a = true) /\
    (landing a = true ->
       (forall k, (k <= 79)%nat ->
          exists b, airplanes (sim (frames (tick_of v rnd) k w1)) !! i = Some b /\
                    fuel b = 99 - Z.of_nat k /\ altitude b = 80 - Z.of_nat k /\
                    landing b = true /\ landed b = false /\ crashed b = false) /\
       (exists b, airplanes (sim (frames (tick_of v rnd) 80 w1)) !! i = Some b /\
                  fuel b = 19 /\ altitude b = 0 /\
                  landed b = true /\ crashed b = false)).
Proof.
  intros Hspawn Hfuel. cbv zeta.
  set (pn := Z.of_nat (length (airplanes (sim w))) + 1).
  assert (Hnew : Airplane_new pn (rnd (S (calls w)))
                 = mkAirplane pn 100 1 false 80 false false).
  { unfold Airplane_new. rewrite Hfuel. reflexivity. }
  assert (Hl1 : airplanes (sim (tick_begin rnd w))
                = airplanes (sim w) ++ [mkAirplane pn 100 1 false 80 false false]).
  { rewrite tick_begin_spawn by exact Hspawn. fold pn. rewrite Hnew. reflexivity. }
  assert (Hi1 : airplanes (sim (tick_begin rnd w)) !! length (airplanes (sim w))
                = Some (mkAirplane pn 100 1 false 80 false false)).
  { rewrite Hl1. apply list_lookup_middle. reflexivity. }
  assert (Hfs : frame_step (mkAirplane pn 100 1 false 80 false false)
                = mkAirplane pn 99 1 false 80 false false) by reflexivity.
  assert (Hout : exists lg,
            airplanes (sim (tick_of v rnd w)) !! length (airplanes (sim w))
            = Some (mkAirplane pn 99 1 false 80 lg false)).
  { rewrite tick_of_airplanes.
    destruct (frame_result_lookup v (control (sim w)) _ _ _ Hi1)
      as [H|[H|(Hlg & _ & _)]].
    - exists false. rewrite H, Hfs. reflexivity.
    - exists true. rewrite H, Hfs. reflexivity.
    - rewrite Hfs in Hlg. discriminate Hlg. }
  destruct Hout as [lg Hout]. eexists. split; [exact Hout|].
  cbn [fuel altitude landed crashed landing].
  do 4 (split; [reflexivity|]). split; [|intros ->; split].
  - (* alone in the airspace: admitted on the spawn frame *)
    intros Hempty. rewrite tick_of_airplanes, Hl1, Hempty in Hout.
    unfold pn in Hout. rewrite Hempty in Hout. cbn [length app Z.of_nat Z.add] in Hout.
    destruct v, (control (sim w)); vm_compute in Hout; congruence.
  - (* the descent *)
    intros k Hk.
    assert (Hdesc : airplanes (sim (frames (tick_of v rnd) k (tick_of v rnd w)))
                      !! length (airplanes (sim w))
                    = Some (mkAirplane pn (99 - Z.of_nat k) 1 false
                                       (80 - Z.of_nat k) true false)).
    { induction k as [|k IH]; [exact Hout|].
      rewrite frames_S.
      destruct (descent_step v rnd _ _ _ _ _ (IH ltac:(lia)) ltac:(lia)) as [lg H].
      rewrite H. destruct (Z.eqb_spec (80 - Z.of_nat k - 1) 0) as [E|E]; [lia|].
      do 2 f_equal; lia. }
    eexists. split; [exact Hdesc|]. repeat split.
  - assert (Hdesc : forall k, (k <= 79)%nat ->
              airplanes (sim (frames (tick_of v rnd) k (tick_of v rnd w)))
                !! length (airplanes (sim w))
              = Some (mkAirplane pn (99 - Z.of_nat k) 1 false
                                 (80 - Z.of_nat k) true false)).
    { induction k as [|k IH]; intros Hk; [exact Hout|].
      rewrite frames_S.
      destruct (descent_step v rnd _ _ _ _ _ (IH ltac:(lia)) ltac:(lia)) as [lg H].
      rewrite H. destruct (Z.eqb_spec (80 - Z.of_nat k - 1) 0) as [E|E]; [lia|].
      do 2 f_equal; lia. }
    change 80%nat with (S 79). rewrite frames_S.
    destruct (descent_step v rnd _ _ _ _ _ (Hdesc 79%nat (Nat.le_refl _)) ltac:(lia))
      as [lg H].
    eexists. split; [exact H|]. repeat split.
Qed.

(** C10 at a fresh single-runway trial whose first draws spawn an airplane
    with 100 liters: admitted on frame 1, landed with 19 liters on frame 81. *)
Lemma C10_witness :
  random_below 100 (draws_one_then_six 0%nat) = 0 /\
  random_below 900 (draws_one_then_six 1%nat) + 100 = 100 /\
  exists b,
    airplanes (sim (frames (Single.tick draws_one_then_six) 80
                      (Single.tick draws_one_then_six (world0 1 true)))) !! 0%nat
    = Some b /\
    fuel b = 19 /\ altitude b = 0 /\ landed b = true /\ crashed b = false.
Proof.
  split; [vm_compute; reflexivity|]. split; [vm_compute; reflexivity|].
  destruct (C10_spawn_then_tick SingleRunway draws_one_then_six (world0 1 true))
    as (a & _ & _ & _ & _ & _ & Hadmit & Hland);
    [vm_compute; reflexivity | vm_compute; reflexivity |].
  apply Hland, Hadmit. reflexivity.
Defined.

(** ** C8: a trial is determined by its random draws *)

Lemma tick_begin_ext (rnd1 rnd2 : RandomSource) (w : World) :
  rnd1 (calls w) = rnd2 (calls w) ->
  rnd1 (S (calls w)) = rnd2 (S (calls w)) ->
  tick_begin rnd1 w = tick_begin rnd2 w.
Proof.
  intros H0 H1. unfold tick_begin, generateAirplane. cbn [sim calls].
  rewrite H0, H1. reflexivity.
Qed.

(** A frame reads the random source only at the next two calls. *)
Lemma tick_of_ext (v : Variant) (rnd1 rnd2 : RandomSource) (w : World) :
  rnd1 (calls w) = rnd2 (calls w) ->
  rnd1 (S (calls w)) = rnd2 (S (calls w)) ->
  tick_of v rnd1 w = tick_of v rnd2 w.
Proof.
  intros H0 H1. destruct v; cbn [tick_of]; unfold Single.tick, Multi.tick;
    rewrite (tick_begin_ext rnd1 rnd2 w H0 H1); reflexivity.
Qed.

(** A frame makes one or two calls to the random source. *)
Lemma tick_of_calls (v : Variant) (rnd : RandomSource) (w : World) :
  (calls w < calls (tick_of v rnd w) <= calls w + 2)%nat.
Proof.
  assert (H : (calls w < calls (tick_begin rnd w) <= calls w + 2)%nat).
  { unfold tick_begin, generateAirplane. cbn [sim calls].
    destruct (_ =? 0); cbn [calls]; lia. }
  destruct v; cbn [tick_of]; unfold Single.tick, Multi.tick; cbn [calls]; exact H.
Qed.

Lemma frames_ext (v : Variant) (rnd1 rnd2 : RandomSource) (w : World) (n : nat) :
  (forall k, (k < calls w + 2 * n)%nat -> rnd1 k = rnd2 k) ->
  frames (tick_of v rnd1) n w = frames (tick_of v rnd2) n w /\
  (calls (frames (tick_of v rnd1) n w) <= calls w + 2 * n)%nat.
Proof.
  induction n as [|n IH]; intros Hagree.
  - split; [reflexivity | simpl; lia].
  - destruct IH as [Heq Hcalls]; [intros k Hk; apply Hagree; lia|].
    rewrite !frames_S, <- Heq. split.
    + apply tick_of_ext; apply Hagree; lia.
    + pose proof (tick_of_calls v rnd1 (frames (tick_of v rnd1) n w)). lia.
Qed.

(** The run number plays no part in a frame. *)
Lemma tick_of_set_runNumber (v : Variant) (rnd : RandomSource) (r : Z) (w : World) :
  tick_of v rnd (set_runNumber r w) = set_runNumber r (tick_of v rnd w).
Proof.
  destruct w as [[l f fr rn c] k].
  destruct v; cbn [tick_of]; unfold Single.tick, Multi.tick, tick_begin,
    generateAirplane, set_runNumber; cbn [sim calls airplanes frameNumber
    framerate runNumber control set_frameNumber set_airplanes];
    destruct (_ =? 0); reflexivity.
Qed.

Lemma frames_set_runNumber (v : Variant) (rnd : RandomSource) (r : Z) (w : World)
    (n : nat) :
  frames (tick_of v rnd) n (set_runNumber r w)
  = set_runNumber r (frames (tick_of v rnd) n w).
Proof.
  induction n as [|n IH]; [reflexivity|].
  rewrite !frames_S, IH. apply tick_of_set_runNumber.
Qed.

Lemma tick_of_frameNumber (v : Variant) (rnd : RandomSource) (w : World) :
  frameNumber (sim (tick_of v rnd w)) = frameNumber (sim w) + 1.
Proof.
  destruct v; cbn [tick_of].
  - apply Single_tick_frameNumber.
  - apply Multi_tick_frameNumber.
Qed.

Lemma tick_of_control (v : Variant) (rnd : RandomSource) (w : World) :
  control (sim (tick_of v rnd w)) = control (sim w).
Proof.
  destruct v; cbn [tick_of].
  - apply Single_tick_control.
  - apply Multi_tick_control.
Qed.

Lemma frames_shift (tick : World -> World) (n : nat) (w : World) :
  frames tick n (tick w) = tick (frames tick n w).
Proof.
  induction n as [|n IH]; [reflexivity|].
  rewrite !frames_S, IH. reflexivity.
Qed.

(** The loop of [run] stops, after exactly the frames that remain. *)
Lemma run_loop_frames (v : Variant) (rnd : RandomSource) (d gas : nat) (w : World) :
  frameNumber (sim w) = 10000 - Z.of_nat d ->
  (d < gas)%nat ->
  run_loop (tick_of v rnd) gas w = Some (frames (tick_of v rnd) d w).
Proof.
  revert gas w. induction d as [|d IH]; intros gas w Hf Hgas;
    (destruct gas as [|gas]; [lia|]); cbn [run_loop].
  - rewrite Hf. reflexivity.
  - destruct (Z.ltb_spec (frameNumber (sim w)) 10000) as [_|Hge]; [|lia].
    rewrite IH; [|rewrite tick_of_frameNumber; lia|lia].
    rewrite frames_shift. reflexivity.
Qed.

Lemma frames_control (v : Variant) (rnd : RandomSource) (n : nat) (w : World) :
  control (sim (frames (tick_of v rnd) n w)) = control (sim w).
Proof.
  induction n as [|n IH]; [reflexivity|].
  rewrite frames_S, tick_of_control. exact IH.
Qed.

Lemma frames_frameNumber (v : Variant) (rnd : RandomSource) (n : nat) (w : World) :
  frameNumber (sim (frames (tick_of v rnd) n w)) = frameNumber (sim w) + Z.of_nat n.
Proof.
  induction n as [|n IH]; [simpl; lia|].
  rewrite frames_S, tick_of_frameNumber, IH. lia.
Qed.

Lemma run_of_unfold (v : Variant) (rnd : RandomSource) (gas : nat) (s : Simulation)
    (crashTally : CrashTally) :
  run_of v rnd gas s crashTally
  = run_with (tick_of v rnd) gas (mkWorld s O) crashTally.
Proof. destruct v; reflexivity. Qed.

(** [run] returns: the trial after 10000 frames, and the tally with its
    crashed airplanes added to the group of the trial. *)
Lemma run_of_result (v : Variant) (rnd : RandomSource) (gas : nat) (r : Z)
    (c : bool) (crashTally : CrashTally) :
  (Z.to_nat 10000 < gas)%nat ->
  run_of v rnd gas (Simulation_init r c) crashTally
  = Some (trial v rnd r c (Z.to_nat 10000),
          recordCrashes c (airplanes (sim (trial v rnd r c (Z.to_nat 10000))))
                        crashTally).
Proof.
  intros Hgas. rewrite run_of_unfold. unfold run_with.
  change (mkWorld (Simulation_init r c) 0) with (world0 r c).
  rewrite (run_loop_frames v rnd (Z.to_nat 10000))
    by (cbn [sim frameNumber world0 Simulation_init]; lia).
  rewrite frames_control. reflexivity.
Qed.

(** C8. In both variants, two runs of a trial with the same control flag
    whose random sources agree on their first 20000 draws (a frame makes at
    most two) both run to the horizon of 10000 frames, end with the same
    airplanes, hence the same number of crashed airplanes, and add the same
    count to the same group of the tally. *)
Theorem C8_same_draws_same_crashes (v : Variant) (rnd1 rnd2 : RandomSource)
    (runNumber1 runNumber2 : Z) (control : bool) (gas : nat)
    (crashTally : CrashTally) :
  (forall k, (k < Z.to_nat 20000)%nat -> rnd1 k = rnd2 k) ->
  (Z.to_nat 10000 < gas)%nat ->
  exists w1 w2 tally,
    run_of v rnd1 gas (Simulation_init runNumber1 control) crashTally
      = Some (w1, tally) /\
    run_of v rnd2 gas (Simulation_init runNumber2 control) crashTally
      = Some (w2, tally) /\
    frameNumber (sim w1) = 10000 /\ frameNumber (sim w2) = 10000 /\
    airplanes (sim w1) = airplanes (sim w2) /\
    count_crashed (airplanes (sim w1)) = count_crashed (airplanes (sim w2)).
Proof.
  intros Hagree Hgas.
  assert (Hw2 : trial v rnd2 runNumber2 control (Z.to_nat 10000)
                = set_runNumber runNumber2
                    (trial v rnd1 runNumber1 control (Z.to_nat 10000))).
  { unfold trial.
    change (world0 runNumber2 control)
      with (set_runNumber runNumber2 (world0 runNumber1 control)).
    rewrite frames_set_runNumber. f_equal. symmetry.
    apply (frames_ext v rnd1 rnd2 (world0 runNumber1 control) (Z.to_nat 10000)).
    intros k Hk. apply Hagree. cbn [calls world0] in Hk. lia. }
  assert (Hplanes : airplanes (sim (trial v rnd1 runNumber1 control (Z.to_nat 10000)))
                    = airplanes (sim (trial v rnd2 runNumber2 control (Z.to_nat 10000))))
    by (rewrite Hw2; reflexivity).
  eexists _, _, _. rewrite !run_of_result by exact Hgas.
  split; [reflexivity|]. split; [rewrite Hplanes; reflexivity|].
  unfold trial at 1 2. rewrite !frames_frameNumber.
  cbn [sim frameNumber world0 Simulation_init].
  split; [lia|]. split; [lia|]. split; [exact Hplanes|].
  rewrite Hplanes. reflexivity.
Qed.

(** C8 at two random sources that agree on the first 20000 draws and differ
    afterwards. *)
Lemma C8_witness :
  (forall k, (k < Z.to_nat 20000)%nat ->
     draws_four k = (fun k => if (k <? Z.to_nat 20000)%nat then draws_four k else 0%Q) k) /\
  (Z.to_nat 10000 < Z.to_nat 10001)%nat /\
  exists w1 w2 tally,
    run_of MultiRunway draws_four (Z.to_nat 10001) (Simulation_init 1 false)
           (mkTally 0 0) = Some (w1, tally) /\
    run_of MultiRunway
           (fun k => if (k <? Z.to_nat 20000)%nat then draws_four k else 0%Q)
           (Z.to_nat 10001) (Simulation_init 3 false) (mkTally 0 0)
      = Some (w2, tally) /\
    frameNumber (sim w1) = 10000 /\ frameNumber (sim w2) = 10000 /\
    airplanes (sim w1) = airplanes (sim w2) /\
    count_crashed (airplanes (sim w1)) = count_crashed (airplanes (sim w2)).
Proof.
  assert (H1 : forall k, (k < Z.to_nat 20000)%nat ->
     draws_four k = (fun k => if (k <? Z.to_nat 20000)%nat then draws_four k else 0%Q) k).
  { intros k Hk. cbv beta. destruct (Nat.ltb_spec k (Z.to_nat 20000)); [reflexivity|lia]. }
  assert (H2 : (Z.to_nat 10000 < Z.to_nat 10001)%nat) by lia.
  split; [exact H1|]. split; [exact H2|].
  exact (C8_same_draws_same_crashes MultiRunway draws_four _ 1 3 false
           (Z.to_nat 10001) (mkTally 0 0) H1 H2).
Defined.

(** * Further properties of the code *)

(** ** Random draws: spawning and initial fuel *)

Lemma random_below_range (n : Z) (r : Q) :
  0 < n -> unit_draw r -> 0 <= random_below n r < n.
Proof.
  intros Hn [H0 H1]. destruct r as [a b].
  unfold random_below, Qfloor, Qmult, inject_Z, Qle, Qlt in *. simpl in *.
  rewrite Z.mul_1_r in *. rewrite Pos.mul_1_r.
  split.
  - apply Z.div_pos; nia.
  - apply Z.div_lt_upper_bound; nia.
Qed.

Lemma random_below_zero (n : Z) (r : Q) :
  0 < n -> unit_draw r ->
  (random_below n r = 0 <-> (r < 1 # Z.to_pos n)%Q).
Proof.
  intros Hn [H0 H1]. destruct r as [a b].
  unfold random_below, Qfloor, Qmult, inject_Z, Qle, Qlt in *. simpl in *.
  rewrite Z.mul_1_r in *. rewrite Pos.mul_1_r.
  rewrite Z2Pos.id by exact Hn.
  split.
  - intros Hd.
    pose proof (Z.mul_div_le (a * n) (Z.pos b) ltac:(lia)).
    pose proof (Z.mul_succ_div_gt (a * n) (Z.pos b) ltac:(lia)).
    rewrite Hd in *. nia.
  - intros Hlt. apply Z.div_small. nia.
Qed.



(** X2. [generateAirplane] with draws in [0, 1): an airplane spawns exactly
    when the frame's draw is below 1/100.  Then one airplane is appended at
    the end of the array, numbered with the new length, and two draws are
    consumed; otherwise the array is unchanged and one draw is consumed.  The
    airplanes already there are never touched. *)
Theorem X2_generateAirplane_spawns (rnd : RandomSource) (w : World) :
  unit_draw (rnd (calls w)) ->
  let w' := generateAirplane rnd w in
  ((rnd (calls w) < 1 # 100)%Q ->
     airplanes (sim w')
       = airplanes (sim w)
         ++ [Airplane_new (Z.of_nat (length (airplanes (sim w')))) (rnd (S (calls w)))] /\
     calls w' = S (S (calls w))) /\
  (~ (rnd (calls w) < 1 # 100)%Q ->
     airplanes (sim w') = airplanes (sim w) /\ calls w' = S (calls w)) /\
  frameNumber (sim w') = frameNumber (sim w) /\
  control (sim w') = control (sim w) /\
  runNumber (sim w') = runNumber (sim w).
Proof.
  intros Hr. cbv zeta.
  pose proof (random_below_zero 100 (rnd (calls w)) ltac:(lia) Hr) as Hz.
  change (Z.to_pos 100) with 100%positive in Hz.
  unfold generateAirplane.
  destruct (Z.eqb_spec (random_below 100 (rnd (calls w))) 0) as [E|E];
    cbn [sim calls airplanes set_airplanes frameNumber control runNumber].
  - split; [|split; [|repeat split]].
    + intros _. split; [|reflexivity].
      rewrite length_app. cbn [length].
      replace (Z.of_nat (length (airplanes (sim w)) + 1))
        with (Z.of_nat (length (airplanes (sim w))) + 1) by lia.
      reflexivity.
    + intros Hn. exfalso. apply Hn, Hz, E.
  - split; [|split; [|repeat split]].
    + intros Hlt. exfalso. apply E, Hz, Hlt.
    + intros _. split; reflexivity.
Qed.

(** X2 at a first draw of 0 and a second of 1/2, on an empty trial: an
    airplane (with 550 liters) is appended as airplane 1. *)
Lemma X2_witness :
  let rnd := draws_of [0%Q; (1 # 2)%Q] in
  let w' := generateAirplane rnd (world0 1 false) in
  unit_draw (rnd (calls (world0 1 false))) /\
  airplanes (sim w')
    = airplanes (sim (world0 1 false))
      ++ [Airplane_new (Z.of_nat (length (airplanes (sim w')))) (rnd 1%nat)] /\
  calls w' = 2%nat.
Proof.
  cbv zeta.
  assert (H : unit_draw (draws_of [0%Q; (1 # 2)%Q] (calls (world0 1 false))))
    by (split; unfold Qle, Qlt; simpl; lia).
  split; [exact H|].
  apply (proj1 (X2_generateAirplane_spawns (draws_of [0%Q; (1 # 2)%Q])
                  (world0 1 false) H)).
  unfold Qlt; simpl; lia.
Defined.

(** ** Invariants of a trial, by induction on its frames *)

Lemma frame_result_length (v : Variant) (control : bool) (l : list Airplane) :
  length (frame_result v control l) = length l.
Proof.
  destruct v; cbn [frame_result].
  - apply Single_frame_length.
  - apply Multi_frame_length.
Qed.

Lemma frame_result_outcome (v : Variant) (control : bool) (l : list Airplane)
    (i : nat) (a' : Airplane) :
  frame_result v control l !! i = Some a' ->
  exists a0, l !! i = Some a0 /\ frame_outcome v a0 a'.
Proof.
  intros Hi'.
  assert (Hlt : (i < length l)%nat).
  { rewrite <- (frame_result_length v control l). eapply lookup_lt_Some; eauto. }
  destruct (lookup_lt_is_Some_2 l i Hlt) as [a0 Ha0].
  exists a0. split; [exact Ha0|]. unfold frame_outcome.
  destruct v; cbn [frame_result cand_of] in *.
  - destruct (Single_frame_lookup control l i a0 Ha0)
      as [H|[[Hc H]|(_ & H1 & H2 & H)]]; rewrite H in Hi'; injection Hi' as <-; auto.
    right; right. auto.
  - destruct (Multi_frame_lookup control l i a0 Ha0) as [H|[Hc H]];
      rewrite H in Hi'; injection Hi' as <-; auto.
Qed.

(** Induction over the frames of a trial, for a property of an airplane and
    its index: it holds of a new airplane, and every outcome of a frame
    keeps it. *)
Lemma trial_invariant (v : Variant) (rnd : RandomSource) (runNumber : Z)
    (control : bool) (D : Q -> Prop) (P : nat -> Airplane -> Prop) :
  (forall k, D (rnd k)) ->
  (forall i r, D r -> P i (Airplane_new (Z.of_nat i + 1) r)) ->
  (forall i a0 a', P i a0 -> frame_outcome v a0 a' -> P i a') ->
  forall n i a,
    airplanes (sim (trial v rnd runNumber control n)) !! i = Some a -> P i a.
Proof.
  intros HD Hnew Hstep. induction n as [|n IH]; intros i a Hi.
  - cbn in Hi. rewrite lookup_nil in Hi. discriminate.
  - rewrite trial_S, tick_of_airplanes in Hi.
    destruct (frame_result_outcome v _ _ i a Hi) as (a0 & Ha0 & Hout).
    apply (Hstep i a0 a); [|exact Hout].
    set (w := trial v rnd runNumber control n) in *.
    destruct (tick_begin_airplanes rnd w) as [E|[_ E]]; rewrite E in Ha0.
    + apply IH. exact Ha0.
    + apply lookup_app_Some in Ha0 as [Ha0|[Hge Ha0]]; [apply IH; exact Ha0|].
      apply list_lookup_singleton_Some in Ha0 as [Hi0 <-].
      replace i with (length (airplanes (sim w))) by lia.
      apply Hnew, HD.
Qed.

Lemma wf_plane_set_landing_false (a : Airplane) :
  wf_plane a -> wf_plane (set_landing false a).
Proof.
  intros [H1 H2 H3 H4 H5 H6 H7 H8].
  destruct a as [pn f fr c al lg ld]; simpl in *.
  constructor; simpl; auto; try congruence.
  intros Hc. destruct (H6 Hc) as (? & _ & ?). auto.
Qed.

Lemma wf_admit_single_plane (a0 : Airplane) :
  wf_plane a0 -> Single_cand a0 = true ->
  wf_plane (set_landing true (frame_step a0)).
Proof.
  intros Hwf Hc. unfold Single_cand in Hc.
  apply andb_prop in Hc as [Hf Hld].
  apply negb_true_iff in Hld. apply Z.leb_le in Hf.
  destruct (wf_frame_step a0 Hwf) as [H1 H2 H3 H4 H5 H6 H7 H8].
  destruct (frame_step a0) as [pn f fr c al lg ld]; simpl in *.
  constructor; simpl; auto; try congruence; try lia.
  intros ->. destruct (H6 eq_refl) as (? & _ & _). lia.
Qed.

Lemma wf_frame_outcome (v : Variant) (a0 a' : Airplane) :
  wf_plane a0 -> frame_outcome v a0 a' -> wf_plane a'.
Proof.
  intros Hwf [->|[[Hc ->]|(_ & _ & _ & ->)]].
  - apply wf_frame_step, Hwf.
  - destruct v; cbn [cand_of] in Hc.
    + apply wf_admit_single_plane; assumption.
    + apply wf_admit_multi; assumption.
  - apply wf_plane_set_landing_false, wf_frame_step, Hwf.
Qed.

(** The frame step keeps the plane number and the fuel rate. *)
Lemma frame_step_planeNumber (a : Airplane) :
  planeNumber (frame_step a) = planeNumber a /\ fuelRate (frame_step a) = fuelRate a.
Proof.
  destruct a as [pn f fr c al lg ld].
  unfold frame_step, Airplane_tick, handleLanding, handleCrash.
  destruct ld, c, lg; cbn; try (split; reflexivity).
  - destruct (_ =? 0); split; reflexivity.
  - destruct (_ <=? 0); split; reflexivity.
Qed.

Lemma frame_outcome_planeNumber (v : Variant) (a0 a' : Airplane) :
  frame_outcome v a0 a' -> planeNumber a' = planeNumber a0.
Proof.
  intros [->|[[_ ->]|(_ & _ & _ & ->)]]; apply frame_step_planeNumber.
Qed.

(** X3. In both variants, in every state of a trial, the airplane at index
    [i] of the array (counting from 0) has plane number [i + 1]: numbers are
    given in arrival order, are all different, and an airplane keeps its
    number and its place for the rest of the trial. *)
Theorem X3_plane_numbers_sequential (v : Variant) (rnd : RandomSource)
    (runNumber : Z) (control : bool) (n : nat) (i : nat) (a : Airplane) :
  airplanes (sim (trial v rnd runNumber control n)) !! i = Some a ->
  planeNumber a = Z.of_nat i + 1 /\
  (forall j b, airplanes (sim (trial v rnd runNumber control n)) !! j = Some b ->
     planeNumber b = planeNumber a -> j = i) /\
  (forall m, exists a',
     airplanes (sim (trial v rnd runNumber control (n + m))) !! i = Some a' /\
     planeNumber a' = planeNumber a).
Proof.
  assert (Hnum : forall n i a,
            airplanes (sim (trial v rnd runNumber control n)) !! i = Some a ->
            planeNumber a = Z.of_nat i + 1).
  { apply (trial_invariant v rnd runNumber control (fun _ => True)
             (fun i a => planeNumber a = Z.of_nat i + 1)).
    - intros; exact I.
    - intros; reflexivity.
    - intros j a0 a' H0 Hout. rewrite (frame_outcome_planeNumber v a0 a' Hout).
      exact H0. }
  intros Hi. split; [apply (Hnum n i a Hi)|]. split.
  - intros j b Hj Heq. rewrite (Hnum n j b Hj), (Hnum n i a Hi) in Heq. lia.
  - intros m.
    assert (Hlt : (i < length (airplanes (sim (trial v rnd runNumber control (n + m)))))%nat).
    { induction m as [|m IH].
      - rewrite Nat.add_0_r. eapply lookup_lt_Some; eauto.
      - rewrite Nat.add_succ_r, trial_S, tick_of_airplanes, frame_result_length.
        destruct (tick_begin_airplanes rnd (trial v rnd runNumber control (n + m)))
          as [->|[_ ->]]; [exact IH|].
        rewrite length_app. lia. }
    destruct (lookup_lt_is_Some_2 _ _ Hlt) as [a' Ha'].
    exists a'. split; [exact Ha'|].
    rewrite (Hnum _ i a' Ha'), (Hnum n i a Hi). reflexivity.
Qed.

(** X3 at airplane 2 of the single-runway trial [draws_low_then_high]. *)
Lemma X3_witness :
  airplanes (sim (trial SingleRunway draws_low_then_high 1 false 2)) !! 1%nat
    = Some (mkAirplane 2 299 1 false 80 false false) /\
  planeNumber (mkAirplane 2 299 1 false 80 false false) = Z.of_nat 1 + 1.
Proof.
  assert (H : airplanes (sim (trial SingleRunway draws_low_then_high 1 false 2)) !! 1%nat
              = Some (mkAirplane 2 299 1 false 80 false false))
    by (vm_compute; reflexivity).
  split; [exact H|].
  exact (proj1 (X3_plane_numbers_sequential SingleRunway draws_low_then_high 1 false
                  2 1 _ H)).
Defined.

(** ** Counters of a trial *)

Lemma tick_of_runNumber (v : Variant) (rnd : RandomSource) (w : World) :
  runNumber (sim (tick_of v rnd w)) = runNumber (sim w).
Proof.
  destruct v; cbn [tick_of]; unfold Single.tick, Multi.tick, tick_begin,
    generateAirplane; cbn [sim calls]; destruct (_ =? 0); reflexivity.
Qed.

Lemma tick_of_calls_eq (v : Variant) (rnd : RandomSource) (w : World) :
  calls (tick_of v rnd w) = calls (tick_begin rnd w).
Proof. destruct v; reflexivity. Qed.

Lemma tick_begin_counts (rnd : RandomSource) (w : World) :
  (length (airplanes (sim (tick_begin rnd w))) = length (airplanes (sim w)) /\
   calls (tick_begin rnd w) = S (calls w)) \/
  (length (airplanes (sim (tick_begin rnd w))) = S (length (airplanes (sim w))) /\
   calls (tick_begin rnd w) = S (S (calls w))).
Proof.
  unfold tick_begin, generateAirplane. cbn [sim calls].
  destruct (_ =? 0); cbn [sim calls airplanes set_airplanes set_frameNumber].
  - right. rewrite length_app. cbn [length]. split; [lia|reflexivity].
  - left. split; reflexivity.
Qed.

Lemma trial_control (v : Variant) (rnd : RandomSource) (r : Z) (c : bool) (n : nat) :
  control (sim (trial v rnd r c n)) = c.
Proof. unfold trial. rewrite frames_control. reflexivity. Qed.

(** X4. In both variants, after [n] frames of a trial the frame counter is
    [n], the array holds at most [n] airplanes, and the number of random
    draws consumed is [n] plus the number of airplanes (one draw per frame,
    one more per spawn); the control flag and the run number are those given
    to the constructor. *)
Theorem X4_frames_draws_airplanes (v : Variant) (rnd : RandomSource)
    (r : Z) (c : bool) (n : nat) :
  let w := trial v rnd r c n in
  frameNumber (sim w) = Z.of_nat n /\
  (length (airplanes (sim w)) <= n)%nat /\
  calls w = (n + length (airplanes (sim w)))%nat /\
  control (sim w) = c /\
  runNumber (sim w) = r.
Proof.
  cbv zeta. induction n as [|n (Hf & Hl & Hc & Hctl & Hrn)].
  - repeat split; reflexivity.
  - rewrite trial_S, tick_of_frameNumber, tick_of_control, tick_of_runNumber,
      tick_of_calls_eq, tick_of_airplanes, frame_result_length.
    destruct (tick_begin_counts rnd (trial v rnd r c n)) as [[-> ->]|[-> ->]];
      repeat split; try assumption; lia.
Qed.

(** ** Fuel and altitude of the airplanes of a trial *)

Lemma altitude_ok_new (n : Z) (r : Q) : altitude_ok (Airplane_new n r).
Proof. split; cbn; [lia|]. split; intros H; discriminate H. Qed.

Lemma altitude_ok_frame_step (a : Airplane) :
  wf_plane a -> altitude_ok a -> altitude_ok (frame_step a).
Proof.
  intros Hwf [Hr Hl]. pose proof (wf_rate a Hwf) as Hrate.
  destruct (landed a) eqn:Hld; [rewrite frame_step_landed by exact Hld; split; auto;
                                 rewrite Hld; exact Hl|].
  rewrite frame_step_unlanded by exact Hld.
  destruct (crashed a) eqn:Hc;
    [rewrite Airplane_tick_crashed by exact Hc; split; auto; rewrite Hld; exact Hl|].
  pose proof (wf_alt_pos a Hwf Hld) as Hpos.
  destruct (landing a) eqn:Hlg.
  - rewrite Airplane_tick_landing by assumption. rewrite Hrate.
    destruct (Z.eqb_spec (altitude a - 1) 0) as [E|E]; unfold altitude_ok; cbn [altitude landed].
    + split; [lia|]. split; auto.
    + split; [lia|]. rewrite Hld. split; [discriminate|]. intros; contradiction.
  - rewrite Airplane_tick_waiting by assumption. unfold altitude_ok; cbn [altitude landed].
    split; [exact Hr|]. rewrite Hld. exact Hl.
Qed.

Lemma altitude_ok_set_landing (b : bool) (a : Airplane) :
  altitude_ok a -> altitude_ok (set_landing b a).
Proof. destruct a; exact (fun H => H). Qed.

Lemma fuel_ok_new (n : Z) (r : Q) : unit_draw r -> fuel_ok (Airplane_new n r).
Proof.
  intros Hr. pose proof (random_below_range 900 r ltac:(lia) Hr).
  unfold fuel_ok. cbn [Airplane_new fuel crashed landed].
  split; [lia|]. split; [discriminate|]. intros _ _. lia.
Qed.

Lemma fuel_ok_frame_step (a : Airplane) :
  wf_plane a -> fuel_ok a -> fuel_ok (frame_step a).
Proof.
  intros Hwf (Hr & Hcr & Hact). pose proof (wf_rate a Hwf) as Hrate.
  destruct (landed a) eqn:Hld;
    [rewrite frame_step_landed by exact Hld; repeat split; auto; try lia;
     rewrite Hld; discriminate|].
  rewrite frame_step_unlanded by exact Hld.
  destruct (crashed a) eqn:Hc;
    [rewrite Airplane_tick_crashed by exact Hc; repeat split; auto; try lia;
     rewrite Hc; discriminate|].
  specialize (Hact eq_refl eq_refl).
  pose proof (wf_alt_pos a Hwf Hld) as Hpos.
  destruct (landing a) eqn:Hlg.
  - pose proof (wf_landing a Hwf Hlg) as Hfa.
    rewrite Airplane_tick_landing by assumption. rewrite Hrate.
    destruct (Z.eqb_spec (altitude a - 1) 0) as [E|E]; unfold fuel_ok; cbn [fuel crashed landed].
    + repeat split; try lia; discriminate.
    + repeat split; try lia; discriminate.
  - rewrite Airplane_tick_waiting by assumption. rewrite Hrate.
    unfold fuel_ok; cbn [fuel crashed landed]. repeat split; intros; lia.
Qed.

Lemma fuel_ok_set_landing (b : bool) (a : Airplane) :
  fuel_ok a -> fuel_ok (set_landing b a).
Proof. destruct a; exact (fun H => H). Qed.

Lemma trial_fuel_altitude (v : Variant) (rnd : RandomSource) (runNumber : Z)
    (control : bool) (n : nat) (i : nat) (a : Airplane) :
  airplanes (sim (trial v rnd runNumber control n)) !! i = Some a ->
  (wf_plane a /\ altitude_ok a) /\ (valid_draws rnd -> fuel_ok a).
Proof.
  intros Hi. split.
  - revert n i a Hi.
    apply (trial_invariant v rnd runNumber control (fun _ => True)
             (fun _ a => wf_plane a /\ altitude_ok a)).
    + intros; exact I.
    + intros i r _. split; [|apply altitude_ok_new].
      apply (wf_Airplane_new (Z.of_nat i + 1)). lia.
    + intros i a0 a' [Hwf Hal] Hout.
      split; [eapply wf_frame_outcome; eauto|].
      destruct Hout as [->|[[_ ->]|(_ & _ & _ & ->)]];
        try apply altitude_ok_set_landing; apply altitude_ok_frame_step; assumption.
  - intros Hvalid. revert n i a Hi.
    assert (H : forall n i a,
              airplanes (sim (trial v rnd runNumber control n)) !! i = Some a ->
              wf_plane a /\ fuel_ok a); [|intros n i a Hi; apply (H n i a Hi)].
    apply (trial_invariant v rnd runNumber control unit_draw
             (fun _ a => wf_plane a /\ fuel_ok a)).
    + exact Hvalid.
    + intros i r Hr. split; [|apply fuel_ok_new, Hr].
      apply (wf_Airplane_new (Z.of_nat i + 1)). lia.
    + intros i a0 a' [Hwf Hf] Hout.
      split; [eapply wf_frame_outcome; eauto|].
      destruct Hout as [->|[[_ ->]|(_ & _ & _ & ->)]];
        try apply fuel_ok_set_landing; apply fuel_ok_frame_step; assumption.
Qed.

(** X5. In both variants, when every draw of the random source is in [0, 1),
    every airplane of a trial has, at the end of every frame, a fuel between
    0 and 999; a crashed airplane has exactly 0 liters (fuel never goes
    negative), and an airplane that is neither crashed nor landed has at
    least 1 liter. *)
Theorem X5_fuel_never_negative (v : Variant) (rnd : RandomSource)
    (runNumber : Z) (control : bool) (n : nat) (i : nat) (a : Airplane) :
  valid_draws rnd ->
  airplanes (sim (trial v rnd runNumber control n)) !! i = Some a ->
  0 <= fuel a <= 999 /\
  (crashed a = true -> fuel a = 0) /\
  (crashed a = false -> landed a = false -> 1 <= fuel a).
Proof.
  intros Hvalid Hi.
  exact (proj2 (trial_fuel_altitude v rnd runNumber control n i a Hi) Hvalid).
Qed.

Lemma valid_draws_of (l : list Q) : Forall unit_draw l -> valid_draws (draws_of l).
Proof.
  intros Hl k. unfold draws_of. revert k.
  induction Hl as [|x l Hx Hl IH]; intros [|k]; cbn [nth];
    try (split; unfold Qle, Qlt; simpl; lia); auto.
Qed.

(** X5 at the landing airplane of the trial [draws_low_then_high]. *)
Lemma X5_witness :
  valid_draws draws_low_then_high /\
  airplanes (sim (trial SingleRunway draws_low_then_high 1 false 2)) !! 0%nat
    = Some (mkAirplane 1 198 1 false 79 true false) /\
  0 <= 198 <= 999.
Proof.
  assert (Hv : valid_draws draws_low_then_high).
  { apply valid_draws_of. repeat constructor; unfold Qle, Qlt; simpl; lia. }
  assert (H : airplanes (sim (trial SingleRunway draws_low_then_high 1 false 2)) !! 0%nat
              = Some (mkAirplane 1 198 1 false 79 true false))
    by (vm_compute; reflexivity).
  split; [exact Hv|]. split; [exact H|].
  exact (proj1 (X5_fuel_never_negative SingleRunway draws_low_then_high 1 false
                  2 0 _ Hv H)).
Defined.

(** X6. In both variants, every airplane of a trial has, at the end of every
    frame, an altitude between 0 and 80 and a fuel rate of 1, and it is
    landed exactly when its altitude is 0. *)
Theorem X6_altitude_range (v : Variant) (rnd : RandomSource)
    (runNumber : Z) (control : bool) (n : nat) (i : nat) (a : Airplane) :
  airplanes (sim (trial v rnd runNumber control n)) !! i = Some a ->
  0 <= altitude a <= 80 /\
  (landed a = true <-> altitude a = 0) /\
  fuelRate a = 1.
Proof.
  intros Hi.
  destruct (proj1 (trial_fuel_altitude v rnd runNumber control n i a Hi))
    as [Hwf [Hr Hl]].
  split; [exact Hr|]. split; [exact Hl|]. apply (wf_rate a Hwf).
Qed.

(** X6 at the airplane of the multi-runway trial [draws_one_then_six] that
    has landed by frame 81. *)
Lemma X6_witness :
  airplanes (sim (trial MultiRunway draws_one_then_six 1 false 81)) !! 0%nat
    = Some (mkAirplane 1 19 1 false 0 true true) /\
  (landed (mkAirplane 1 19 1 false 0 true true) = true
   <-> altitude (mkAirplane 1 19 1 false 0 true true) = 0).
Proof.
  assert (H : airplanes (sim (trial MultiRunway draws_one_then_six 1 false 81)) !! 0%nat
              = Some (mkAirplane 1 19 1 false 0 true true))
    by (vm_compute; reflexivity).
  split; [exact H|].
  exact (proj1 (proj2 (X6_altitude_range MultiRunway draws_one_then_six 1 false
                         81 0 _ H))).
Defined.

(** ** Landings in the multi-runway variant are never halted *)

Lemma Multi_descent_step (rnd : RandomSource) (w : World) (i : nat) (b : Airplane) :
  wf_plane b ->
  airplanes (sim w) !! i = Some b ->
  landing b = true -> landed b = false ->
  exists b',
    airplanes (sim (Multi.tick rnd w)) !! i = Some b' /\
    fuel b' = fuel b - 1 /\ altitude b' = altitude b - 1 /\
    (altitude b <> 1 -> landing b' = true /\ landed b' = false) /\
    (altitude b = 1 -> landed b' = true).
Proof.
  intros Hwf Hi Hlg Hld.
  assert (Hc : crashed b = false).
  { destruct (crashed b) eqn:Hc; [|reflexivity].
    destruct (wf_crashed b Hwf Hc) as (_ & Hlg' & _). congruence. }
  pose proof (wf_rate b Hwf) as Hrate.
  assert (Hfs : frame_step b
                = mkAirplane (planeNumber b) (fuel b - 1) 1 false (altitude b - 1)
                    (negb (altitude b - 1 =? 0)) (altitude b - 1 =? 0)).
  { rewrite frame_step_unlanded, Airplane_tick_landing by assumption.
    rewrite Hrate, Hld. destruct (altitude b - 1 =? 0); reflexivity. }
  destruct (Multi_tick_lookup rnd w i b Hi) as [H|[_ H]]; rewrite Hfs in H;
    (eexists; split; [exact H|]); cbn [fuel altitude landing landed set_landing];
    (split; [reflexivity|]); (split; [reflexivity|]);
    destruct (Z.eqb_spec (altitude b - 1) 0); split; intros; try lia; auto.
Qed.

(** X7. In the multi-runway variant [prioritizeLandingOtherPlane] returns
    the array unchanged for every input, so a landing is never halted: an
    airplane of a trial that is landing at altitude [h] keeps descending one
    unit per frame, whatever the draws and the other airplanes, and is landed
    exactly [h] frames later, with [h] liters less. *)
Theorem X7_multi_landing_uninterrupted (rnd : RandomSource) (runNumber : Z)
    (control : bool) (n : nat) (i : nat) (a : Airplane) :
  airplanes (sim (trial MultiRunway rnd runNumber control n)) !! i = Some a ->
  landing a = true -> landed a = false ->
  (forall lowestAirplane landingPlanes store,
     Multi.prioritizeLandingOtherPlane lowestAirplane landingPlanes store = store) /\
  (forall m, (Z.of_nat m <= altitude a) ->
     exists b,
       airplanes (sim (trial MultiRunway rnd runNumber control (n + m))) !! i = Some b /\
       fuel b = fuel a - Z.of_nat m /\
       altitude b = altitude a - Z.of_nat m /\
       (Z.of_nat m < altitude a -> landing b = true /\ landed b = false) /\
       (Z.of_nat m = altitude a -> landed b = true)).
Proof.
  intros Hi Hlg Hld. split; [apply Multi_prioritize_noop|].
  destruct (trial_wf _ _ _ _ _ _ _ Hi) as [Hwf _].
  pose proof (wf_alt_pos a Hwf Hld) as Hpos.
  induction m as [|m IH]; intros Hm.
  - exists a. rewrite Nat.add_0_r. split; [exact Hi|].
    split; [lia|]. split; [lia|]. split; [auto|]. lia.
  - destruct IH as (b & Hb & Hfb & Hab & Hact & _); [lia|].
    destruct Hact as [Hlgb Hldb]; [lia|].
    destruct (trial_wf _ _ _ _ _ _ _ Hb) as [Hwfb _].
    rewrite Nat.add_succ_r, trial_S. cbn [tick_of].
    destruct (Multi_descent_step rnd _ i b Hwfb Hb Hlgb Hldb)
      as (b' & Hb' & Hf' & Ha' & Hgo & Hdone).
    exists b'. split; [exact Hb'|]. split; [lia|]. split; [lia|].
    split; intros H; [apply Hgo|apply Hdone]; lia.
Qed.

(** X7 at the airplane of the trial [draws_six_then_low] that is landing at
    altitude 79 after frame 6: it is landed 79 frames later. *)
Lemma X7_witness :
  airplanes (sim (trial MultiRunway draws_six_then_low 1 false 6)) !! 4%nat
    = Some (mkAirplane 5 498 1 false 79 true false) /\
  exists b,
    airplanes (sim (trial MultiRunway draws_six_then_low 1 false (6 + 79))) !! 4%nat
      = Some b /\
    fuel b = 498 - Z.of_nat 79 /\ landed b = true.
Proof.
  assert (H : airplanes (sim (trial MultiRunway draws_six_then_low 1 false 6)) !! 4%nat
              = Some (mkAirplane 5 498 1 false 79 true false))
    by (vm_compute; reflexivity).
  split; [exact H|].
  destruct (proj2 (X7_multi_landing_uninterrupted draws_six_then_low 1 false 6 4 _
                     H eq_refl eq_refl) 79%nat)
    as (b & Hb & Hf & _ & _ & Hld); [cbn; lia|].
  exists b. split; [exact Hb|]. split; [exact Hf|]. apply Hld. reflexivity.
Defined.

(** ** One admission per frame *)

Lemma admitted_is_best_candidate (v : Variant) (control : bool)
    (l : list Airplane) (k : nat) (c d : Airplane) :
  scanned_store v control l !! k = Some c -> landing c = false ->
  frame_result v control l !! k = Some d -> landing d = true ->
  best_candidate v control l = Plane k.
Proof.
  rewrite scanned_store_fmap. intros Hc Hl Hd Hn.
  assert (Hlen : (k < length (frame_step <$> l))%nat) by (eapply lookup_lt_Some; eauto).
  destruct v; cbn [frame_result best_candidate] in *.
  - destruct (Single_arbitrate_cases control l)
      as [H|[(i & b0 & Hlow & _ & _ & _ & H)|(i & j & b0 & e0 & H)]].
    + rewrite H in Hd. congruence.
    + rewrite H in Hd. destruct (Nat.eq_dec i k) as [->|Hne]; [exact Hlow|].
      rewrite list_lookup_insert_ne in Hd by exact Hne. congruence.
    + destruct H as (_ & Hlow & _ & _ & _ & _ & _ & _ & _ & _ & _ & H).
      rewrite H in Hd. destruct (Nat.eq_dec i k) as [->|Hne]; [exact Hlow|].
      rewrite list_lookup_insert_ne in Hd by exact Hne.
      destruct (Nat.eq_dec j k) as [->|Hne'].
      * rewrite list_lookup_insert_eq in Hd by exact Hlen.
        injection Hd as <-. discriminate Hn.
      * rewrite list_lookup_insert_ne in Hd by exact Hne'. congruence.
  - destruct (Multi_arbitrate_cases control l) as [H|(i & b0 & Hlow & _ & _ & H)].
    + rewrite H in Hd. congruence.
    + rewrite H in Hd. destruct (Nat.eq_dec i k) as [->|Hne]; [exact Hlow|].
      rewrite list_lookup_insert_ne in Hd by exact Hne. congruence.
Qed.

(** X8. In both variants a frame starts at most one landing, even when
    several runways are free: an airplane whose [landing] flag is false after
    the scan and true at the end of the frame is the scan's best candidate,
    so two such airplanes are the same one. *)
Theorem X8_one_admission_per_frame (v : Variant) (control : bool)
    (l : list Airplane) (k1 k2 : nat) (c1 c2 d1 d2 : Airplane) :
  scanned_store v control l !! k1 = Some c1 -> landing c1 = false ->
  frame_result v control l !! k1 = Some d1 -> landing d1 = true ->
  scanned_store v control l !! k2 = Some c2 -> landing c2 = false ->
  frame_result v control l !! k2 = Some d2 -> landing d2 = true ->
  k1 = k2 /\ best_candidate v control l = Plane k1.
Proof.
  intros Hc1 Hl1 Hd1 Hn1 Hc2 Hl2 Hd2 Hn2.
  pose proof (admitted_is_best_candidate v control l k1 c1 d1 Hc1 Hl1 Hd1 Hn1) as E1.
  pose proof (admitted_is_best_candidate v control l k2 c2 d2 Hc2 Hl2 Hd2 Hn2) as E2.
  split; [congruence | exact E1].
Qed.

(** X8 on two waiting airplanes with six free runways: only the one with
    less fuel is admitted. *)
Lemma X8_witness :
  let l := [mkAirplane 1 301 1 false 80 false false;
            mkAirplane 2 201 1 false 80 false false] in
  frame_result MultiRunway false l
    = [mkAirplane 1 300 1 false 80 false false;
       mkAirplane 2 200 1 false 80 true false] /\
  best_candidate MultiRunway false l = Plane 1.
Proof.
  cbv zeta. split; [vm_compute; reflexivity|].
  apply (X8_one_admission_per_frame MultiRunway false
           [mkAirplane 1 301 1 false 80 false false;
            mkAirplane 2 201 1 false 80 false false]
           1 1 (mkAirplane 2 200 1 false 80 false false)
           (mkAirplane 2 200 1 false 80 false false)
           (mkAirplane 2 200 1 false 80 true false)
           (mkAirplane 2 200 1 false 80 true false));
    vm_compute; reflexivity.
Defined.

(** ** Runway bookkeeping of the multi-runway scan *)

Lemma indices_where_S (g : Airplane -> bool) (l : list Airplane) (k : nat)
    (a0 : Airplane) :
  l !! k = Some a0 ->
  indices_where g l (S k)
  = indices_where g l k ++ (if g a0 then [k] else []).
Proof.
  intros Hk. unfold indices_where. rewrite seq_S, List.filter_app.
  cbn [List.filter Nat.add]. rewrite Hk. reflexivity.
Qed.

Lemma Multi_scan_books_upto (control : bool) (l : list Airplane) (k : nat) :
  (k <= length l)%nat ->
  let st := forEach k (Multi.scan_body control)
                    (Multi.mkScan l 6 false [] (Literal Infinity)) in
  Multi.landingPlanes st = indices_where Multi_lander l k /\
  Multi.runways st
    = 6 - (if control then 0 else Z.of_nat (length (Multi.landingPlanes st))) /\
  Multi.planeLanding st = negb (length (Multi.landingPlanes st) =? 0)%nat.
Proof.
  induction k as [|k IH]; intros Hk; cbv zeta.
  - cbn. destruct control; repeat split; reflexivity.
  - rewrite forEach_S.
    destruct (lookup_lt_is_Some_2 l k Hk) as [a0 Ha0].
    destruct IH as (Hlp & Hrw & Hpl); [lia|].
    destruct (Multi_scan_upto control l k ltac:(lia)) as [[_ Hge] _].
    set (st := forEach k (Multi.scan_body control)
                 (Multi.mkScan l 6 false [] (Literal Infinity))) in *.
    rewrite (indices_where_S _ _ _ _ Ha0).
    unfold Multi.scan_body. rewrite (Hge k (Nat.le_refl k)), Ha0.
    assert (HL : Multi_lander a0 = negb (landed a0) && landing (Airplane_tick a0))
      by reflexivity.
    destruct (landed a0); cbn [negb andb] in *.
    { rewrite HL, app_nil_r. auto. }
    destruct (landing (Airplane_tick a0)).
    { rewrite HL.
      cbn [Multi.landingPlanes Multi.runways Multi.planeLanding].
      rewrite Hrw, <- Hlp. rewrite !length_app. cbn [length].
      split; [reflexivity|]. split.
      - destruct control; cbn [negb]; lia.
      - destruct (Nat.eqb_spec (length (Multi.landingPlanes st) + 1) 0);
          [lia|reflexivity]. }
    rewrite HL, app_nil_r.
    destruct (_ && _); cbn [Multi.landingPlanes Multi.runways Multi.planeLanding]; auto.
Qed.

Lemma indices_where_length (g : Airplane -> bool) (l : list Airplane) :
  length (indices_where g l (length l)) = length (List.filter g l).
Proof.
  induction l as [|x l IH] using rev_ind; [reflexivity|].
  rewrite length_app. cbn [length]. rewrite Nat.add_1_r.
  rewrite (indices_where_S g (l ++ [x]) (length l) x)
    by (apply list_lookup_middle; reflexivity).
  rewrite List.filter_app, !length_app. cbn [List.filter].
  replace (indices_where g (l ++ [x]) (length l)) with (indices_where g l (length l)).
  - rewrite IH. destruct (g x); reflexivity.
  - unfold indices_where. apply List.filter_ext_in. intros i Hi.
    apply in_seq in Hi. rewrite lookup_app_l by lia. reflexivity.
Qed.

Lemma active_frame_step (a0 : Airplane) :
  active (frame_step a0) = Multi_lander a0.
Proof.
  destruct a0 as [pn f fr c al lg ld].
  unfold active, Multi_lander, frame_step, Airplane_tick, handleLanding, handleCrash.
  destruct ld, c, lg; cbn; try reflexivity.
  - destruct (_ =? 0); reflexivity.
  - destruct (_ <=? 0); reflexivity.
Qed.

Lemma count_active_fmap (l : list Airplane) :
  count_active (frame_step <$> l) = length (List.filter Multi_lander l).
Proof.
  unfold count_active. induction l as [|a l IH]; [reflexivity|].
  cbn [fmap list_fmap List.filter]. rewrite active_frame_step.
  destruct (Multi_lander a); cbn [length]; rewrite <- IH; reflexivity.
Qed.

Lemma active_frame_step_inv (a : Airplane) :
  active (frame_step a) = true -> active a = true.
Proof.
  destruct a as [pn f fr c al lg ld].
  unfold active, frame_step, Airplane_tick, handleLanding, handleCrash.
  destruct ld, c, lg; cbn; try congruence.
  destruct (_ <=? 0); cbn; congruence.
Qed.

Lemma count_active_frame_step (l : list Airplane) :
  (count_active (frame_step <$> l) <= count_active l)%nat.
Proof.
  unfold count_active. induction l as [|a l IH]; [reflexivity|].
  cbn [fmap list_fmap List.filter].
  destruct (active (frame_step a)) eqn:E.
  - rewrite (active_frame_step_inv a E). cbn [length]. lia.
  - destruct (active a); cbn [length]; lia.
Qed.

Lemma count_active_insert (l : list Airplane) (i : nat) (x : Airplane) :
  (count_active (<[i := x]> l) <= count_active l + 1)%nat.
Proof.
  unfold count_active. revert i. induction l as [|a l IH]; intros i;
    [destruct i; simpl; lia|].
  destruct i as [|i]; simpl.
  - destruct (active x), (active a); cbn [length]; lia.
  - specialize (IH i). destruct (active a); cbn [length]; lia.
Qed.

Lemma count_active_start (r : Ref) (store : list Airplane) :
  (count_active (Multi.startPlaneLanding r store) <= count_active store + 1)%nat.
Proof.
  unfold Multi.startPlaneLanding, ref_set_landing.
  destruct (_ && _); [|lia]. destruct r as [f|i]; [lia|].
  destruct (store !! i); [apply count_active_insert | lia].
Qed.

Lemma count_active_tick_begin (rnd : RandomSource) (w : World) :
  count_active (airplanes (sim (tick_begin rnd w))) = count_active (airplanes (sim w)).
Proof.
  destruct (tick_begin_airplanes rnd w) as [->|[_ ->]]; [reflexivity|].
  unfold count_active. rewrite List.filter_app, length_app. cbn. lia.
Qed.

(** One multi-runway frame keeps the number of occupied runways within the
    policy's bound. *)
Lemma Multi_frame_active (control : bool) (l : list Airplane) :
  (count_active l <= (if control then 1 else 6))%nat ->
  (count_active (Multi.arbitrate control (Multi.scan control l))
   <= (if control then 1 else 6))%nat.
Proof.
  intros Hl.
  destruct (Multi_scan_books_upto control l (length l) (Nat.le_refl _))
    as (Hlp & Hrw & Hpl).
  fold (Multi.scan control l) in Hlp, Hrw, Hpl.
  pose proof (count_active_frame_step l) as Hstep.
  assert (Hcount : length (Multi.landingPlanes (Multi.scan control l))
                   = count_active (frame_step <$> l)).
  { rewrite Hlp, indices_where_length, count_active_fmap. reflexivity. }
  unfold Multi.arbitrate. rewrite Multi_prioritize_noop, Multi_scan_store.
  pose proof (count_active_start (Multi.lowestAirplane (Multi.scan control l))
                (frame_step <$> l)) as Hstart.
  destruct control.
  - rewrite Hpl, Hcount, negb_involutive.
    destruct (Nat.eqb_spec (count_active (frame_step <$> l)) 0); lia.
  - rewrite Hrw, Hcount. cbn [js_truthy].
    destruct (Z.eqb_spec (6 - Z.of_nat (count_active (frame_step <$> l))) 0);
      cbn [negb]; lia.
Qed.

(** X9. In the multi-runway variant, in every state of a trial, the number
    of airplanes that are landing and not yet landed is at most 6 under the
    test policy and at most 1 under the control policy; during the scan the
    [runways] counter is 6 minus the number of airplanes found landing (test
    policy; it stays 6 under control), and [planeLanding] tells whether one
    was found. *)
Theorem X9_multi_occupied_runways (rnd : RandomSource) (runNumber : Z)
    (control : bool) (n : nat) :
  (count_active (airplanes (sim (trial MultiRunway rnd runNumber control n)))
   <= (if control then 1 else 6))%nat /\
  (let st := Multi.scan control
               (scanned_airplanes MultiRunway rnd runNumber control n) in
   Multi.runways st
     = 6 - (if control then 0 else Z.of_nat (count_active (Multi.store st))) /\
   Multi.planeLanding st = negb (count_active (Multi.store st) =? 0)%nat /\
   length (Multi.landingPlanes st) = count_active (Multi.store st)).
Proof.
  split.
  - induction n as [|n IH]; [destruct control; cbn; lia|].
    rewrite trial_S. cbn [tick_of]. rewrite Multi_tick_airplanes.
    rewrite trial_control.
    apply Multi_frame_active. rewrite count_active_tick_begin. exact IH.
  - cbv zeta. set (l := scanned_airplanes MultiRunway rnd runNumber control n).
    destruct (Multi_scan_books_upto control l (length l) (Nat.le_refl _))
      as (Hlp & Hrw & Hpl).
    fold (Multi.scan control l) in Hlp, Hrw, Hpl.
    assert (Hcount : length (Multi.landingPlanes (Multi.scan control l))
                     = count_active (Multi.store (Multi.scan control l))).
    { rewrite Hlp, indices_where_length, Multi_scan_store, count_active_fmap.
      reflexivity. }
    rewrite <- Hcount. auto.
Qed.

(** ** The single-runway variant: one runway, never idle *)

(** X10. In the single-runway variant, in every state of a trial and under
    both policies, at most one of [landing], [landed] and [crashed] is true
    for each airplane, and at most one airplane is landing. *)
Theorem X10_single_flags_exclusive (rnd : RandomSource) (runNumber : Z)
    (control : bool) (n : nat) :
  let l := airplanes (sim (trial SingleRunway rnd runNumber control n)) in
  Forall (fun a =>
            (landing a = true -> landed a = false /\ crashed a = false) /\
            (landed a = true -> landing a = false /\ crashed a = false) /\
            (crashed a = true -> landing a = false /\ landed a = false)) l /\
  (count_landing l <= 1)%nat.
Proof.
  cbv zeta. split; [|apply Single_count_landing].
  eapply Forall_impl; [apply (Single_reachable_wf rnd runNumber control n)|].
  intros a [Hwf Hl]. pose proof (wf_crashed a Hwf) as Hc.
  destruct (landing a), (landed a), (crashed a); repeat split; intros; try congruence;
    try (destruct Hc as (_ & ? & ?); congruence);
    try (specialize (Hl eq_refl); congruence).
Qed.

(** One single-runway frame leaves an airplane landing whenever it leaves
    one that could be admitted. *)
Lemma Single_frame_busy (control : bool) (l : list Airplane) :
  Forall wf_plane l ->
  let l' := Single.arbitrate control (Single.scan l) in
  (exists i a, l' !! i = Some a /\ landing a = true) \/
  (forall i a, l' !! i = Some a -> unlanded_with_80 a = false).
Proof.
  intros Hwf. cbv zeta.
  destruct (Single_scan_spec l) as (Hs & Hb & Hll & Hpl).
  destruct (Single.landingPlane (Single.scan l)) as [f|j] eqn:Hlp.
  - (* nothing is landing after the scan *)
    destruct Hll as [-> Hll]. unfold Single.arbitrate.
    rewrite Hs, Hpl, Hlp. cbn [is_plane ref_planeNumber js_truthy andb].
    unfold Single.startPlaneLanding. cbn [negb andb].
    destruct (Single.lowestAirplane (Single.scan l)) as [f|i].
    + right. destruct Hb as [_ Hb].
      cbn [ref_planeNumber js_truthy]. rewrite andb_false_r.
      intros i a Hi. rewrite list_lookup_fmap in Hi.
      destruct (l !! i) as [a0|] eqn:Ha0; [|discriminate]. injection Hi as <-.
      rewrite <- (Single_cand_unlanded a0 (proj1 (Forall_lookup _ _) Hwf i a0 Ha0)).
      apply (Hb i); [eapply lookup_lt_Some; eauto | exact Ha0].
    + left. destruct Hb as (Hi & a0 & Ha0 & _).
      pose proof (proj1 (Forall_lookup _ _) Hwf i a0 Ha0) as Hwf0.
      cbn [ref_planeNumber]. rewrite list_lookup_fmap, Ha0.
      cbn [fmap option_fmap option_map js_truthy].
      rewrite (proj1 (frame_step_planeNumber a0)).
      destruct (Z.eqb_spec (planeNumber a0) 0) as [E|_];
        [destruct (wf_number a0 Hwf0 E)|].
      rewrite length_fmap.
      destruct (Z.eqb_spec (Z.of_nat (length l)) 0) as [E|_]; [lia|].
      cbn [negb andb ref_set_landing]. rewrite list_lookup_fmap, Ha0.
      cbn [fmap option_fmap option_map].
      exists i, (set_landing true (frame_step a0)). split; [|reflexivity].
      apply list_lookup_insert_eq. rewrite length_fmap. exact Hi.
  - (* airplane [j] is landing after the scan *)
    left. destruct Hll as (Hj & b0 & Hb0 & Hlg & _).
    assert (Hjlen : (j < length (frame_step <$> l))%nat) by (rewrite length_fmap; exact Hj).
    destruct (Single_arbitrate_cases control l)
      as [->|[(i & a0 & _ & Hi & _ & _ & ->)|(i & j' & a0 & c0 & H)]].
    + exists j, (frame_step b0). split; [|exact Hlg].
      rewrite list_lookup_fmap, Hb0. reflexivity.
    + exists i, (set_landing true (frame_step a0)). split; [|reflexivity].
      apply list_lookup_insert_eq. rewrite length_fmap.
      eapply lookup_lt_Some; eauto.
    + destruct H as (_ & _ & _ & _ & Hi & _ & _ & _ & _ & _ & _ & ->).
      exists i, (set_landing true (frame_step a0)). split; [|reflexivity].
      apply list_lookup_insert_eq. rewrite length_insert, length_fmap.
      eapply lookup_lt_Some; eauto.
Qed.

(** X11. In the single-runway variant the runway is never left idle: at the
    end of every frame of a trial, either some airplane is landing, or no
    airplane could have been admitted (none is unlanded, uncrashed and has 80
    liters). *)
Theorem X11_single_runway_never_idle (rnd : RandomSource) (runNumber : Z)
    (control : bool) (n : nat) :
  let l := airplanes (sim (trial SingleRunway rnd runNumber control (S n))) in
  (exists i a, l !! i = Some a /\ landing a = true) \/
  (forall i a, l !! i = Some a -> unlanded_with_80 a = false).
Proof.
  cbv zeta. rewrite trial_S. cbn [tick_of]. rewrite Single_tick_airplanes.
  apply Single_frame_busy.
  apply (scanned_airplanes_wf SingleRunway rnd runNumber control n).
Qed.

(** ** The tally of crashes *)

Lemma count_crashed_filter (l : list Airplane) :
  count_crashed l = Z.of_nat (length (List.filter crashed l)).
Proof.
  unfold count_crashed.
  assert (H : forall acc,
            fold_left (fun n a => if crashed a then n + 1 else n) l acc
            = acc + Z.of_nat (length (List.filter crashed l))).
  { induction l as [|a l IH]; intros acc; cbn [fold_left List.filter]; [cbn; lia|].
    rewrite IH. destruct (crashed a); cbn [length]; lia. }
  rewrite H. lia.
Qed.

Lemma count_crashed_range (l : list Airplane) :
  0 <= count_crashed l <= Z.of_nat (length l).
Proof.
  rewrite count_crashed_filter. pose proof (List.filter_length_le crashed l). lia.
Qed.

(** X12. [recordCrashes] adds the number of crashed airplanes of the array,
    which is between 0 and the length of the array, to [controls] for a
    control trial and to [tests] otherwise, and leaves the other counter as
    it is; so neither counter ever decreases. *)
Theorem X12_recordCrashes_counts (c : bool) (l : list Airplane)
    (crashTally : CrashTally) :
  let tally' := recordCrashes c l crashTally in
  count_crashed l = Z.of_nat (length (List.filter crashed l)) /\
  0 <= count_crashed l <= Z.of_nat (length l) /\
  controls tally' = controls crashTally + (if c then count_crashed l else 0) /\
  tests tally' = tests crashTally + (if c then 0 else count_crashed l) /\
  controls crashTally <= controls tally' /\
  tests crashTally <= tests tally'.
Proof.
  cbv zeta. pose proof (count_crashed_range l) as Hr.
  split; [apply count_crashed_filter|]. split; [exact Hr|].
  unfold recordCrashes. destruct c; cbn [controls tests]; repeat split; lia.
Qed.

(** ** The loop over the trials *)

Lemma frames_runNumber (v : Variant) (rnd : RandomSource) (n : nat) (w : World) :
  runNumber (sim (frames (tick_of v rnd) n w)) = runNumber (sim w).
Proof.
  induction n as [|n IH]; [reflexivity|].
  rewrite frames_S, tick_of_runNumber. exact IH.
Qed.

(** Draws made over [n] frames: one per frame and one per new airplane. *)
Lemma frames_calls_length (v : Variant) (rnd : RandomSource) (n : nat) (w : World) :
  (calls (frames (tick_of v rnd) n w) + length (airplanes (sim w))
   = calls w + n + length (airplanes (sim (frames (tick_of v rnd) n w))))%nat.
Proof.
  induction n as [|n IH]; [cbn; lia|].
  rewrite frames_S, tick_of_calls_eq, tick_of_airplanes, frame_result_length.
  destruct (tick_begin_counts rnd (frames (tick_of v rnd) n w)) as [[-> ->]|[-> ->]];
    lia.
Qed.

Lemma rem_2_even (x : Z) : 0 <= x -> (Z.rem x 2 =? 0) = Z.even x.
Proof.
  intros Hx. rewrite Z.rem_mod_nonneg by lia. rewrite Zmod_even.
  destruct (Z.even x); reflexivity.
Qed.

(** One trial of the loop. *)
Lemma run_and_print_spec (v : Variant) (rnd : RandomSource) (gas : nat)
    (printAt i : Z) (c : bool) (drawn : nat) (crashTally : CrashTally)
    (printed : list CrashTally) :
  (Z.to_nat 10000 < gas)%nat ->
  exists w1,
    run_and_print (tick_of v rnd) gas printAt (mkWorld (Simulation_init i c) drawn)
                  crashTally printed
    = Some (w1, tally_after crashTally [w1],
            if i =? printAt then printed ++ [tally_after crashTally [w1]] else printed) /\
    runNumber (sim w1) = i /\ control (sim w1) = c /\ frameNumber (sim w1) = 10000 /\
    Z.of_nat (calls w1)
    = Z.of_nat drawn + 10000 + Z.of_nat (length (airplanes (sim w1))).
Proof.
  intros Hgas.
  set (w0 := mkWorld (Simulation_init i c) drawn).
  exists (frames (tick_of v rnd) (Z.to_nat 10000) w0).
  unfold run_and_print, run_with.
  rewrite (run_loop_frames v rnd (Z.to_nat 10000))
    by (cbn [sim frameNumber w0 Simulation_init]; lia).
  rewrite frames_runNumber, frames_control, frames_frameNumber.
  cbn [sim runNumber control frameNumber w0 Simulation_init tally_after fold_left].
  rewrite frames_control. cbn [sim control w0 Simulation_init].
  split; [reflexivity|]. repeat split; try lia.
  pose proof (frames_calls_length v rnd (Z.to_nat 10000) w0) as H.
  cbn [sim airplanes calls w0 Simulation_init length] in H. lia.
Qed.

Lemma tally_after_cons (crashTally : CrashTally) (w : World) (ws : list World) :
  tally_after crashTally (w :: ws) = tally_after (tally_after crashTally [w]) ws.
Proof. reflexivity. Qed.

(** The loop from the counter value [i], with [R] trials left. *)
Lemma main_loop_spec (v : Variant) (rnd : RandomSource) (gas : nat) (printAt : Z) :
  (Z.to_nat 10000 < gas)%nat ->
  forall (R : nat) (i : Z) (drawn : nat) (crashTally : CrashTally)
         (printed : list CrashTally) (loop_gas : nat),
    0 <= i -> (R < loop_gas)%nat ->
    exists ws drawn',
      main_loop (tick_of v rnd) gas loop_gas (i + Z.of_nat R - 1) printAt i drawn
                crashTally printed
      = Some (drawn', tally_after crashTally ws,
              printed ++
              (if (i <=? printAt) && (printAt <=? i + Z.of_nat R - 1)
               then [tally_after crashTally (take (Z.to_nat (printAt - i + 1)) ws)]
               else [])) /\
      length ws = R /\
      (forall k w, ws !! k = Some w ->
         runNumber (sim w) = i + Z.of_nat k /\
         control (sim w) = Z.even (i + Z.of_nat k) /\
         frameNumber (sim w) = 10000) /\
      Z.of_nat drawn' = Z.of_nat drawn + 10000 * Z.of_nat R + Z.of_nat (spawned ws).
Proof.
  intros Hgas. induction R as [|R IH];
    intros i drawn crashTally printed loop_gas Hi Hlg;
    (destruct loop_gas as [|loop_gas]; [lia|]); cbn [main_loop].
  - destruct (Z.leb_spec i (i + Z.of_nat 0 - 1)) as [H|_]; [lia|].
    exists [], drawn. split.
    + destruct (Z.leb_spec i printAt), (Z.leb_spec printAt (i + Z.of_nat 0 - 1));
        cbn [andb]; try lia; rewrite app_nil_r; reflexivity.
    + split; [reflexivity|]. split; [|cbn; lia].
      intros k w Hk. rewrite lookup_nil in Hk. discriminate.
  - destruct (Z.leb_spec i (i + Z.of_nat (S R) - 1)) as [_|H]; [|lia].
    destruct (run_and_print_spec v rnd gas printAt i (Z.rem i 2 =? 0) drawn
                crashTally printed Hgas)
      as (w1 & -> & Hrn & Hc & Hf & Hcalls).
    replace (i + Z.of_nat (S R) - 1) with (i + 1 + Z.of_nat R - 1) by lia.
    destruct (IH (i + 1) (calls w1) (tally_after crashTally [w1])
                (if i =? printAt then printed ++ [tally_after crashTally [w1]]
                 else printed) loop_gas ltac:(lia) ltac:(lia))
      as (ws & drawn' & -> & Hlen & Hws & Hdrawn).
    exists (w1 :: ws), drawn'. rewrite tally_after_cons. split; [|split; [|split]].
    + f_equal. f_equal.
      destruct (Z.eqb_spec i printAt) as [->|Hne].
      * (* this trial prints *)
        destruct (Z.leb_spec (printAt + 1) printAt) as [?|_]; [lia|].
        destruct (Z.leb_spec printAt printAt) as [_|?]; [|lia].
        destruct (Z.leb_spec printAt (printAt + 1 + Z.of_nat R - 1)) as [_|?]; [|lia].
        cbn [andb]. rewrite app_nil_r.
        replace (printAt - printAt + 1) with 1 by lia. reflexivity.
      * destruct (Z.leb_spec (i + 1) printAt), (Z.leb_spec i printAt),
          (Z.leb_spec printAt (i + 1 + Z.of_nat R - 1)); cbn [andb]; try lia;
          try reflexivity.
        replace (Z.to_nat (printAt - i + 1)) with (S (Z.to_nat (printAt - (i + 1) + 1)))
          by lia.
        reflexivity.
    + cbn [length]. lia.
    + intros [|k] w Hk; cbn in Hk.
      * injection Hk as <-. rewrite Z.add_0_r.
        rewrite Hrn, Hc, Hf, rem_2_even by lia. auto.
      * destruct (Hws k w Hk) as (H1 & H2 & H3).
        replace (i + Z.of_nat (S k)) with (i + 1 + Z.of_nat k) by lia. auto.
    + cbn [spawned fold_right]. fold (spawned ws). lia.
Qed.

Lemma tally_after_one (crashTally : CrashTally) (w : World) :
  controls (tally_after crashTally [w])
  = controls crashTally
    + (if control (sim w) then count_crashed (airplanes (sim w)) else 0) /\
  tests (tally_after crashTally [w])
  = tests crashTally
    + (if control (sim w) then 0 else count_crashed (airplanes (sim w))).
Proof.
  unfold tally_after. cbn [fold_left]. unfold recordCrashes.
  destruct (control (sim w)); cbn [controls tests]; split; lia.
Qed.

Lemma tally_after_bounds (ws : list World) (crashTally : CrashTally) :
  controls crashTally <= controls (tally_after crashTally ws) /\
  tests crashTally <= tests (tally_after crashTally ws) /\
  controls (tally_after crashTally ws) + tests (tally_after crashTally ws)
  <= controls crashTally + tests crashTally + Z.of_nat (spawned ws).
Proof.
  revert crashTally. induction ws as [|w ws IH]; intros crashTally; [cbn; lia|].
  rewrite tally_after_cons. specialize (IH (tally_after crashTally [w])).
  destruct (tally_after_one crashTally w) as [Hc Ht].
  pose proof (count_crashed_range (airplanes (sim w))) as Hr.
  cbn [spawned fold_right]. fold (spawned ws).
  destruct (control (sim w)); lia.
Qed.

(** X13. The program runs all its trials (1000 single-runway, 10000
    multi-runway), each to frame 10000: trial number [k] is a control trial
    exactly when [k] is even; the trials draw from the shared random source
    one after the other, 10000 draws per trial plus one per airplane spawned;
    and the final tally, obtained by recording the trials in order from
    { controls: 0, tests: 0 }, has non-negative counters whose sum is at most
    the number of airplanes spawned. *)
Theorem X13_main_runs_all_trials (v : Variant) (rnd : RandomSource)
    (gas loop_gas : nat) :
  (Z.to_nat 10000 < gas)%nat ->
  (Z.to_nat (maxRuns_of v) < loop_gas)%nat ->
  exists ws drawn printed,
    main v rnd gas loop_gas
      = Some (drawn, tally_after (mkTally 0 0) ws, printed) /\
    Z.of_nat (length ws) = maxRuns_of v /\
    (forall k w, ws !! k = Some w ->
       runNumber (sim w) = Z.of_nat k + 1 /\
       control (sim w) = Z.even (Z.of_nat k + 1) /\
       frameNumber (sim w) = 10000) /\
    Z.of_nat drawn = 10000 * maxRuns_of v + Z.of_nat (spawned ws) /\
    0 <= controls (tally_after (mkTally 0 0) ws) /\
    0 <= tests (tally_after (mkTally 0 0) ws) /\
    controls (tally_after (mkTally 0 0) ws) + tests (tally_after (mkTally 0 0) ws)
    <= Z.of_nat (spawned ws).
Proof.
  intros Hgas Hlg.
  destruct (main_loop_spec v rnd gas (printAt_of v) Hgas
              (Z.to_nat (maxRuns_of v)) 1 O (mkTally 0 0) [] loop_gas
              ltac:(lia) Hlg)
    as (ws & drawn & Hmain & Hlen & Hws & Hdrawn).
  assert (Hmax : 1 + Z.of_nat (Z.to_nat (maxRuns_of v)) - 1 = maxRuns_of v)
    by (destruct v; cbn; lia).
  rewrite Hmax in Hmain.
  exists ws, drawn. eexists. split; [exact Hmain|].
  split; [rewrite Hlen; destruct v; cbn; lia|].
  split.
  { intros k w Hk. destruct (Hws k w Hk) as (H1 & H2 & H3).
    replace (Z.of_nat k + 1) with (1 + Z.of_nat k) by lia. auto. }
  split; [destruct v; cbn [maxRuns_of] in *; lia|].
  pose proof (tally_after_bounds ws (mkTally 0 0)) as (H1 & H2 & H3).
  cbn [controls tests] in H1, H2, H3. lia.
Qed.

(** X13 for the multi-runway program with draws that never spawn. *)
Lemma X13_witness :
  (Z.to_nat 10000 < Z.to_nat 10001)%nat /\
  (Z.to_nat (maxRuns_of MultiRunway) < Z.to_nat 10001)%nat /\
  exists ws drawn printed,
    main MultiRunway draws_half (Z.to_nat 10001) (Z.to_nat 10001)
      = Some (drawn, tally_after (mkTally 0 0) ws, printed) /\
    Z.of_nat (length ws) = maxRuns_of MultiRunway.
Proof.
  assert (H1 : (Z.to_nat 10000 < Z.to_nat 10001)%nat) by lia.
  assert (H2 : (Z.to_nat (maxRuns_of MultiRunway) < Z.to_nat 10001)%nat)
    by (cbn [maxRuns_of]; lia).
  split; [exact H1|]. split; [exact H2|].
  destruct (X13_main_runs_all_trials MultiRunway draws_half (Z.to_nat 10001)
              (Z.to_nat 10001) H1 H2)
    as (ws & drawn & printed & Hmain & Hlen & _).
  exists ws, drawn, printed. split; assumption.
Defined.

(** X14. The program prints the tally once, at the end of the trial whose
    number the [run] method tests for: trial 100 of 1000 in the single-runway
    program, so what is printed is the tally after the first 100 trials
    only; the last trial in the multi-runway program, so what is printed is
    the final tally. *)
Theorem X14_main_prints_once (v : Variant) (rnd : RandomSource)
    (gas loop_gas : nat) :
  (Z.to_nat 10000 < gas)%nat ->
  (Z.to_nat (maxRuns_of v) < loop_gas)%nat ->
  exists ws drawn,
    main v rnd gas loop_gas
      = Some (drawn, tally_after (mkTally 0 0) ws,
              [tally_after (mkTally 0 0) (take (Z.to_nat (printAt_of v)) ws)]) /\
    Z.of_nat (length ws) = maxRuns_of v /\
    (v = MultiRunway ->
     take (Z.to_nat (printAt_of v)) ws = ws) /\
    (v = SingleRunway ->
     length (take (Z.to_nat (printAt_of v)) ws) = Z.to_nat 100 /\
     length ws = Z.to_nat 1000).
Proof.
  intros Hgas Hlg.
  destruct (main_loop_spec v rnd gas (printAt_of v) Hgas
              (Z.to_nat (maxRuns_of v)) 1 O (mkTally 0 0) [] loop_gas
              ltac:(lia) Hlg)
    as (ws & drawn & Hmain & Hlen & _ & _).
  assert (Hmax : 1 + Z.of_nat (Z.to_nat (maxRuns_of v)) - 1 = maxRuns_of v)
    by (destruct v; cbn; lia).
  rewrite Hmax in Hmain.
  assert (Hcond : (1 <=? printAt_of v) && (printAt_of v <=? maxRuns_of v) = true)
    by (destruct v; reflexivity).
  rewrite Hcond in Hmain.
  replace (printAt_of v - 1 + 1) with (printAt_of v) in Hmain by lia.
  exists ws, drawn. split; [exact Hmain|].
  split; [rewrite Hlen; destruct v; cbn; lia|]. split.
  - intros ->. apply take_ge. rewrite Hlen. cbn [printAt_of maxRuns_of]. lia.
  - intros ->. cbn [printAt_of maxRuns_of] in *. split; [|exact Hlen].
    rewrite length_take, Hlen. lia.
Qed.

(** X14 for the single-runway program with draws that never spawn. *)
Lemma X14_witness :
  (Z.to_nat 10000 < Z.to_nat 10001)%nat /\
  (Z.to_nat (maxRuns_of SingleRunway) < Z.to_nat 1001)%nat /\
  exists ws drawn,
    main SingleRunway draws_half (Z.to_nat 10001) (Z.to_nat 1001)
      = Some (drawn, tally_after (mkTally 0 0) ws,
              [tally_after (mkTally 0 0) (take (Z.to_nat 100) ws)]).
Proof.
  assert (H1 : (Z.to_nat 10000 < Z.to_nat 10001)%nat) by lia.
  assert (H2 : (Z.to_nat (maxRuns_of SingleRunway) < Z.to_nat 1001)%nat)
    by (cbn [maxRuns_of]; lia).
  split; [exact H1|]. split; [exact H2|].
  destruct (X14_main_prints_once SingleRunway draws_half (Z.to_nat 10001)
              (Z.to_nat 1001) H1 H2)
    as (ws & drawn & Hmain & _).
  exists ws, drawn. exact Hmain.
Defined.

(** ** Frames without a candidate, landings that cannot be halted *)

Lemma scan_best_none (cand : Airplane -> bool) (l : list Airplane) (r : Ref) :
  (forall i a0, l !! i = Some a0 -> cand a0 = false) ->
  scan_best cand l (length l) r -> r = Literal Infinity.
Proof.
  intros Hnone Hb. destruct r as [f|i].
  - destruct Hb as [-> _]. reflexivity.
  - destruct Hb as (_ & a0 & Ha0 & Hc & _). rewrite (Hnone i a0 Ha0) in Hc.
    discriminate.
Qed.

(** X15. In both variants, when no airplane passes the scan's candidate
    test, the scan ends with the [{ fuel: Infinity }] literal as best
    candidate and the frame neither starts nor halts a landing: the array at
    the end of the frame is the frame step of every airplane (in particular
    an empty array stays empty). *)
Theorem X15_no_candidate_no_change (v : Variant) (control : bool)
    (l : list Airplane) :
  (forall i a0, l !! i = Some a0 -> cand_of v a0 = false) ->
  best_candidate v control l = Literal Infinity /\
  frame_result v control l = frame_step <$> l.
Proof.
  intros Hnone.
  assert (Hb : best_candidate v control l = Literal Infinity).
  { destruct v; cbn [best_candidate cand_of] in *.
    - apply (scan_best_none Single_cand l); [exact Hnone|].
      apply (Single_scan_spec l).
    - apply (scan_best_none Multi_cand l); [exact Hnone|].
      apply Multi_scan_lowest. }
  split; [exact Hb|].
  destruct v; cbn [frame_result best_candidate cand_of] in *.
  - destruct (Single_arbitrate_cases control l)
      as [H|[(i & a0 & Hlow & _)|(i & j & a0 & b0 & _ & Hlow & _)]];
      [exact H| |]; rewrite Hb in Hlow; discriminate.
  - destruct (Multi_arbitrate_cases control l) as [H|(i & a0 & Hlow & _)];
      [exact H|]. rewrite Hb in Hlow. discriminate.
Qed.

(** X15 on an airspace with one landed and one crashed airplane. *)
Lemma X15_witness :
  let l := [mkAirplane 1 19 1 false 0 false true;
            mkAirplane 2 0 1 true 80 false false] in
  (forall i a0, l !! i = Some a0 -> cand_of SingleRunway a0 = false) /\
  frame_result SingleRunway false l = frame_step <$> l.
Proof.
  cbv zeta.
  assert (H : forall i a0,
            [mkAirplane 1 19 1 false 0 false true;
             mkAirplane 2 0 1 true 80 false false] !! i = Some a0 ->
            cand_of SingleRunway a0 = false).
  { intros [|[|i]] a0 Hi; cbn in Hi; try discriminate;
      injection Hi as <-; reflexivity. }
  split; [exact H|].
  exact (proj2 (X15_no_candidate_no_change SingleRunway false _ H)).
Defined.

Lemma Single_descent_step (rnd : RandomSource) (w : World) (i : nat) (b : Airplane) :
  wf_plane b ->
  airplanes (sim w) !! i = Some b ->
  landing b = true -> landed b = false ->
  control (sim w) = true \/ fuel b < 81 + altitude b ->
  exists b',
    airplanes (sim (Single.tick rnd w)) !! i = Some b' /\
    fuel b' = fuel b - 1 /\ altitude b' = altitude b - 1 /\
    (altitude b <> 1 -> landing b' = true /\ landed b' = false) /\
    (altitude b = 1 -> landed b' = true).
Proof.
  intros Hwf Hi Hlg Hld Hsafe.
  assert (Hc : crashed b = false).
  { destruct (crashed b) eqn:Hc; [|reflexivity].
    destruct (wf_crashed b Hwf Hc) as (_ & Hlg' & _). congruence. }
  pose proof (wf_rate b Hwf) as Hrate.
  assert (Hfs : frame_step b
                = mkAirplane (planeNumber b) (fuel b - 1) 1 false (altitude b - 1)
                    (negb (altitude b - 1 =? 0)) (altitude b - 1 =? 0)).
  { rewrite frame_step_unlanded, Airplane_tick_landing by assumption.
    rewrite Hrate, Hld. destruct (altitude b - 1 =? 0); reflexivity. }
  destruct (Single_tick_lookup rnd w i b Hi) as [H|[[_ H]|(Hctl & _ & Hge & H)]];
    rewrite Hfs in *.
  - eexists; split; [exact H|]; cbn [fuel altitude landing landed set_landing].
    split; [reflexivity|]. split; [reflexivity|].
    destruct (Z.eqb_spec (altitude b - 1) 0); split; intros; try lia; auto.
  - eexists; split; [exact H|]; cbn [fuel altitude landing landed set_landing].
    split; [reflexivity|]. split; [reflexivity|].
    destruct (Z.eqb_spec (altitude b - 1) 0); split; intros; try lia; auto.
  - cbn [fuel altitude] in Hge. destruct Hsafe as [Ht|Hlt]; [congruence|lia].
Qed.

(** X16. In the single-runway variant, an airplane of a trial that is landing
    at altitude [h] is landed exactly [h] frames later, with [h] liters less,
    whenever its landing cannot be halted: under the control policy, or when
    its fuel is below 81 plus its altitude (the margin between fuel and
    altitude does not change during a descent). *)
Theorem X16_single_landing_completes (rnd : RandomSource) (runNumber : Z)
    (c : bool) (n : nat) (i : nat) (a : Airplane) :
  airplanes (sim (trial SingleRunway rnd runNumber c n)) !! i = Some a ->
  landing a = true -> landed a = false ->
  c = true \/ fuel a < 81 + altitude a ->
  forall m, (Z.of_nat m <= altitude a) ->
    exists b,
      airplanes (sim (trial SingleRunway rnd runNumber c (n + m))) !! i = Some b /\
      fuel b = fuel a - Z.of_nat m /\
      altitude b = altitude a - Z.of_nat m /\
      (Z.of_nat m < altitude a -> landing b = true /\ landed b = false) /\
      (Z.of_nat m = altitude a -> landed b = true).
Proof.
  intros Hi Hlg Hld Hsafe.
  destruct (trial_wf _ _ _ _ _ _ _ Hi) as [Hwf _].
  pose proof (wf_alt_pos a Hwf Hld) as Hpos.
  induction m as [|m IH]; intros Hm.
  - exists a. rewrite Nat.add_0_r. split; [exact Hi|].
    split; [lia|]. split; [lia|]. split; [auto|]. lia.
  - destruct IH as (b & Hb & Hfb & Hab & Hact & _); [lia|].
    destruct Hact as [Hlgb Hldb]; [lia|].
    destruct (trial_wf _ _ _ _ _ _ _ Hb) as [Hwfb _].
    rewrite Nat.add_succ_r, trial_S. cbn [tick_of].
    destruct (Single_descent_step rnd _ i b Hwfb Hb Hlgb Hldb)
      as (b' & Hb' & Hf' & Ha' & Hgo & Hdone).
    { rewrite trial_control. destruct Hsafe as [->|Hlt]; [left; reflexivity|].
      right. lia. }
    exists b'. split; [exact Hb'|]. split; [lia|]. split; [lia|].
    split; intros H; [apply Hgo|apply Hdone]; lia.
Qed.

(** X16 at the landing airplane of the control trial [draws_low_then_high]
    after frame 2, at altitude 79: it is landed 79 frames later. *)
Lemma X16_witness :
  airplanes (sim (trial SingleRunway draws_low_then_high 2 true 2)) !! 0%nat
    = Some (mkAirplane 1 198 1 false 79 true false) /\
  exists b,
    airplanes (sim (trial SingleRunway draws_low_then_high 2 true (2 + 79))) !! 0%nat
      = Some b /\
    fuel b = 198 - Z.of_nat 79 /\ landed b = true.
Proof.
  assert (H : airplanes (sim (trial SingleRunway draws_low_then_high 2 true 2)) !! 0%nat
              = Some (mkAirplane 1 198 1 false 79 true false))
    by (vm_compute; reflexivity).
  split; [exact H|].
  destruct (X16_single_landing_completes draws_low_then_high 2 true 2 0 _
              H eq_refl eq_refl (or_introl eq_refl) 79%nat)
    as (b & Hb & Hf & _ & _ & Hld); [cbn; lia|].
  exists b. split; [exact Hb|]. split; [exact Hf|]. apply Hld. reflexivity.
Defined.
